(** * cosine_sim_analysis: the notebook [notebooks/rd1.ipynb]

    A shallow embedding of the notebook's three pieces: the two model classes
    ([BaseEmbeddingModel], [CrossAttentionModel]), the synthetic data
    generator and train/test split inside [run_comparison], and the printer
    [print_results].

    Conventions.
    - Python integers and int64 tensor entries are [Z]. A Python integer
      given as a size or a bound must fit int64 ([Int64Overflow] otherwise);
      one given as the operand of a tensor operation is also accepted in
      [2^63, 2^64), where it is read as unsigned and wraps to a negative
      int64 ([int64_of_scalar]).
    - Floating-point tensor entries are elements of a type [F] with the
      operations of the class [Scalar]; the shape of every result is
      independent of [F].
    - numpy's and torch's global generators are tapes of raw draws; every
      sampling primitive consumes the tape it reads in the source.
    - A computation that may raise is a function from the world to either
      an error or a value and the next world. *)

From Stdlib Require Import ZArith QArith List String Lia Floats.
From stdpp Require Import base option list gmap strings pretty.

Local Open Scope Z_scope.

(** ** Errors and the world *)

Inductive error : Type :=
| RandintEmptyRange (low high : Z)  (* random_ expects 'from' < 'to' *)
| Int64Overflow                     (* Python int too large to convert *)
| ZeroDivisionError                 (* integer remainder by zero *)
| StackEmptyList                    (* stack expects a non-empty list *)
| StackShapeMismatch                (* stack expects tensors of equal size *)
| NotOneElement                     (* only one element tensors convert *)
| BroadcastMismatch                 (* sizes of tensors must match *)
| ShapeMismatch                     (* shapes cannot be multiplied *)
| IndexError                        (* index out of range *)
| ValueError                        (* num_samples should be a positive
                                       integer value *)
| KeyError (k : string)
| TypeError                         (* subscripting or formatting a float *)
| NegativeDimension                 (* negative size in a constructor *)
| EmbedDimNotDivisible (embed_dim num_heads : Z)
                                    (* embed_dim must be divisible by
                                       num_heads *)
| EmbedDimNotPositive (embed_dim : Z)
| Raised (msg : string).            (* an exception of train_and_measure *)

(** A tape of raw generator output; [tape_next] reads one draw. *)
Definition tape : Type := nat -> N.

Definition tape_next (t : tape) : N * tape := (t O, fun i => t (S i)).

Record world : Type := World {
  np_rng : tape;            (* numpy's global RandomState *)
  torch_rng : tape;         (* torch's default CPU generator *)
  clock : tape;             (* readings of time.time() *)
  stdout : list string      (* what each print call wrote, oldest first *)
}.

Inductive result (A : Type) : Type :=
| Err (e : error)
| Ok (a : A) (w : world).
Arguments Err {A} e.
Arguments Ok {A} a w.

Definition M (A : Type) : Type := world -> result A.

Definition ret {A} (a : A) : M A := fun w => Ok a w.
Definition raise {A} (e : error) : M A := fun _ => Err e.
Definition bind {A B} (c : M A) (k : A -> M B) : M B :=
  fun w => match c w with
           | Err e => Err e
           | Ok a w' => k a w'
           end.

#[global] Instance M_ret : MRet M := @ret.
#[global] Instance M_bind : MBind M := fun A B k c => bind c k.

Fixpoint mapM {A B} (f : A -> M B) (l : list A) : M (list B) :=
  match l with
  | [] => ret []
  | x :: l' => y ← f x; ys ← mapM f l'; ret (y :: ys)
  end.

(** [for _ in range(n)] collecting what each iteration appends. *)
Fixpoint repeatM {A} (n : nat) (c : M A) : M (list A) :=
  match n with
  | O => ret []
  | S n' => x ← c; xs ← repeatM n' c; ret (x :: xs)
  end.

(** ** Random sampling primitives *)

Definition int64_min : Z := - 2 ^ 63.
Definition int64_max : Z := 2 ^ 63 - 1.
Definition fits_int64 (z : Z) : bool := (int64_min <=? z) && (z <=? int64_max).

(** [np.random.random()]: the numerator [k] of the sample [k / 2^53]. *)
Definition np_random : M N :=
  fun w => let (r, t) := tape_next (np_rng w) in
           Ok (r mod 2 ^ 53)%N
              {| np_rng := t; torch_rng := torch_rng w;
                 clock := clock w; stdout := stdout w |}.

(** One raw draw of torch's generator. *)
Definition torch_raw : M N :=
  fun w => let (r, t) := tape_next (torch_rng w) in
           Ok r {| np_rng := np_rng w; torch_rng := t;
                   clock := clock w; stdout := stdout w |}.

(** [time.time()]: the next reading of the clock. *)
Definition time_time : M N :=
  fun w => let (r, t) := tape_next (clock w) in
           Ok r {| np_rng := np_rng w; torch_rng := torch_rng w;
                   clock := t; stdout := stdout w |}.

(** [print(line)]. *)
Definition print (line : string) : M unit :=
  fun w => Ok tt {| np_rng := np_rng w; torch_rng := torch_rng w;
                    clock := clock w; stdout := stdout w ++ [line] |}.

(** [torch.randint(low, high, (n,))]: [n] int64 entries, each
    [raw % (high - low) + low]. *)
Definition randint (low high : Z) (n : nat) : M (list Z) :=
  if negb (fits_int64 low && fits_int64 high) then raise Int64Overflow
  else if high <=? low then raise (RandintEmptyRange low high)
  else repeatM n (r ← torch_raw; ret (Z.of_N r mod (high - low) + low)).

(** ** int64 tensors of rank 0 and 1 *)

Definition wrap64 (z : Z) : Z := (z + 2 ^ 63) mod 2 ^ 64 - 2 ^ 63.

(** [t[i]] on a rank-1 tensor, negative [i] counting from the end. *)
Definition tensor_get (t : list Z) (i : Z) : M Z :=
  let j := if i <? 0 then Z.of_nat (length t) + i else i in
  if j <? 0 then raise IndexError
  else match t !! Z.to_nat j with
       | Some z => ret z
       | None => raise IndexError
       end.

(** [a + b] on rank-1 tensors with broadcasting of a size-1 operand. *)
Definition tensor_add (a b : list Z) : M (list Z) :=
  match a, b with
  | [x], _ => ret (map (fun y => wrap64 (x + y)) b)
  | _, [y] => ret (map (fun x => wrap64 (x + y)) a)
  | _, _ => if (length a =? length b)%nat
            then ret (zip_with (fun x y => wrap64 (x + y)) a b)
            else raise BroadcastMismatch
  end.

(** A Python integer as the second operand of an operation on an int64
    tensor. One that fits int64 is taken as it is; one in [2^63, 2^64) is
    read as an unsigned 64-bit scalar and cast to the tensor's type, which
    wraps it to [m - 2^64]; any other raises. *)
Definition int64_of_scalar (m : Z) : M Z :=
  if (int64_min <=? m) && (m <? 2 ^ 64) then ret (wrap64 m)
  else raise Int64Overflow.

(** [t + k] with a Python integer [k]. *)
Definition tensor_add_scalar (t : list Z) (k : Z) : M (list Z) :=
  k64 ← int64_of_scalar k;
  ret (map (fun x => wrap64 (x + k64)) t).

(** [t % m] with a Python integer [m]: the remainder has the sign of the
    int64 operand that [m] becomes. *)
Definition tensor_rem (t : list Z) (m : Z) : M (list Z) :=
  m64 ← int64_of_scalar m;
  if m64 =? 0 then raise ZeroDivisionError
  else ret (map (fun x => x mod m64) t).

Definition scalar_rem (x m : Z) : M Z :=
  m64 ← int64_of_scalar m;
  if m64 =? 0 then raise ZeroDivisionError
  else ret (x mod m64).

(** A label as the loop appends it: a rank-0 tensor under pattern 1, a
    tensor of shape (1,) under pattern 2. *)
Inductive label_tensor : Type :=
| Rank0 (z : Z)
| Rank1 (l : list Z).

(** [torch.tensor(labels)] on a list of tensors: each must hold one element. *)
Definition tensor_of_labels (ls : list label_tensor) : M (list Z) :=
  mapM (fun l => match l with
                 | Rank0 z => ret z
                 | Rank1 [z] => ret z
                 | Rank1 _ => raise NotOneElement
                 end) ls.

(** [torch.stack(sequences)]: a non-empty list of tensors of one size. *)
Definition stack (seqs : list (list Z)) : M (list (list Z)) :=
  match seqs with
  | [] => raise StackEmptyList
  | s :: rest =>
      if forallb (fun s' => (length s' =? length s)%nat) rest
      then ret seqs else raise StackShapeMismatch
  end.

(** ** The synthetic data generator of [run_comparison] *)

(** The body of the generation loop: one sequence and its label. *)
Definition generate_example (vocab_size : Z) : M (list Z * label_tensor) :=
  u ← np_random;
  if (u <? 2 ^ 52)%N then
    (* Pattern 1: sum of first and last token maps to label *)
    seq ← randint 0 (vocab_size / 4) 10;
    first ← tensor_get seq 0;
    last ← tensor_get seq (-1);
    label ← scalar_rem (wrap64 (first + last)) vocab_size;
    ret (seq, Rank0 label)
  else
    (* Pattern 2: sequence of similar tokens predicts next *)
    base_token ← randint 0 (vocab_size / 4) 1;
    noise ← randint (-2) 3 10;
    shifted ← tensor_add base_token noise;
    seq ← tensor_rem shifted vocab_size;
    bumped ← tensor_add_scalar base_token 3;
    label ← tensor_rem bumped vocab_size;
    ret (seq, Rank1 label).

(** The loop, [torch.stack(sequences)] and [torch.tensor(labels)]. *)
Definition generate_data (vocab_size dataset_size : Z)
  : M (list (list Z) * list Z) :=
  examples ← repeatM (Z.to_nat dataset_size) (generate_example vocab_size);
  data ← stack (map fst examples);
  labels ← tensor_of_labels (map snd examples);
  ret (data, labels).

(** ** The train/test split *)

(** A non-negative finite binary64 value [mant * 2^expo]. *)
Record binary64 : Type := B64 { mant : Z; expo : Z }.

(** Round [m * 2^e] to a 53-bit significand, ties to even. *)
Definition round53 (m e : Z) : binary64 :=
  let s := Z.log2 m - 52 in
  if s <=? 0 then B64 m e
  else
    let q := m / 2 ^ s in
    let r := m mod 2 ^ s in
    let half := 2 ^ (s - 1) in
    let up := (half <? r) || ((r =? half) && Z.odd q) in
    B64 (if up then q + 1 else q) (e + s).

(** [float(n)] for a non-negative Python integer. *)
Definition float_of_int (n : Z) : binary64 := round53 n 0.

(** The literal [0.8], that is 0x1.999999999999ap-1. *)
Definition float_0_8 : binary64 := B64 3602879701896397 (-52).

Definition float_mul (a b : binary64) : binary64 :=
  round53 (mant a * mant b) (expo a + expo b).

(** [int(x)] for a non-negative float: truncation. *)
Definition int_of_float (x : binary64) : Z :=
  if 0 <=? expo x then mant x * 2 ^ expo x else mant x / 2 ^ (- expo x).

(** [train_size = int(0.8 * len(data))]. *)
Definition train_size_of (len : nat) : Z :=
  int_of_float (float_mul float_0_8 (float_of_int (Z.of_nat len))).

(** A [torch.utils.data.DataLoader] over a list of examples. *)
Record DataLoader : Type := {
  dataset : list (list Z * Z);
  batch_size : Z;
  shuffle : bool
}.

(** [DataLoader(dataset, batch_size=..., shuffle=...)]: with [shuffle=True]
    the constructor builds a [RandomSampler], which raises [ValueError] on
    an empty dataset; without it the sampler is sequential and an empty
    dataset is accepted. No generator is read before the loader is
    iterated. *)
Definition DataLoader_init (examples : list (list Z * Z)) (size : Z)
    (shuffled : bool) : M DataLoader :=
  if shuffled && bool_decide (examples = []) then raise ValueError
  else ret {| dataset := examples; batch_size := size; shuffle := shuffled |}.

(** [t[:k]] and [t[k:]] for a Python integer [k >= 0]. *)
Definition slice_to {A} (k : Z) (t : list A) : list A := take (Z.to_nat k) t.
Definition slice_from {A} (k : Z) (t : list A) : list A := drop (Z.to_nat k) t.

Definition train_test_split (data : list (list Z)) (labels : list Z)
  : M (DataLoader * DataLoader) :=
  let train_size := train_size_of (length data) in
  train_data ←
    DataLoader_init
      (zip (slice_to train_size data) (slice_to train_size labels)) 32 true;
  test_data ←
    DataLoader_init
      (zip (slice_from train_size data) (slice_from train_size labels))
      32 false;
  ret (train_data, test_data).

(** ** Floating-point tensors *)

(** The scalar operations the models use on tensor entries. *)
Class Scalar (F : Type) : Type := {
  fzero : F;
  fadd : F -> F -> F;
  fsub : F -> F -> F;
  fmul : F -> F -> F;
  fdiv : F -> F -> F;
  fmax : F -> F -> F;
  fsqrt : F -> F;
  fexp : F -> F;
  of_Q : Q -> F;
  normal_of_raw : N -> F;    (* a standard normal sample from a raw draw *)
  uniform_of_raw : N -> F;   (* a sample of [0, 1) from a raw draw *)
  format_fixed : nat -> F -> string  (* the format spec .nf *)
}.

(** Tensors of rank 1, 2 and 3 as nested lists: a matrix is its list of
    rows, a rank-3 tensor its list of batch elements. *)
Abbreviation vec F := (list F) (only parsing).
Abbreviation matrix F := (list (list F)) (only parsing).
Abbreviation tensor3 F := (list (list (list F))) (only parsing).

Section Tensors.
Context {F : Type} `{Scalar F}.

Definition of_int (z : Z) : F := of_Q (inject_Z z).

Definition fsum (v : vec F) : F := foldr fadd fzero v.
Definition dot (a b : vec F) : F := fsum (zip_with fmul a b).
Definition fmean (v : vec F) : F :=
  fdiv (fsum v) (of_int (Z.of_nat (length v))).

(** Column [j] of a matrix (rows shorter than [j] contribute nothing). *)
Definition column (j : nat) (m : matrix F) : vec F := omap (fun row => row !! j) m.

(** [torch.mean(t, dim=1)] on a tensor of shape (B, L, d): shape (B, d). *)
Definition mean_dim1 (d : nat) (t : tensor3 F) : matrix F :=
  map (fun m => map (fun j => fmean (column j m)) (seq 0 d)) t.

(** [torch.sum(t, dim=-1)] on a tensor of shape (B, L, d): shape (B, L). *)
Definition sum_last (t : tensor3 F) : matrix F := map (map fsum) t.

(** Elementwise product of two tensors of one shape. *)
Definition mul3 (a b : tensor3 F) : M (tensor3 F) :=
  if (length a =? length b)%nat
     && forallb (fun '(ma, mb) =>
          (length ma =? length mb)%nat
          && forallb (fun '(ra, rb) => (length ra =? length rb)%nat) (zip ma mb))
        (zip a b)
  then ret (zip_with (zip_with (zip_with fmul)) a b)
  else raise BroadcastMismatch.

Definition add3 (a b : tensor3 F) : M (tensor3 F) :=
  if (length a =? length b)%nat
     && forallb (fun '(ma, mb) =>
          (length ma =? length mb)%nat
          && forallb (fun '(ra, rb) => (length ra =? length rb)%nat) (zip ma mb))
        (zip a b)
  then ret (zip_with (zip_with (zip_with fadd)) a b)
  else raise BroadcastMismatch.

Definition relu (m : matrix F) : matrix F := map (map (fmax fzero)) m.

(** *** nn.Dropout / F.dropout *)

(** One entry: kept and rescaled with probability [1 - p] in training
    mode, unchanged in evaluation mode. *)
Definition dropout_entry (p : Q) (training : bool) (x : F) : M F :=
  if training then
    r ← torch_raw;
    if Qle_bool (1 - p) (Z.of_N (r mod 2 ^ 24) # 2 ^ 24)
    then ret fzero
    else ret (fdiv x (of_Q (1 - p)))
  else ret x.

Definition dropout2 (p : Q) (training : bool) (m : matrix F) : M (matrix F) :=
  mapM (mapM (dropout_entry p training)) m.
Definition dropout3 (p : Q) (training : bool) (t : tensor3 F) : M (tensor3 F) :=
  mapM (dropout2 p training) t.

(** *** nn.Embedding *)

Record Embedding : Type := {
  num_embeddings : Z;
  embedding_dim : Z;
  emb_weight : matrix F          (* num_embeddings x embedding_dim *)
}.

Definition embedding_row (e : Embedding) (token : Z) : M (vec F) :=
  if (token <? 0) || (num_embeddings e <=? token) then raise IndexError
  else match emb_weight e !! Z.to_nat token with
       | Some row => ret row
       | None => raise IndexError
       end.

(** Token IDs of shape (B, L) to vectors of shape (B, L, embedding_dim). *)
Definition embedding_forward (e : Embedding) (x : list (list Z)) : M (tensor3 F) :=
  mapM (mapM (embedding_row e)) x.

(** *** nn.Linear *)

Record Linear : Type := {
  in_features : Z;
  out_features : Z;
  lin_weight : matrix F;         (* out_features x in_features *)
  lin_bias : vec F               (* out_features *)
}.

(** [F.linear(x, W, b)] on one row: [x W^T + b]. *)
Definition linear_row (W : matrix F) (b : vec F) (fan_in : Z) (x : vec F) : M (vec F) :=
  if Z.of_nat (length x) =? fan_in
  then ret (zip_with fadd (map (dot x) W) b)
  else raise ShapeMismatch.

Definition linear_forward (l : Linear) (m : matrix F) : M (matrix F) :=
  mapM (linear_row (lin_weight l) (lin_bias l) (in_features l)) m.

(** *** nn.LayerNorm over the last dimension *)

Record LayerNorm : Type := {
  normalized_shape : Z;
  ln_weight : vec F;
  ln_bias : vec F;
  ln_eps : Q
}.

Definition layer_norm_row (ln : LayerNorm) (x : vec F) : M (vec F) :=
  if Z.of_nat (length x) =? normalized_shape ln then
    let mu := fmean x in
    let centred := map (fun xi => fsub xi mu) x in
    let var := fmean (map (fun c => fmul c c) centred) in
    let denom := fsqrt (fadd var (of_Q (ln_eps ln))) in
    ret (zip_with fadd
           (zip_with fmul (map (fun c => fdiv c denom) centred) (ln_weight ln))
           (ln_bias ln))
  else raise ShapeMismatch.

Definition layer_norm_forward (ln : LayerNorm) (t : tensor3 F) : M (tensor3 F) :=
  mapM (mapM (layer_norm_row ln)) t.

(** *** nn.MultiheadAttention (batch_first) *)

Record MultiheadAttention : Type := {
  embed_dim : Z;
  num_heads : Z;
  head_dim : Z;
  attn_dropout : Q;
  in_proj_weight : matrix F;     (* 3 embed_dim x embed_dim *)
  in_proj_bias : vec F;          (* 3 embed_dim *)
  out_proj : Linear            (* embed_dim -> embed_dim *)
}.

Definition softmax (v : vec F) : vec F :=
  let e := map fexp v in
  let total := fsum e in
  map (fun x => fdiv x total) e.

(** Columns [start, start + width) of every row. *)
Definition slice_columns (start width : nat) (m : matrix F) : matrix F :=
  map (fun row => take width (drop start row)) m.

(** One head: scaled dot-product attention of projected queries, keys
    and values restricted to the head's columns. *)
Definition attention_head (a : MultiheadAttention) (training : bool)
    (q k v : matrix F) (h : nat) : M (matrix F) :=
  let hd := Z.to_nat (head_dim a) in
  let qh := slice_columns (h * hd) hd q in
  let kh := slice_columns (h * hd) hd k in
  let vh := slice_columns (h * hd) hd v in
  let scale := fsqrt (of_int (head_dim a)) in
  let scores :=
    map (fun qi => map (fun kj => dot (map (fun x => fdiv x scale) qi) kj) kh) qh in
  weights ← dropout2 (attn_dropout a) training (map softmax scores);
  ret (map (fun wi => map (fun c => dot wi (column c vh)) (seq 0 hd)) weights).

(** Concatenate the heads' outputs along the feature dimension. *)
Definition merge_heads (rows : nat) (heads : list (matrix F)) : matrix F :=
  foldr (zip_with app) (replicate rows []) heads.

(** Attention for one batch element: query (L1 x E), key and value
    (L2 x E); the result has one row per query position. *)
Definition attention_one (a : MultiheadAttention) (training : bool)
    (qkv : matrix F * (matrix F * matrix F)) : M (matrix F) :=
  let '(query, (key, value)) := qkv in
  let E := Z.to_nat (embed_dim a) in
  if negb (length key =? length value)%nat then raise ShapeMismatch else
  q ← mapM (linear_row (take E (in_proj_weight a))
              (take E (in_proj_bias a)) (embed_dim a)) query;
  k ← mapM (linear_row (take E (drop E (in_proj_weight a)))
              (take E (drop E (in_proj_bias a))) (embed_dim a)) key;
  v ← mapM (linear_row (drop (2 * E) (in_proj_weight a))
              (drop (2 * E) (in_proj_bias a)) (embed_dim a)) value;
  heads ← mapM (attention_head a training q k v)
               (seq 0 (Z.to_nat (num_heads a)));
  linear_forward (out_proj a) (merge_heads (length query) heads).

(** [attn(query, key, value)]: the attention output (the averaged
    attention weights, the second component in the source, are dropped by
    both callers). *)
Definition attention_forward (a : MultiheadAttention) (training : bool)
    (query key value : tensor3 F) : M (tensor3 F) :=
  if (length query =? length key)%nat && (length key =? length value)%nat
  then mapM (attention_one a training) (zip query (zip key value))
  else raise ShapeMismatch.

(** *** F.cosine_similarity(a, b) along dim 1, eps = 1e-8 *)

Definition cosine_row (a b : vec F) : M F :=
  if (length a =? length b)%nat then
    let eps := of_Q (1 # 100000000) in
    let na := fmax (fsqrt (dot a a)) eps in
    let nb := fmax (fsqrt (dot b b)) eps in
    ret (fdiv (dot a b) (fmul na nb))
  else raise BroadcastMismatch.

(** Inputs of shape (B1, d) and (B2, d); a batch of size 1 is broadcast. *)
Definition cosine_similarity (a b : matrix F) : M (vec F) :=
  match a, b with
  | [ra], _ => mapM (cosine_row ra) b
  | _, [rb] => mapM (fun ra => cosine_row ra rb) a
  | _, _ => if (length a =? length b)%nat
            then mapM (fun '(ra, rb) => cosine_row ra rb) (zip a b)
            else raise BroadcastMismatch
  end.


(** *** Parameter initialisation *)

Definition init_vec (n : Z) (sample : N -> F) : M (vec F) :=
  if n <? 0 then raise NegativeDimension
  else repeatM (Z.to_nat n) (r ← torch_raw; ret (sample r)).

Definition init_matrix (rows cols : Z) (sample : N -> F) : M (matrix F) :=
  if (rows <? 0) || (cols <? 0) then raise NegativeDimension
  else repeatM (Z.to_nat rows)
         (repeatM (Z.to_nat cols) (r ← torch_raw; ret (sample r))).

(** A sample of the uniform distribution on (-bound, bound). *)
Definition uniform_sym (bound : F) (r : N) : F :=
  fmul (fsub (fmul (of_int 2) (uniform_of_raw r)) (of_int 1)) bound.

(** [nn.Embedding(num, dim)]: weights drawn from N(0, 1). *)
Definition Embedding_init (num dim : Z) : M Embedding :=
  W ← init_matrix num dim normal_of_raw;
  ret {| num_embeddings := num; embedding_dim := dim; emb_weight := W |}.

(** [nn.Linear(fan_in, fan_out)]: weights and bias uniform within
    1 / sqrt(fan_in). *)
Definition Linear_init (fan_in fan_out : Z) : M Linear :=
  let bound := if fan_in =? 0 then fzero
               else fdiv (of_int 1) (fsqrt (of_int fan_in)) in
  W ← init_matrix fan_out fan_in (uniform_sym bound);
  b ← init_vec fan_out (uniform_sym bound);
  ret {| in_features := fan_in; out_features := fan_out;
         lin_weight := W; lin_bias := b |}.

(** [nn.LayerNorm(dim)]: unit weight, zero bias, eps = 1e-5. *)
Definition LayerNorm_init (dim : Z) : M LayerNorm :=
  if dim <? 0 then raise NegativeDimension
  else ret {| normalized_shape := dim;
              ln_weight := replicate (Z.to_nat dim) (of_int 1);
              ln_bias := replicate (Z.to_nat dim) fzero;
              ln_eps := 1 # 100000 |}.

(** [nn.MultiheadAttention(embed_dim, num_heads, batch_first=True,
    dropout=p)]. *)
Definition MultiheadAttention_init (E heads : Z) (p : Q)
  : M MultiheadAttention :=
  if (E <=? 0) || (heads <=? 0) then raise (EmbedDimNotPositive E)
  else if negb (E / heads * heads =? E)
  then raise (EmbedDimNotDivisible E heads)
  else
    out ← Linear_init E E;
    let bound := fsqrt (fdiv (of_int 6) (of_int (E + 3 * E))) in
    W ← init_matrix (3 * E) E (uniform_sym bound);
    ret {| embed_dim := E; num_heads := heads; head_dim := E / heads;
           attn_dropout := p;
           in_proj_weight := W;
           in_proj_bias := replicate (Z.to_nat (3 * E)) fzero;
           out_proj := {| in_features := in_features out;
                          out_features := out_features out;
                          lin_weight := lin_weight out;
                          lin_bias := replicate (Z.to_nat E) fzero |} |}.

(** ** class BaseEmbeddingModel *)

Record BaseEmbeddingModel : Type := {
  base_embedding : Embedding;
  base_dropout : Q;
  base_layer1 : Linear;
  base_layer2 : Linear;
  base_fc : Linear;
  base_training : bool       (* nn.Module.training *)
}.

Definition BaseEmbeddingModel_init (vocab_size embedding_dim : Z)
  : M BaseEmbeddingModel :=
  emb ← Embedding_init vocab_size embedding_dim;
  l1 ← Linear_init embedding_dim (embedding_dim * 2);
  l2 ← Linear_init (embedding_dim * 2) embedding_dim;
  fc ← Linear_init embedding_dim vocab_size;
  ret {| base_embedding := emb; base_dropout := 2 # 10;
         base_layer1 := l1; base_layer2 := l2; base_fc := fc;
         base_training := true |}.

Definition BaseEmbeddingModel_forward (self : BaseEmbeddingModel)
    (x : list (list Z)) : M (matrix F) :=
  let drop := base_dropout self in
  let training := base_training self in
  embedded ← embedding_forward (base_embedding self) x;
  embedded ← dropout3 drop training embedded;
  let pooled :=
    mean_dim1 (Z.to_nat (embedding_dim (base_embedding self))) embedded in
  x ← linear_forward (base_layer1 self) pooled;
  x ← dropout2 drop training (relu x);
  x ← linear_forward (base_layer2 self) x;
  x ← dropout2 drop training (relu x);
  linear_forward (base_fc self) x.

Definition BaseEmbeddingModel_get_similarity (self : BaseEmbeddingModel)
    (x1 x2 : list (list Z)) : M (vec F) :=
  let d := Z.to_nat (embedding_dim (base_embedding self)) in
  embedded1 ← embedding_forward (base_embedding self) x1;
  embedded2 ← embedding_forward (base_embedding self) x2;
  cosine_similarity (mean_dim1 d embedded1) (mean_dim1 d embedded2).

(** ** class CrossAttentionModel *)

Record CrossAttentionModel : Type := {
  cross_embedding : Embedding;
  cross_dropout : Q;
  cross_attention : MultiheadAttention;
  cross_layer1 : Linear;
  cross_layer2 : Linear;
  cross_fc : Linear;
  cross_layer_norm : LayerNorm;
  cross_training : bool
}.

Definition CrossAttentionModel_init (vocab_size embedding_dim : Z)
  : M CrossAttentionModel :=
  emb ← Embedding_init vocab_size embedding_dim;
  attn ← MultiheadAttention_init embedding_dim 4 (1 # 10);
  l1 ← Linear_init embedding_dim (embedding_dim * 2);
  l2 ← Linear_init (embedding_dim * 2) embedding_dim;
  fc ← Linear_init embedding_dim vocab_size;
  ln ← LayerNorm_init embedding_dim;
  ret {| cross_embedding := emb; cross_dropout := 2 # 10;
         cross_attention := attn;
         cross_layer1 := l1; cross_layer2 := l2; cross_fc := fc;
         cross_layer_norm := ln; cross_training := true |}.

Definition CrossAttentionModel_forward (self : CrossAttentionModel)
    (x : list (list Z)) : M (matrix F) :=
  let drop := cross_dropout self in
  let training := cross_training self in
  embedded ← embedding_forward (cross_embedding self) x;
  embedded ← dropout3 drop training embedded;
  attended ← attention_forward (cross_attention self) training
               embedded embedded embedded;
  residual ← add3 attended embedded;  (* Residual connection *)
  attended ← layer_norm_forward (cross_layer_norm self) residual;
  let pooled :=
    mean_dim1 (Z.to_nat (embedding_dim (cross_embedding self))) attended in
  x ← linear_forward (cross_layer1 self) pooled;
  x ← dropout2 drop training (relu x);
  x ← linear_forward (cross_layer2 self) x;
  x ← dropout2 drop training (relu x);
  linear_forward (cross_fc self) x.

Definition CrossAttentionModel_get_similarity (self : CrossAttentionModel)
    (x1 x2 : list (list Z)) : M (matrix F) :=
  e1 ← embedding_forward (cross_embedding self) x1;
  e2 ← embedding_forward (cross_embedding self) x2;
  attn_output ← attention_forward (cross_attention self)
                  (cross_training self) e1 e2 e2;
  prod ← mul3 attn_output e1;
  let scale := fsqrt (of_int (embedding_dim (cross_embedding self))) in
  ret (map (map (fun s => fdiv s scale)) (sum_last prod)).

End Tensors.

Arguments Embedding F : clear implicits.
Arguments Linear F : clear implicits.
Arguments LayerNorm F : clear implicits.
Arguments MultiheadAttention F : clear implicits.
Arguments BaseEmbeddingModel F : clear implicits.
Arguments CrossAttentionModel F : clear implicits.

(** ** The harness: results structures, [run_comparison], [print_results] *)

Section Harness.
Context {F : Type} `{Scalar F}.

(** The Python values of which the results structure is made: floats,
    lists and dictionaries with string keys. Python's other numbers and
    sequences, which [print_results] would format and index as well, are
    outside this type; what is stated of [print_results] below is stated of
    results of this form. *)
#[warnings="-register-all"]
Inductive value : Type :=
| VFloat (x : F)
| VList (l : list value)
| VDict (d : gmap string value).

(** [v[k]] for a string key. *)
Definition getitem (v : value) (k : string) : M value :=
  match v with
  | VDict d => match d !! k with
               | Some x => ret x
               | None => raise (KeyError k)
               end
  | _ => raise TypeError
  end.

(** [v[-1]]. *)
Definition getlast (v : value) : M value :=
  match v with
  | VList l => match last l with
               | Some x => ret x
               | None => raise IndexError
               end
  | VDict _ => raise (KeyError "-1")
  | VFloat _ => raise TypeError
  end.

(** The replacement field [{v:.nf}] of an f-string: a float is formatted,
    a list or a dictionary refuses the format spec. *)
Definition format_value (n : nat) (v : value) : M string :=
  match v with
  | VFloat x => ret (format_fixed n x)
  | _ => raise TypeError
  end.

Definition nl : string := String (Ascii.ascii_of_nat 10) EmptyString.

(** [results[model]['metrics'][metric][-1]] formatted to four places. *)
Definition final_metric (results : value) (model metric : string) : M string :=
  r ← getitem results model;
  ms ← getitem r "metrics";
  l ← getitem ms metric;
  x ← getlast l;
  format_value 4 x.

Definition training_time (results : value) (model : string) : M string :=
  r ← getitem results model;
  t ← getitem r "training_time";
  format_value 2 t.

Definition print_results (results : value) (configuration : string) : M unit :=
  print (nl +:+ "=== Results for " +:+ configuration +:+ " ===");;
  print (nl +:+ "Base Model:");;
  s ← training_time results "base_model";
  print ("Training Time: " +:+ s +:+ " seconds");;
  s ← final_metric results "base_model" "train_loss";
  print ("Final Training Loss: " +:+ s);;
  s ← final_metric results "base_model" "test_loss";
  print ("Final Test Loss: " +:+ s);;
  s ← final_metric results "base_model" "accuracy";
  print ("Final Accuracy: " +:+ s);;
  print (nl +:+ "Cross-Attention Model:");;
  s ← training_time results "cross_attention";
  print ("Training Time: " +:+ s +:+ " seconds");;
  s ← final_metric results "cross_attention" "train_loss";
  print ("Final Training Loss: " +:+ s);;
  s ← final_metric results "cross_attention" "test_loss";
  print ("Final Test Loss: " +:+ s);;
  s ← final_metric results "cross_attention" "accuracy";
  print ("Final Accuracy: " +:+ s).

(** The two model classes as [train_and_measure] receives them. *)
Inductive model : Type :=
| BaseModel (m : BaseEmbeddingModel F)
| CrossModel (m : CrossAttentionModel F).

(** [train_and_measure(model, train_data, test_data, epochs)] is called by
    the notebook but defined in none of its cells. *)
Variable train_and_measure : model -> DataLoader -> DataLoader -> Z -> M value.

Definition run_comparison (vocab_size embedding_dim dataset_size : Z)
  : M value :=
  (* Generate more structured synthetic data *)
  '(data, labels) ← generate_data vocab_size dataset_size;
  (* Create dataloaders *)
  '(train_data, test_data) ← train_test_split data labels;
  (* Train both models *)
  base_model ← BaseEmbeddingModel_init vocab_size embedding_dim;
  cross_attn_model ← CrossAttentionModel_init vocab_size embedding_dim;
  base_results ←
    train_and_measure (BaseModel base_model) train_data test_data 20;
  cross_attn_results ←
    train_and_measure (CrossModel cross_attn_model) train_data test_data 20;
  ret (VDict {[ "base_model" := base_results;
                "cross_attention" := cross_attn_results ]}).

End Harness.

(** ** Python floats as a scalar type *)

(** The binary64 operations behind Python's [float]; [exp] and the two
    samplers are fixed-arithmetic stand-ins for the C library's, which the
    shapes and the control flow of the notebook do not depend on. *)
Module Binary64.

Definition of_Z (z : Z) : float :=
  if 0 <=? z then PrimFloat.of_uint63 (Uint63.of_Z z)
  else PrimFloat.opp (PrimFloat.of_uint63 (Uint63.of_Z (- z))).

Definition of_Q (q : Q) : float :=
  PrimFloat.div (of_Z (Qnum q)) (of_Z (Zpos (Qden q))).

Definition max (a b : float) : float :=
  if PrimFloat.ltb a b then b else a.

(** The Taylor polynomial of degree [k] in Horner form. *)
Fixpoint taylor (k : nat) (n : Z) (x : float) : float :=
  match k with
  | O => PrimFloat.one
  | S k' => PrimFloat.add PrimFloat.one
              (PrimFloat.mul (PrimFloat.div x (of_Z n)) (taylor k' (n + 1) x))
  end.

(** [exp(x)] as the 1024th power of the polynomial at [x / 1024]. *)
Definition exp (x : float) : float :=
  Nat.iter 10 (fun y => PrimFloat.mul y y)
    (taylor 12 1 (PrimFloat.div x (of_Z 1024))).

Definition uniform (r : N) : float :=
  PrimFloat.div (of_Z (Z.of_N (r mod 2 ^ 24))) (of_Z (2 ^ 24)).

(** A four-term Irwin-Hall sample rescaled to unit variance. *)
Definition normal (r : N) : float :=
  let chunk i :=
    PrimFloat.div (of_Z (Z.of_N ((r / 2 ^ (16 * i)) mod 2 ^ 16)))
      (of_Z (2 ^ 16)) in
  PrimFloat.mul
    (PrimFloat.sub
       (PrimFloat.add (PrimFloat.add (chunk 0%N) (chunk 1%N))
          (PrimFloat.add (chunk 2%N) (chunk 3%N)))
       (of_Z 2))
    (PrimFloat.sqrt (of_Z 3)).

(** [k / 10^n] printed with [n] decimals. *)
Definition digits (n : nat) (k : Z) : string :=
  let p := 10 ^ Z.of_nat n in
  let frac := pretty (Z.to_N (k mod p)) in
  pretty (Z.to_N (k / p)) +:+
  (if n is O then "" else
     "." +:+ String.concat "" (replicate (n - String.length frac) "0")
         +:+ frac).

(** The integer nearest to [m * 2^e * 10^n], ties to even. *)
Definition scaled_round (n : nat) (m e : Z) : Z :=
  let num := m * 10 ^ Z.of_nat n * 2 ^ Z.max 0 e in
  let den := 2 ^ Z.max 0 (- e) in
  let q := num / den in
  let r := num mod den in
  if (den <? 2 * r) || ((2 * r =? den) && Z.odd q) then q + 1 else q.

(** The format spec [.nf]. *)
Definition format (n : nat) (x : float) : string :=
  match Prim2SF x with
  | S754_zero s => (if s then "-" else "") +:+ digits n 0
  | S754_infinity s => if s then "-inf" else "inf"
  | S754_nan => "nan"
  | S754_finite s m e =>
      (if s then "-" else "") +:+ digits n (scaled_round n (Zpos m) e)
  end.

End Binary64.

#[global] Instance float_Scalar : Scalar float := {|
  fzero := PrimFloat.zero;
  fadd := PrimFloat.add;
  fsub := PrimFloat.sub;
  fmul := PrimFloat.mul;
  fdiv := PrimFloat.div;
  fmax := Binary64.max;
  fsqrt := PrimFloat.sqrt;
  fexp := Binary64.exp;
  of_Q := Binary64.of_Q;
  normal_of_raw := Binary64.normal;
  uniform_of_raw := Binary64.uniform;
  format_fixed := Binary64.format
|}.

(** Modelled from the spec: [train_and_measure] is called by
    [run_comparison] but defined in none of the notebook's cells. This
    stand-in keeps the interface the spec and [print_results] give it: it
    reads the clock before and after, records one entry per epoch in each
    of the metric lists, and returns the duration and the metrics. It does
    no training and only serves to run [run_comparison] on concrete inputs;
    the properties below hold for every [train_and_measure]. *)
Definition train_and_measure_standin {F : Type} `{Scalar F}
    (m : @model F) (train_data test_data : DataLoader) (epochs : Z)
  : M (@value F) :=
  start ← time_time;
  let per_epoch := VList (replicate (Z.to_nat epochs) (VFloat fzero)) in
  stop ← time_time;
  ret (VDict {[ "training_time" := VFloat (of_int (Z.of_N stop - Z.of_N start));
                "metrics" := VDict {[ "train_loss" := per_epoch;
                                      "test_loss" := per_epoch;
                                      "accuracy" := per_epoch ]} ]}).

(** ** Shapes and the invariants the constructors establish *)

Section Shapes.
Context {F : Type} `{Scalar F}.

(** A matrix with [rows] rows of [cols] entries. *)
Definition shape2 (rows cols : nat) (m : matrix F) : Prop :=
  length m = rows /\ Forall (fun row => length row = cols) m.

(** A batch whose [i]-th element has [ls !! i] rows of [cols] entries. *)
Definition shape3 (ls : list nat) (cols : nat) (t : tensor3 F) : Prop :=
  Forall2 (fun L m => shape2 L cols m) ls t.

(** Token IDs the embedding table of a [vocab_size]-token model accepts. *)
Definition valid_tokens (vocab_size : Z) (x : list (list Z)) : Prop :=
  Forall (Forall (fun t => 0 <= t < vocab_size)) x.

Definition wf_Embedding (e : Embedding F) : Prop :=
  0 <= num_embeddings e /\ 0 <= embedding_dim e /\
  shape2 (Z.to_nat (num_embeddings e)) (Z.to_nat (embedding_dim e))
    (emb_weight e).

Definition wf_Linear (fan_in fan_out : Z) (l : Linear F) : Prop :=
  in_features l = fan_in /\ out_features l = fan_out /\
  0 <= fan_in /\ 0 <= fan_out /\
  shape2 (Z.to_nat fan_out) (Z.to_nat fan_in) (lin_weight l) /\
  length (lin_bias l) = Z.to_nat fan_out.

Definition wf_LayerNorm (dim : Z) (ln : LayerNorm F) : Prop :=
  normalized_shape ln = dim /\ 0 <= dim /\
  length (ln_weight ln) = Z.to_nat dim /\
  length (ln_bias ln) = Z.to_nat dim.

Definition wf_MultiheadAttention (E : Z) (a : MultiheadAttention F) : Prop :=
  embed_dim a = E /\ 0 < E /\ 0 < num_heads a /\
  head_dim a * num_heads a = E /\
  shape2 (Z.to_nat (3 * E)) (Z.to_nat E) (in_proj_weight a) /\
  length (in_proj_bias a) = Z.to_nat (3 * E) /\
  wf_Linear E E (out_proj a).

Definition wf_BaseEmbeddingModel (vocab_size dim : Z)
    (m : BaseEmbeddingModel F) : Prop :=
  wf_Embedding (base_embedding m) /\
  num_embeddings (base_embedding m) = vocab_size /\
  embedding_dim (base_embedding m) = dim /\
  wf_Linear dim (dim * 2) (base_layer1 m) /\
  wf_Linear (dim * 2) dim (base_layer2 m) /\
  wf_Linear dim vocab_size (base_fc m).

Definition wf_CrossAttentionModel (vocab_size dim : Z)
    (m : CrossAttentionModel F) : Prop :=
  wf_Embedding (cross_embedding m) /\
  num_embeddings (cross_embedding m) = vocab_size /\
  embedding_dim (cross_embedding m) = dim /\
  wf_MultiheadAttention dim (cross_attention m) /\
  num_heads (cross_attention m) = 4 /\
  wf_Linear dim (dim * 2) (cross_layer1 m) /\
  wf_Linear (dim * 2) dim (cross_layer2 m) /\
  wf_Linear dim vocab_size (cross_fc m) /\
  wf_LayerNorm dim (cross_layer_norm m).

End Shapes.

(** ** What a results structure holds *)

Section Results.
Context {F : Type} `{Scalar F}.

(** [results[model]['training_time']] is the float [t]. *)
Definition has_training_time (results : @value F) (model : string) (t : F)
  : Prop :=
  exists d r, results = VDict d /\ d !! model = Some (VDict r) /\
    r !! "training_time" = Some (VFloat t).

(** [results[model]['metrics'][metric]] is a non-empty list whose last
    element is the float [x]. *)
Definition has_final_metric (results : @value F) (model metric : string)
    (x : F) : Prop :=
  exists d r ms l, results = VDict d /\ d !! model = Some (VDict r) /\
    r !! "metrics" = Some (VDict ms) /\ ms !! metric = Some (VList l) /\
    last l = Some (VFloat x).

(** The lines [print_results] writes for one model. *)
Definition model_lines (title : string) (t train test acc : F) : list string :=
  [nl +:+ title;
   "Training Time: " +:+ format_fixed 2 t +:+ " seconds";
   "Final Training Loss: " +:+ format_fixed 4 train;
   "Final Test Loss: " +:+ format_fixed 4 test;
   "Final Accuracy: " +:+ format_fixed 4 acc].

End Results.

(** ** The notebook's cells and the evaluation mode *)

Section Cells.
Context {F : Type} `{Scalar F}.
Variable train_and_measure :
  @model F -> DataLoader -> DataLoader -> Z -> M (@value F).

(** The cell "Run with smaller settings first". It calls [print_results]
    without defining it: the two cells below define it, and the execution
    counts (5, 7, then 9 for this cell) show that they ran before, so the
    kernel holds the definition when this cell runs. *)
Definition cell_improved_configuration : M unit :=
  results ← run_comparison train_and_measure 50 32 2000;
  print_results results "Improved Configuration".

(** The cell "Try with smaller vocabulary and dataset size", which
    defines [print_results] before it calls it. *)
Definition cell_default_configuration : M unit :=
  results ← run_comparison train_and_measure 100 32 5000;
  print_results results "Default Configuration".

(** The cell that runs the default settings and the smaller embedding
    dimension, defines [print_results], then prints both. *)
Definition cell_two_configurations : M unit :=
  print "Running comparison with default settings...";;
  results_default ← run_comparison train_and_measure 1000 64 10000;
  print (nl +:+ "Running comparison with smaller embedding dimension...");;
  results_small ← run_comparison train_and_measure 1000 32 10000;
  print_results results_default "Default Configuration (64d)";;
  print_results results_small "Small Embedding Configuration (32d)".

(** [model.eval()]: the module and its children leave training mode. *)
Definition BaseEmbeddingModel_eval (self : BaseEmbeddingModel F)
  : BaseEmbeddingModel F :=
  {| base_embedding := base_embedding self;
     base_dropout := base_dropout self;
     base_layer1 := base_layer1 self;
     base_layer2 := base_layer2 self;
     base_fc := base_fc self;
     base_training := false |}.

Definition CrossAttentionModel_eval (self : CrossAttentionModel F)
  : CrossAttentionModel F :=
  {| cross_embedding := cross_embedding self;
     cross_dropout := cross_dropout self;
     cross_attention := cross_attention self;
     cross_layer1 := cross_layer1 self;
     cross_layer2 := cross_layer2 self;
     cross_fc := cross_fc self;
     cross_layer_norm := cross_layer_norm self;
     cross_training := false |}.

(** What [print_results] needs of the results of one model: a training
    time and three metric lists that end in a float. *)
Definition run_results_ok (r : @value F) : Prop :=
  exists d ms t l1 x1 l2 x2 l3 x3,
    r = VDict d /\
    d !! "training_time" = Some (VFloat t) /\
    d !! "metrics" = Some (VDict ms) /\
    ms !! "train_loss" = Some (VList l1) /\ last l1 = Some (VFloat x1) /\
    ms !! "test_loss" = Some (VList l2) /\ last l2 = Some (VFloat x2) /\
    ms !! "accuracy" = Some (VList l3) /\ last l3 = Some (VFloat x3).

End Cells.

(** A computation that neither reads nor changes the world: it returns
    one value, or raises one error, whatever the generators hold. *)
Definition oblivious {A} (c : M A) : Prop :=
  (exists a, forall w, c w = Ok a w) \/ (exists e, forall w, c w = Err e).

(** The wrap-around of a pattern-2 token: [base + n] is below [vocab_size],
    so the remainder only lifts the negative sums. *)
Definition wrap_token (vocab_size base n : Z) : Z :=
  if base + n <? 0 then base + n + vocab_size else base + n.



(** ** Predicates used in the statements *)

(** What a computation returns, the final world dropped. *)
Definition returns {A} (r : result A) : option A :=
  match r with
  | Ok a _ => Some a
  | Err _ => None
  end.

(** The branch the generation loop takes in world [w]. *)
Definition takes_pattern1 (w : world) : Prop :=
  (np_rng w O mod 2 ^ 53 < 2 ^ 52)%N.

(** Pattern 1: tokens below [vocab_size // 4], label from the two ends. *)
Definition pattern1 (vocab_size : Z) (seq : list Z) (label : Z) : Prop :=
  Forall (fun t => 0 <= t < vocab_size / 4) seq /\
  exists a b, seq !! O = Some a /\ last seq = Some b /\
    label = (a + b) mod vocab_size.

(** Pattern 2: tokens within two of a base token, label from the base. *)
Definition pattern2 (vocab_size : Z) (seq : list Z) (label : Z) : Prop :=
  exists base, 0 <= base < vocab_size / 4 /\
    Forall (fun t => exists n, -2 <= n <= 2 /\ t = (base + n) mod vocab_size) seq /\
    label = (base + 3) mod vocab_size.

(** The integer [torch.tensor] reads from a one-element label tensor. *)
Definition label_item (l : label_tensor) : option Z :=
  match l with
  | Rank0 z => Some z
  | Rank1 [z] => Some z
  | Rank1 _ => None
  end.

(** One generated example, as the later stages see it: a length-10
    sequence and the integer its label holds. *)
Definition example_ok (V : Z) (ex : list Z * label_tensor) : Prop :=
  length ex.1 = 10%nat /\
  exists label, label_item ex.2 = Some label /\
    (pattern1 V ex.1 label \/ pattern2 V ex.1 label).

(** The primitive binary64 value of [mant * 2^expo]. *)
Definition to_prim (x : binary64) : float :=
  Z.ldexp (PrimFloat.of_uint63 (Uint63.of_Z (mant x))) (expo x).

(** [0.8 * n] computed by the model and by the primitive multiplication. *)
Definition agrees_with_prim (n : Z) : bool :=
  PrimFloat.eqb
    (to_prim (float_mul float_0_8 (float_of_int n)))
    (PrimFloat.mul 0x1.999999999999ap-1%float (PrimFloat.of_uint63 (Uint63.of_Z n))).

(** ** Concrete inputs *)

(** A world whose numpy tape alternates the two patterns. *)
Definition demo_world : world :=
  {| np_rng := fun i => (N.of_nat i * 2 ^ 52)%N;
     torch_rng := fun i => (N.of_nat i * 7 + 3)%N;
     clock := fun i => N.of_nat i;
     stdout := [] |}.

(** Worlds that take pattern 2 with base token 5 and no noise, and with
    base token 6 and noise -1 throughout. *)
Definition world_base5 : world :=
  {| np_rng := fun _ => (2 ^ 52)%N;
     torch_rng := fun i => match i with O => 5%N | _ => 2%N end;
     clock := fun _ => 0%N;
     stdout := [] |}.

Definition world_base6 : world :=
  {| np_rng := fun _ => (2 ^ 52)%N;
     torch_rng := fun i => match i with O => 6%N | _ => 1%N end;
     clock := fun _ => 0%N;
     stdout := [] |}.

(** A world that takes pattern 1 and draws token 5 throughout. *)
Definition world_all5 : world :=
  {| np_rng := fun _ => 0%N;
     torch_rng := fun _ => 5%N;
     clock := fun _ => 0%N;
     stdout := [] |}.

(** The final values of the notebook's first run (vocab_size=50,
    embedding_dim=32, dataset_size=2000), with one earlier epoch kept in
    each metric list. *)
Definition run_results (time : Q) (train test acc : list Q) : @value float :=
  let floats l := VList (map (fun q => VFloat (Binary64.of_Q q)) l) in
  VDict {[ "training_time" := VFloat (Binary64.of_Q time);
           "metrics" := VDict {[ "train_loss" := floats train;
                                 "test_loss" := floats test;
                                 "accuracy" := floats acc ]} ]}.

Definition demo_results : @value float :=
  VDict {[ "base_model" :=
             run_results (51 # 100) [18098 # 10000; 17881 # 10000]
               [17819 # 10000; 17766 # 10000] [4725 # 10000; 4575 # 10000];
           "cross_attention" :=
             run_results (233 # 100) [15969 # 10000; 15852 # 10000]
               [16351 # 10000; 16395 # 10000] [4875 # 10000; 4775 # 10000] ]}.


(** * Properties *)

(** ** The monad *)

Lemma bind_Ok {A B} (c : M A) (k : A -> M B) w b w' :
  (c ≫= k) w = Ok b w' <-> exists a w1, c w = Ok a w1 /\ k a w1 = Ok b w'.
Proof.
  unfold mbind, M_bind, bind. destruct (c w) as [e|a w1]; split.
  - discriminate.
  - intros (a & w1 & Hc & _). discriminate.
  - eauto.
  - intros (a' & w1' & Hc & Hk). congruence.
Qed.

Lemma bind_Ok_intro {A B} (c : M A) (k : A -> M B) w a w1 :
  c w = Ok a w1 -> (c ≫= k) w = k a w1.
Proof. intros Hc. unfold mbind, M_bind, bind. now rewrite Hc. Qed.

Lemma bind_Err {A B} (c : M A) (k : A -> M B) w e :
  c w = Err e -> (c ≫= k) w = Err e.
Proof. intros Hc. unfold mbind, M_bind, bind. now rewrite Hc. Qed.

Lemma ret_Ok {A} (a b : A) w w' : ret a w = Ok b w' <-> a = b /\ w = w'.
Proof. unfold ret. split; [intros [= -> ->] | intros [-> ->]]; auto. Qed.

(** Split a successful run of a sequence of binds into its steps. *)
Ltac inv_run :=
  repeat match goal with
  | H : (_ ≫= _) _ = Ok _ _ |- _ =>
      apply bind_Ok in H; destruct H as (? & ? & ? & H)
  | H : ret _ _ = Ok _ _ |- _ => apply ret_Ok in H; destruct H as [? ?]; subst
  | H : raise _ _ = Ok _ _ |- _ => discriminate H
  | H : Err _ = Ok _ _ |- _ => discriminate H
  end.

Lemma repeatM_Ok {A} (P : A -> Prop) (c : M A) :
  (forall w a w', c w = Ok a w' -> P a) ->
  forall n w l w', repeatM n c w = Ok l w' -> length l = n /\ Forall P l.
Proof.
  intros Hc. induction n as [|n IH]; simpl; intros w l w' Hrun; inv_run.
  - split; [reflexivity | constructor].
  - match goal with Hn : repeatM n c _ = Ok _ _ |- _ => apply IH in Hn as [Hlen HP] end.
    split; [simpl; congruence | constructor; eauto].
Qed.

Lemma repeatM_total {A} (c : M A) :
  (forall w, exists a w', c w = Ok a w') ->
  forall n w, exists l w', repeatM n c w = Ok l w'.
Proof.
  intros Hc. induction n as [|n IH]; simpl; intros w.
  - exists [], w. reflexivity.
  - destruct (Hc w) as (a & w1 & Ha). destruct (IH w1) as (l & w2 & Hl).
    exists (a :: l), w2. rewrite (bind_Ok_intro _ _ _ _ _ Ha).
    now rewrite (bind_Ok_intro _ _ _ _ _ Hl).
Qed.

Lemma mapM_Ok {A B} (R : A -> B -> Prop) (f : A -> M B) :
  (forall x w y w', f x w = Ok y w' -> R x y) ->
  forall l w r w', mapM f l w = Ok r w' -> Forall2 R l r.
Proof.
  intros Hf. induction l as [|x l IH]; simpl; intros w r w' Hrun; inv_run.
  - constructor.
  - constructor; eauto.
Qed.

Lemma mapM_total {A B} (f : A -> M B) (l : list A) :
  Forall (fun x => forall w, exists y w', f x w = Ok y w') l ->
  forall w, exists r w', mapM f l w = Ok r w'.
Proof.
  induction 1 as [|x l Hx _ IH]; simpl; intros w.
  - exists [], w. reflexivity.
  - destruct (Hx w) as (y & w1 & Hy). destruct (IH w1) as (r & w2 & Hr).
    exists (y :: r), w2. rewrite (bind_Ok_intro _ _ _ _ _ Hy).
    now rewrite (bind_Ok_intro _ _ _ _ _ Hr).
Qed.

(** ** Sampling and int64 arithmetic *)

Lemma fits_int64_spec z :
  fits_int64 z = true <-> - 2 ^ 63 <= z <= 2 ^ 63 - 1.
Proof. unfold fits_int64, int64_min, int64_max. lia. Qed.

Lemma wrap64_id z : - 2 ^ 63 <= z < 2 ^ 63 -> wrap64 z = z.
Proof. intros Hz. unfold wrap64. rewrite Z.mod_small; lia. Qed.

Lemma np_random_Ok w u w' :
  np_random w = Ok u w' -> u = (np_rng w O mod 2 ^ 53)%N.
Proof. unfold np_random, tape_next. simpl. now intros [= <- _]. Qed.

Lemma torch_raw_total w : exists r w', torch_raw w = Ok r w'.
Proof. unfold torch_raw, tape_next. eauto. Qed.

Lemma np_random_total w : exists u w', np_random w = Ok u w'.
Proof. unfold np_random, tape_next. eauto. Qed.

Lemma randint_Ok low high n w l w' :
  randint low high n w = Ok l w' ->
  low < high /\ - 2 ^ 63 <= low /\ high <= 2 ^ 63 - 1 /\
  length l = n /\ Forall (fun z => low <= z < high) l.
Proof.
  unfold randint, raise.
  destruct (fits_int64 low && fits_int64 high) eqn:Hfit; simpl; [|discriminate].
  apply andb_true_iff in Hfit as [Hl Hh].
  apply fits_int64_spec in Hl, Hh.
  destruct (high <=? low) eqn:Hle; [discriminate|].
  apply Z.leb_gt in Hle. intros Hrun.
  apply (repeatM_Ok (fun z => low <= z < high)) in Hrun as [Hlen Hall].
  - repeat split; auto; lia.
  - intros w0 a w0' Hstep. inv_run.
    pose proof (Z.mod_pos_bound (Z.of_N x) (high - low)). lia.
Qed.

Lemma randint_total low high n w :
  low < high -> - 2 ^ 63 <= low -> high <= 2 ^ 63 - 1 ->
  exists l w', randint low high n w = Ok l w'.
Proof.
  intros Hlt Hlo Hhi. unfold randint.
  assert (fits_int64 low = true) as -> by (apply fits_int64_spec; lia).
  assert (fits_int64 high = true) as -> by (apply fits_int64_spec; lia).
  simpl. destruct (high <=? low) eqn:Hle; [apply Z.leb_le in Hle; lia|].
  apply repeatM_total. intros w0.
  destruct (torch_raw_total w0) as (r & w1 & Hr).
  eexists _, w1. now rewrite (bind_Ok_intro _ _ _ _ _ Hr).
Qed.

Lemma randint_empty low high n w :
  high <= low -> - 2 ^ 63 <= low <= 2 ^ 63 - 1 -> - 2 ^ 63 <= high <= 2 ^ 63 - 1 ->
  randint low high n w = Err (RandintEmptyRange low high).
Proof.
  intros Hle Hlo Hhi. unfold randint.
  assert (fits_int64 low = true) as -> by (apply fits_int64_spec; lia).
  assert (fits_int64 high = true) as -> by (apply fits_int64_spec; lia).
  simpl. destruct (high <=? low) eqn:E; [reflexivity|].
  apply Z.leb_gt in E. lia.
Qed.

Lemma tensor_get_first t z w w' :
  tensor_get t 0 w = Ok z w' -> t !! O = Some z /\ w' = w.
Proof.
  unfold tensor_get, raise.
  change (0 <? 0) with false. cbv iota. change (Z.to_nat 0) with O.
  destruct (t !! O) eqn:E; [|discriminate].
  intros Hr. apply ret_Ok in Hr as [-> ->]. auto.
Qed.

Lemma tensor_get_last t z w w' :
  tensor_get t (-1) w = Ok z w' -> last t = Some z /\ w' = w.
Proof.
  unfold tensor_get, raise.
  change (-1 <? 0) with true. cbv iota.
  destruct (Z.of_nat (length t) + -1 <? 0) eqn:Hneg; [discriminate|].
  apply Z.ltb_ge in Hneg.
  destruct (t !! Z.to_nat (Z.of_nat (length t) + -1)) eqn:E; [|discriminate].
  intros Hr. apply ret_Ok in Hr as [-> ->]. split; [|reflexivity].
  rewrite last_lookup. rewrite <- E. f_equal. lia.
Qed.

Lemma tensor_get_total t i :
  - Z.of_nat (length t) <= i < Z.of_nat (length t) ->
  forall w, exists z, tensor_get t i w = Ok z w.
Proof.
  intros Hi w. unfold tensor_get.
  set (j := if i <? 0 then Z.of_nat (length t) + i else i).
  assert (0 <= j < Z.of_nat (length t)) as Hj
    by (subst j; destruct (i <? 0) eqn:E; [apply Z.ltb_lt in E | apply Z.ltb_ge in E]; lia).
  destruct (j <? 0) eqn:E; [apply Z.ltb_lt in E; lia|].
  destruct (lookup_lt_is_Some_2 t (Z.to_nat j)) as [z Hz]; [lia|].
  rewrite Hz. eauto.
Qed.

Lemma wrap64_unsigned z : 2 ^ 63 <= z < 2 ^ 64 -> wrap64 z = z - 2 ^ 64.
Proof.
  intros Hz. unfold wrap64.
  replace (z + 2 ^ 63) with (z - 2 ^ 63 + 1 * 2 ^ 64) by lia.
  rewrite Z.mod_add by lia. rewrite Z.mod_small; lia.
Qed.

Lemma int64_of_scalar_Ok m w m64 w' :
  int64_of_scalar m w = Ok m64 w' ->
  - 2 ^ 63 <= m < 2 ^ 64 /\ m64 = wrap64 m /\ w' = w.
Proof.
  unfold int64_of_scalar, raise, int64_min.
  destruct ((- 2 ^ 63 <=? m) && (m <? 2 ^ 64)) eqn:Hm; [|discriminate].
  apply andb_true_iff in Hm as [Hlo Hhi].
  apply Z.leb_le in Hlo. apply Z.ltb_lt in Hhi.
  intros Hr. apply ret_Ok in Hr as [<- <-]. auto.
Qed.

Lemma int64_of_scalar_fits m w :
  - 2 ^ 63 <= m <= 2 ^ 63 - 1 -> int64_of_scalar m w = Ok m w.
Proof.
  intros Hm. unfold int64_of_scalar, int64_min.
  assert ((- 2 ^ 63 <=? m) && (m <? 2 ^ 64) = true) as ->.
  { apply andb_true_iff. split; [apply Z.leb_le | apply Z.ltb_lt]; lia. }
  rewrite wrap64_id by lia. reflexivity.
Qed.

Lemma tensor_add_scalar_fits t k w :
  - 2 ^ 63 <= k <= 2 ^ 63 - 1 ->
  tensor_add_scalar t k w = Ok (map (fun x => wrap64 (x + k)) t) w.
Proof.
  intros Hk. unfold tensor_add_scalar.
  rewrite (bind_Ok_intro _ _ _ _ _ (int64_of_scalar_fits k w Hk)). reflexivity.
Qed.

Lemma scalar_rem_Ok x m w r w' :
  scalar_rem x m w = Ok r w' ->
  - 2 ^ 63 <= m < 2 ^ 64 /\ wrap64 m <> 0 /\ r = x mod wrap64 m /\ w' = w.
Proof.
  unfold scalar_rem. intros Hrun.
  apply bind_Ok in Hrun as (m64 & w1 & Hm & Hrun).
  apply int64_of_scalar_Ok in Hm as (Hm & -> & ->).
  unfold raise in Hrun.
  destruct (wrap64 m =? 0) eqn:E; [discriminate|]. apply Z.eqb_neq in E.
  apply ret_Ok in Hrun as [<- <-]. auto.
Qed.

Lemma tensor_rem_Ok t m w r w' :
  tensor_rem t m w = Ok r w' ->
  - 2 ^ 63 <= m < 2 ^ 64 /\ wrap64 m <> 0 /\
  r = map (fun x => x mod wrap64 m) t /\ w' = w.
Proof.
  unfold tensor_rem. intros Hrun.
  apply bind_Ok in Hrun as (m64 & w1 & Hm & Hrun).
  apply int64_of_scalar_Ok in Hm as (Hm & -> & ->).
  unfold raise in Hrun.
  destruct (wrap64 m =? 0) eqn:E; [discriminate|]. apply Z.eqb_neq in E.
  apply ret_Ok in Hrun as [<- <-]. auto.
Qed.

Lemma rem_total m :
  0 < m -> m <= 2 ^ 63 - 1 ->
  (forall x w, scalar_rem x m w = Ok (x mod m) w) /\
  (forall t w, tensor_rem t m w = Ok (map (fun x => x mod m) t) w).
Proof.
  intros Hm Hm'. unfold scalar_rem, tensor_rem.
  split; intros ? w;
    rewrite (bind_Ok_intro _ _ _ _ _ (int64_of_scalar_fits m w ltac:(lia)));
    (assert ((m =? 0) = false) as -> by (apply Z.eqb_neq; lia)); reflexivity.
Qed.

(** ** The generation loop *)

Lemma quarter_bounds V : 4 <= V -> V <= 2 ^ 63 - 1 -> 0 < V / 4 /\ 4 * (V / 4) <= V.
Proof.
  intros HV HV'. split.
  - apply Z.div_str_pos. lia.
  - apply Z.mul_div_le. lia.
Qed.

Lemma quarter_nonpos V : V < 4 -> V / 4 <= 0.
Proof.
  intros HV. destruct (Z_lt_le_dec V 0).
  - pose proof (Z.div_lt_upper_bound V 4 0). lia.
  - rewrite Z.div_small; lia.
Qed.

(** What one iteration produces, by the branch it takes, for every
    vocabulary size on which it returns: the modulus of both remainders is
    the int64 operand that [vocab_size] becomes. *)
Lemma generate_example_inv V w seq lab w' :
  generate_example V w = Ok (seq, lab) w' ->
  (4 <= V /\ V < 2 ^ 64) /\ length seq = 10%nat /\
  ((takes_pattern1 w /\
    Forall (fun t => 0 <= t < V / 4) seq /\
    exists a b, seq !! O = Some a /\ last seq = Some b /\
      lab = Rank0 ((a + b) mod wrap64 V)) \/
   (~ takes_pattern1 w /\
    exists base, 0 <= base < V / 4 /\
      Forall (fun t => exists n, -2 <= n <= 2 /\
                         t = (base + n) mod wrap64 V) seq /\
      lab = Rank1 [(base + 3) mod wrap64 V])).
Proof.
  unfold generate_example. intros Hrun.
  apply bind_Ok in Hrun as (u & w0 & Hu & Hrun).
  apply np_random_Ok in Hu. subst u.
  destruct (_ <? _)%N eqn:Hbranch in Hrun.
  - (* pattern 1 *)
    apply N.ltb_lt in Hbranch.
    apply bind_Ok in Hrun as (s & w1 & Hs & Hrun).
    apply bind_Ok in Hrun as (a & w2 & Ha & Hrun).
    apply bind_Ok in Hrun as (b & w3 & Hb & Hrun).
    apply bind_Ok in Hrun as (l & w4 & Hl & Hrun).
    apply ret_Ok in Hrun as [[= <- <-] _].
    apply randint_Ok in Hs as (Hq & _ & Hq' & Hlen & Hall).
    apply tensor_get_first in Ha as [Hfirst ->].
    apply tensor_get_last in Hb as [Hlast ->].
    apply scalar_rem_Ok in Hl as (HV & HV0 & -> & _).
    assert (4 <= V) as HV4.
    { destruct (Z_lt_le_dec V 4) as [Hlt|]; [|assumption].
      apply quarter_nonpos in Hlt. lia. }
    assert (V / 4 < 2 ^ 62) as Hquarter
      by (apply Z.div_lt_upper_bound; lia).
    assert (0 <= a < V / 4) as Hxa
      by (eapply (proj1 (Forall_lookup _ _)) in Hall; eauto).
    assert (0 <= b < V / 4) as Hxb.
    { rewrite last_lookup in Hlast.
      eapply (proj1 (Forall_lookup _ _)) in Hall; eauto. }
    repeat split; try lia.
    left. split; [exact Hbranch|]. split; [assumption|].
    exists a, b. repeat split; auto.
    rewrite wrap64_id; [reflexivity | lia].
  - (* pattern 2 *)
    apply N.ltb_ge in Hbranch.
    apply bind_Ok in Hrun as (bt & w1 & Hbt & Hrun).
    apply bind_Ok in Hrun as (noise & w2 & Hnoise & Hrun).
    apply bind_Ok in Hrun as (shifted & w3 & Hshift & Hrun).
    apply bind_Ok in Hrun as (s & w4 & Hs & Hrun).
    apply bind_Ok in Hrun as (bumped & w5 & Hbump & Hrun).
    apply bind_Ok in Hrun as (l & w6 & Hl & Hrun).
    apply ret_Ok in Hrun as [[= <- <-] _].
    apply randint_Ok in Hbt as (Hq & _ & Hq' & Hlen & Hall).
    apply randint_Ok in Hnoise as (_ & _ & _ & Hnlen & Hnall).
    apply tensor_rem_Ok in Hs as (HV & HV0 & -> & _).
    apply tensor_rem_Ok in Hl as (_ & _ & -> & _).
    destruct bt as [|base [|? ?]]; simpl in Hlen; try discriminate.
    apply Forall_cons in Hall as [Hbase _].
    assert (4 <= V) as HV4.
    { destruct (Z_lt_le_dec V 4) as [Hlt|]; [|assumption].
      apply quarter_nonpos in Hlt. lia. }
    assert (V / 4 < 2 ^ 62) as Hquarter
      by (apply Z.div_lt_upper_bound; lia).
    unfold tensor_add in Hshift. apply ret_Ok in Hshift as [<- _].
    rewrite tensor_add_scalar_fits in Hbump by lia.
    injection Hbump as <- _.
    repeat split; try lia.
    { rewrite !length_map. exact Hnlen. }
    right. split; [unfold takes_pattern1; lia|].
    exists base. split; [lia|]. split.
    + rewrite Forall_map, Forall_map. eapply Forall_impl; [exact Hnall|].
      intros n Hn. simpl in Hn |- *. exists n. split; [lia|].
      rewrite wrap64_id; [reflexivity | lia].
    + simpl. rewrite wrap64_id; [reflexivity | lia].
Qed.

(** The same for a vocabulary size that fits int64, where the modulus is
    [vocab_size] itself. *)
Lemma generate_example_Ok V w seq lab w' :
  V <= 2 ^ 63 - 1 ->
  generate_example V w = Ok (seq, lab) w' ->
  (4 <= V /\ V <= 2 ^ 63 - 1) /\ length seq = 10%nat /\
  ((takes_pattern1 w /\ exists label, lab = Rank0 label /\ pattern1 V seq label) \/
   (~ takes_pattern1 w /\ exists label, lab = Rank1 [label] /\ pattern2 V seq label)).
Proof.
  intros HV' Hrun.
  apply generate_example_inv in Hrun
    as ([HV _] & Hlen &
        [(Hp & Hall & a & b & Ha & Hb & ->)|(Hp & base & Hbase & Hall & ->)]);
    rewrite wrap64_id in * by lia.
  - repeat split; try lia. left. split; [exact Hp|].
    eexists. split; [reflexivity|]. split; [exact Hall|]. exists a, b. auto.
  - repeat split; try lia. right. split; [exact Hp|].
    eexists. split; [reflexivity|]. exists base. auto.
Qed.

(** An iteration that returns gives a length-10 sequence and a label of
    one element, on a vocabulary of at least four tokens. *)
Lemma generate_example_shape V w seq lab w' :
  generate_example V w = Ok (seq, lab) w' ->
  4 <= V /\ length seq = 10%nat /\ is_Some (label_item lab).
Proof.
  intros Hrun.
  apply generate_example_inv in Hrun
    as ([HV _] & Hlen &
        [(_ & _ & a & b & _ & _ & ->)|(_ & base & _ & _ & ->)]);
    simpl; eauto.
Qed.

Lemma generate_example_total V w :
  4 <= V -> V <= 2 ^ 63 - 1 ->
  exists seq lab w', generate_example V w = Ok (seq, lab) w'.
Proof.
  intros HV HV'. destruct (quarter_bounds V HV HV') as [Hq Hq'].
  destruct (rem_total V ltac:(lia) HV') as [Hsrem Htrem].
  unfold generate_example.
  destruct (np_random_total w) as (u & w0 & Hu).
  rewrite (bind_Ok_intro _ _ _ _ _ Hu).
  destruct (u <? 2 ^ 52)%N.
  - destruct (randint_total 0 (V / 4) 10 w0) as (s & w1 & Hs); try lia.
    rewrite (bind_Ok_intro _ _ _ _ _ Hs).
    apply randint_Ok in Hs as (_ & _ & _ & Hlen & _).
    destruct (tensor_get_total s 0 ltac:(lia) w1) as [a Ha].
    destruct (tensor_get_total s (-1) ltac:(lia) w1) as [b Hb].
    rewrite (bind_Ok_intro _ _ _ _ _ Ha), (bind_Ok_intro _ _ _ _ _ Hb).
    rewrite (bind_Ok_intro _ _ _ _ _ (Hsrem _ _)). unfold ret. eauto.
  - destruct (randint_total 0 (V / 4) 1 w0) as (bt & w1 & Hbt); try lia.
    rewrite (bind_Ok_intro _ _ _ _ _ Hbt).
    apply randint_Ok in Hbt as (_ & _ & _ & Hlen & _).
    destruct bt as [|base [|? ?]]; simpl in Hlen; try discriminate.
    destruct (randint_total (-2) 3 10 w1) as (noise & w2 & Hn); try lia.
    rewrite (bind_Ok_intro _ _ _ _ _ Hn).
    unfold tensor_add.
    unfold mbind at 1, M_bind, bind, ret at 1.
    rewrite (bind_Ok_intro _ _ _ _ _ (Htrem _ _)).
    rewrite (bind_Ok_intro _ _ _ _ _
               (tensor_add_scalar_fits _ 3 _ ltac:(lia))).
    rewrite (bind_Ok_intro _ _ _ _ _ (Htrem _ _)). unfold ret. eauto.
Qed.

Lemma stack_Ok seqs w data w' :
  stack seqs w = Ok data w' -> data = seqs /\ seqs <> [] /\ w' = w.
Proof.
  unfold stack, raise. destruct seqs as [|s rest]; [discriminate|].
  destruct (forallb _ rest); [|discriminate].
  intros Hr. apply ret_Ok in Hr as [<- <-]. auto.
Qed.

Lemma stack_total seqs n w :
  seqs <> [] -> Forall (fun s => length s = n) seqs -> stack seqs w = Ok seqs w.
Proof.
  intros Hne Hall. unfold stack. destruct seqs as [|s rest]; [congruence|].
  apply Forall_cons in Hall as [Hs Hrest].
  assert (forallb (fun s' => (length s' =? length s)%nat) rest = true) as ->;
    [|reflexivity].
  apply forallb_forall. intros s' Hin. apply Nat.eqb_eq.
  rewrite Forall_forall in Hrest. rewrite Hs. apply Hrest.
  now apply list_elem_of_In.
Qed.

Lemma tensor_of_labels_Ok ls w labels w' :
  tensor_of_labels ls w = Ok labels w' ->
  Forall2 (fun l z => label_item l = Some z) ls labels.
Proof.
  unfold tensor_of_labels. apply mapM_Ok.
  intros [z|[|z [|? ?]]] w0 y w0'; unfold raise; simpl; try discriminate;
    intros Hr; apply ret_Ok in Hr as [<- _]; reflexivity.
Qed.

Lemma tensor_of_labels_total ls w :
  Forall (fun l => is_Some (label_item l)) ls ->
  exists labels w', tensor_of_labels ls w = Ok labels w'.
Proof.
  intros Hall. unfold tensor_of_labels. apply mapM_total.
  eapply Forall_impl; [exact Hall|].
  intros [z|[|z [|? ?]]] [y Hy] w0; simpl in Hy; try discriminate;
    unfold ret; eauto.
Qed.

(** Every pair of the dataset is what one run of the loop body returned. *)
Lemma generate_data_examples V N w data labels w' :
  generate_data V N w = Ok (data, labels) w' ->
  1 <= N /\ length data = Z.to_nat N /\ length labels = Z.to_nat N /\
  Forall2 (fun seq label => exists w0 w0' lab,
    generate_example V w0 = Ok (seq, lab) w0' /\ label_item lab = Some label)
    data labels.
Proof.
  unfold generate_data. intros Hrun.
  apply bind_Ok in Hrun as (exs & w1 & Hexs & Hrun).
  apply bind_Ok in Hrun as (d & w2 & Hd & Hrun).
  apply bind_Ok in Hrun as (ls & w3 & Hls & Hrun).
  apply ret_Ok in Hrun as [[= <- <-] _].
  apply (repeatM_Ok
           (fun ex => exists w0 w0', generate_example V w0 = Ok ex w0'))
    in Hexs as [Hlen Hall]; [|eauto].
  apply stack_Ok in Hd as (-> & Hne & _).
  apply tensor_of_labels_Ok in Hls.
  assert (1 <= N) as HN
    by (destruct exs; [now contradiction Hne | simpl in Hlen; lia]).
  apply Forall2_length in Hls as Hlen'. rewrite length_map in Hlen'.
  split; [exact HN|]. split; [now rewrite length_map|]. split; [congruence|].
  clear Hlen Hlen' Hne HN. revert ls Hls.
  induction Hall as [|[seq lab] exs (w0 & w0' & Hex) _ IH];
    intros ls Hls; simpl in Hls.
  - apply Forall2_nil_inv_l in Hls as ->. constructor.
  - apply Forall2_cons_inv_l in Hls as (z & ls' & Hz & Hls' & ->).
    simpl in *. constructor; [|now apply IH].
    exists w0, w0', lab. auto.
Qed.

(** What a generator that returns has been given and what it returns,
    whatever the vocabulary size. *)
Lemma generate_data_shape V N w data labels w' :
  generate_data V N w = Ok (data, labels) w' ->
  4 <= V /\ 1 <= N /\
  length data = Z.to_nat N /\ length labels = Z.to_nat N /\
  Forall (fun seq => length seq = 10%nat) data.
Proof.
  intros Hrun.
  apply generate_data_examples in Hrun as (HN & Hlen & Hlen' & Hall).
  assert (Forall (fun seq => 4 <= V /\ length seq = 10%nat) data) as Hdata.
  { clear Hlen Hlen'. induction Hall as [|seq label data labels Hex _ IH];
      constructor; [|exact IH].
    destruct Hex as (w0 & w0' & lab & Hex & _).
    apply generate_example_shape in Hex as (HV & Hseq & _). auto. }
  split.
  { destruct data as [|seq data]; [simpl in Hlen; lia|].
    apply Forall_cons in Hdata as [[HV _] _]. exact HV. }
  split; [exact HN|]. split; [exact Hlen|]. split; [exact Hlen'|].
  eapply Forall_impl; [exact Hdata|]. intros seq [_ Hseq]. exact Hseq.
Qed.

Lemma generate_data_Ok V N w data labels w' :
  V <= 2 ^ 63 - 1 ->
  generate_data V N w = Ok (data, labels) w' ->
  (4 <= V /\ V <= 2 ^ 63 - 1) /\ 1 <= N /\
  length data = Z.to_nat N /\ length labels = Z.to_nat N /\
  Forall2 (fun seq label =>
    length seq = 10%nat /\ (pattern1 V seq label \/ pattern2 V seq label))
    data labels.
Proof.
  intros HV' Hrun.
  pose proof (generate_data_shape _ _ _ _ _ _ Hrun) as (HV & _).
  apply generate_data_examples in Hrun as (HN & Hlen & Hlen' & Hall).
  repeat split; try assumption.
  eapply Forall2_impl; [exact Hall|].
  intros seq label (w0 & w0' & lab & Hex & Hitem).
  apply (generate_example_Ok _ _ _ _ _ HV') in Hex
    as (_ & Hseq & [(_ & l & -> & Hp)|(_ & l & -> & Hp)]);
    simpl in Hitem; injection Hitem as <-; auto.
Qed.

Lemma generate_data_total V N w :
  4 <= V -> V <= 2 ^ 63 - 1 -> 1 <= N ->
  exists data labels w', generate_data V N w = Ok (data, labels) w'.
Proof.
  intros HV HV' HN. unfold generate_data.
  destruct (repeatM_total (generate_example V)) with (n := Z.to_nat N) (w := w)
    as (exs & w1 & Hexs).
  { intros w0. destruct (generate_example_total V w0 HV HV') as (s & l & w0' & Hr).
    eauto. }
  rewrite (bind_Ok_intro _ _ _ _ _ Hexs).
  apply (repeatM_Ok (example_ok V)) in Hexs as [Hlen Hall].
  2:{ intros w0 [seq lab] w0' Hex.
      apply (generate_example_Ok _ _ _ _ _ HV') in Hex
        as (_ & Hseq & [(_ & l & -> & Hp)|(_ & l & -> & Hp)]);
        (split; [exact Hseq|]); exists l; simpl; auto. }
  assert (stack (map fst exs) w1 = Ok (map fst exs) w1) as Hstack.
  { apply (stack_total _ 10%nat).
    - destruct exs; [simpl in Hlen; lia | discriminate].
    - rewrite Forall_map. eapply Forall_impl; [exact Hall|].
      intros ex [Hseq _]. exact Hseq. }
  rewrite (bind_Ok_intro _ _ _ _ _ Hstack).
  destruct (tensor_of_labels_total (map snd exs) w1) as (ls & w2 & Hls).
  { rewrite Forall_map. eapply Forall_impl; [exact Hall|].
    intros ex (_ & l & Hl & _). simpl. rewrite Hl. eauto. }
  rewrite (bind_Ok_intro _ _ _ _ _ Hls). unfold ret. eauto.
Qed.

Lemma pattern_tokens V seq label :
  0 < V -> pattern1 V seq label \/ pattern2 V seq label ->
  Forall (fun t => 0 <= t < V) seq /\ 0 <= label < V.
Proof.
  intros HV [(Hall & a & b & _ & _ & ->)|(base & Hbase & Hall & ->)].
  - split; [|apply Z.mod_pos_bound; lia].
    eapply Forall_impl; [exact Hall|]. intros t Ht. simpl in Ht.
    assert (4 * (V / 4) <= V) by (apply Z.mul_div_le; lia). lia.
  - split; [|apply Z.mod_pos_bound; lia].
    eapply Forall_impl; [exact Hall|]. intros t (n & _ & ->).
    apply Z.mod_pos_bound; lia.
Qed.

Lemma pattern1_functional V seq l1 l2 :
  pattern1 V seq l1 -> pattern1 V seq l2 -> l1 = l2.
Proof.
  intros (_ & a & b & Ha & Hb & ->) (_ & a' & b' & Ha' & Hb' & ->). congruence.
Qed.

(** The two patterns on the first draws of [demo_world]. *)
Example generate_example_pattern1 :
  returns (generate_example 50 demo_world)
  = Some ([3; 10; 5; 0; 7; 2; 9; 4; 11; 6], Rank0 9).
Proof. vm_compute. reflexivity. Qed.

Example generate_example_pattern2 :
  returns (generate_example 100 world_base6)
  = Some (replicate 10 5, Rank1 [9]).
Proof. vm_compute. reflexivity. Qed.

(** ** Claims about the generated dataset *)

(** C3. With valid parameters (a vocabulary of at least four tokens that
    fits int64, at least one example) the generator succeeds, and the
    dataset holds exactly [dataset_size] sequences, each of length 10 with
    every token in [0, vocab_size). *)
Theorem C3_dataset_shape (vocab_size dataset_size : Z) (w : world) :
  4 <= vocab_size -> vocab_size <= 2 ^ 63 - 1 -> 1 <= dataset_size ->
  exists data labels w',
    generate_data vocab_size dataset_size w = Ok (data, labels) w' /\
    Z.of_nat (length data) = dataset_size /\
    Forall (fun seq =>
      length seq = 10%nat /\ Forall (fun t => 0 <= t < vocab_size) seq) data.
Proof.
  intros HV HV' HN.
  destruct (generate_data_total vocab_size dataset_size w HV HV' HN)
    as (data & labels & w' & Hrun).
  exists data, labels, w'. split; [exact Hrun|].
  apply (generate_data_Ok _ _ _ _ _ _ HV') in Hrun as (_ & _ & Hlen & _ & Hall).
  split; [lia|]. clear Hlen.
  induction Hall as [|seq label data labels [Hseq Hp] _ IH];
    constructor; [|exact IH].
  split; [exact Hseq|]. apply (pattern_tokens vocab_size seq label); [lia|exact Hp].
Qed.

Lemma C3_dataset_shape_witness :
  exists data labels w',
    generate_data 50 3 demo_world = Ok (data, labels) w' /\
    Z.of_nat (length data) = 3 /\
    Forall (fun seq => length seq = 10%nat /\ Forall (fun t => 0 <= t < 50) seq) data.
Proof. apply (C3_dataset_shape 50 3 demo_world); lia. Defined.



(** C10, as the spec states it, fails at the vocabulary size 2^63, which
    is at least four: the modulus wraps to -2^63, and the pattern-1 label
    of the sequence that starts with 3 and ends with 66 is 69 - 2^63, not
    69. *)
Lemma C10_modulo_wraps_at_2_63 :
  4 <= 2 ^ 63 /\ takes_pattern1 demo_world /\
  returns (generate_example (2 ^ 63) demo_world)
  = Some ([3; 10; 17; 24; 31; 38; 45; 52; 59; 66], Rank0 (3 + 66 - 2 ^ 63)) /\
  (3 + 66) mod wrap64 (2 ^ 63) <> 3 + 66.
Proof. repeat split; vm_compute; congruence. Qed.

(** C10, amended. On a pattern-1 iteration with a vocabulary size of four
    to 2^63 - 1 the two end tokens sum to less than [vocab_size], so the
    modulo leaves the sum unchanged and the label is the sum itself. *)
Theorem C10_pattern1_modulo_noop (vocab_size : Z) (w w' : world)
    (seq : list Z) (lab : label_tensor) :
  vocab_size <= 2 ^ 63 - 1 ->
  generate_example vocab_size w = Ok (seq, lab) w' ->
  takes_pattern1 w ->
  4 <= vocab_size /\
  exists first last_token,
    seq !! O = Some first /\ last seq = Some last_token /\
    first < vocab_size / 4 /\ last_token < vocab_size / 4 /\
    first + last_token < vocab_size /\
    (first + last_token) mod vocab_size = first + last_token /\
    lab = Rank0 (first + last_token).
Proof.
  intros Hfit Hrun Hp1.
  apply (generate_example_Ok _ _ _ _ _ Hfit) in Hrun
    as ([HV HV'] & Hlen & [(_ & l & -> & Hall & a & b & Ha & Hb & ->)|[Hn _]]);
    [|contradiction].
  split; [exact HV|]. exists a, b.
  assert (0 <= a < vocab_size / 4) as Hxa
    by (eapply (proj1 (Forall_lookup _ _)) in Hall; eauto).
  assert (0 <= b < vocab_size / 4) as Hxb.
  { rewrite last_lookup in Hb.
    eapply (proj1 (Forall_lookup _ _)) in Hall; eauto. }
  destruct (quarter_bounds vocab_size HV HV') as [_ Hq].
  assert ((a + b) mod vocab_size = a + b) as Hmod by (apply Z.mod_small; lia).
  repeat split; try lia; auto. now rewrite Hmod.
Qed.

Lemma C10_pattern1_modulo_noop_witness :
  exists seq lab,
    returns (generate_example 50 demo_world) = Some (seq, lab) /\
    exists first last_token,
      seq !! O = Some first /\ last seq = Some last_token /\
      (first + last_token) mod 50 = first + last_token /\
      lab = Rank0 (first + last_token).
Proof.
  destruct (generate_example 50 demo_world) as [e|[seq lab] w'] eqn:Hrun.
  - vm_compute in Hrun. discriminate Hrun.
  - exists seq, lab. split; [reflexivity|].
    destruct (C10_pattern1_modulo_noop 50 demo_world w' seq lab ltac:(lia) Hrun)
      as (_ & a & b & Ha & Hb & _ & _ & _ & Hmod & Hlab).
    + vm_compute. reflexivity.
    + exists a, b. auto.
Defined.

(** C2, as the spec states it, fails: two runs of the generator produce the
    same sequence [5; ...; 5] with the labels 8 and 9 (both under pattern 2,
    base tokens 5 and 6), and a third run under pattern 1 pairs it with 10. *)
Lemma C2_same_sequence_different_labels :
  returns (generate_data 100 1 world_base5) = Some ([replicate 10 5], [8]) /\
  returns (generate_data 100 1 world_base6) = Some ([replicate 10 5], [9]) /\
  returns (generate_data 100 1 world_all5) = Some ([replicate 10 5], [10]).
Proof. repeat split; vm_compute; reflexivity. Qed.

(** C2, amended. For a vocabulary size that fits int64, every pair of the
    dataset is what one iteration of the loop returned, and its label is
    fixed by the branch and the draws of that iteration: an iteration that
    takes pattern 1 gives the label (seq[0] + seq[-1]) mod vocab_size, an
    iteration that takes pattern 2 the label (base_token + 3) mod
    vocab_size for the base token that every token of its sequence is
    within two of (modulo vocab_size). Two iterations that take pattern 1
    and return the same sequence return the same label. *)
Theorem C2_label_from_draws (vocab_size dataset_size : Z) (w w' : world)
    (data : list (list Z)) (labels : list Z) :
  vocab_size <= 2 ^ 63 - 1 ->
  generate_data vocab_size dataset_size w = Ok (data, labels) w' ->
  Forall2 (fun seq label => exists w0 w0' lab,
    generate_example vocab_size w0 = Ok (seq, lab) w0' /\
    label_item lab = Some label /\
    (takes_pattern1 w0 -> pattern1 vocab_size seq label) /\
    (~ takes_pattern1 w0 -> pattern2 vocab_size seq label))
    data labels /\
  (forall wa wa' wb wb' seq la lb,
     generate_example vocab_size wa = Ok (seq, la) wa' ->
     generate_example vocab_size wb = Ok (seq, lb) wb' ->
     takes_pattern1 wa -> takes_pattern1 wb -> la = lb).
Proof.
  intros HV' Hrun. split.
  - apply generate_data_examples in Hrun as (_ & _ & _ & Hall).
    eapply Forall2_impl; [exact Hall|].
    intros seq label (w0 & w0' & lab & Hex & Hitem).
    exists w0, w0', lab. split; [exact Hex|]. split; [exact Hitem|].
    apply (generate_example_Ok _ _ _ _ _ HV') in Hex
      as (_ & _ & [(Hp & l & -> & Hpat)|(Hp & l & -> & Hpat)]);
      simpl in Hitem; injection Hitem as <-;
      split; intros Hbranch; first [exact Hpat | contradiction].
  - intros wa wa' wb wb' seq la lb Ha Hb Hpa Hpb.
    apply (generate_example_Ok _ _ _ _ _ HV') in Ha
      as (_ & _ & [(_ & l1 & -> & H1)|[Hn _]]); [|contradiction].
    apply (generate_example_Ok _ _ _ _ _ HV') in Hb
      as (_ & _ & [(_ & l2 & -> & H2)|[Hn _]]); [|contradiction].
    f_equal. exact (pattern1_functional _ _ _ _ H1 H2).
Qed.

Lemma C2_label_from_draws_witness :
  exists data labels,
    returns (generate_data 50 3 demo_world) = Some (data, labels) /\
    Forall2 (fun seq label => exists w0 w0' lab,
      generate_example 50 w0 = Ok (seq, lab) w0' /\
      label_item lab = Some label /\
      (takes_pattern1 w0 -> pattern1 50 seq label) /\
      (~ takes_pattern1 w0 -> pattern2 50 seq label))
      data labels.
Proof.
  destruct (generate_data 50 3 demo_world) as [e|[data labels] w'] eqn:Hrun.
  - vm_compute in Hrun. discriminate Hrun.
  - exists data, labels. split; [reflexivity|].
    exact (proj1 (C2_label_from_draws 50 3 demo_world w' data labels
                    ltac:(lia) Hrun)).
Defined.

(** ** The train/test split *)

Lemma div_between a b q : 0 < b -> q * b <= a -> a < (q + 1) * b -> a / b = q.
Proof.
  intros Hb Hlo Hhi.
  assert (q <= a / b) by (apply Z.div_le_lower_bound; lia).
  assert (a / b < q + 1) by (apply Z.div_lt_upper_bound; lia).
  lia.
Qed.

Lemma log2_le_52 n : 0 <= n < 2 ^ 53 -> Z.log2 n - 52 <= 0.
Proof.
  intros Hn. destruct (Z.eq_dec n 0) as [->|Hne]; [simpl; lia|].
  assert (Z.log2 n < 53) by (apply Z.log2_lt_pow2; lia). lia.
Qed.

(** The modelled rounding is the hardware's on a sample of lengths. *)
Lemma round53_agrees_with_prim :
  forallb agrees_with_prim
    (map Z.of_nat (seq 0 300) ++
     [2000; 5000; 10000; 123456789; 2 ^ 31 - 1; 2 ^ 40 + 3; 2 ^ 50 - 1]) = true.
Proof. vm_compute. reflexivity. Qed.

(** [int(0.8 * n)] is the floor of four fifths of [n]: the product of the
    double nearest 0.8 with [n] rounds to a double in [k, k + 1) for
    k = floor(4n/5). *)
Lemma train_size_exact n :
  0 <= n < 2 ^ 50 ->
  int_of_float (float_mul float_0_8 (float_of_int n)) = 4 * n / 5.
Proof.
  intros Hn.
  unfold float_of_int. unfold round53.
  assert ((Z.log2 n - 52 <=? 0) = true) as -> by (apply Z.leb_le, log2_le_52; lia).
  unfold float_mul, float_0_8. cbn [mant expo].
  change (-52 + 0) with (-52).
  set (P := 3602879701896397 * n).
  set (k := 4 * n / 5).
  assert (exists j, 0 <= j <= 4 /\ 4 * n = 5 * k + j) as (j & Hj & Hk).
  { exists ((4 * n) mod 5). pose proof (Z.mod_pos_bound (4 * n) 5 ltac:(lia)).
    pose proof (Z.div_mod (4 * n) 5 ltac:(lia)). subst k. lia. }
  assert (5 * P = 2 ^ 52 * (5 * k + j) + n) as HP by (subst P; lia).
  assert (0 <= P < 2 ^ 102) as HP102 by (subst P; lia).
  clearbody P k.
  unfold round53.
  destruct (Z.log2 P - 52 <=? 0) eqn:Hs.
  - (* the product is exact *)
    unfold int_of_float. cbn [mant expo].
    change (0 <=? -52) with false. cbv iota. change (- -52) with 52.
    change (2 ^ 52) with 4503599627370496 in *.
    change (2 ^ 50) with 1125899906842624 in *.
    apply div_between; lia.
  - (* the product is rounded to 53 bits *)
    apply Z.leb_gt in Hs.
    set (s := Z.log2 P - 52) in *.
    assert (s <= 49) as Hs49.
    { assert (Z.log2 P < 102); [|lia].
      destruct (Z.eq_dec P 0) as [->|]; [simpl; lia|].
      apply Z.log2_lt_pow2; lia. }
    unfold int_of_float. cbn [mant expo].
    assert ((0 <=? -52 + s) = false) as -> by (apply Z.leb_gt; lia).
    replace (- (-52 + s)) with (52 - s) by lia.
    change (2 ^ 50) with 1125899906842624 in *.
    set (S := 2 ^ s). set (D := 2 ^ (52 - s)). set (half := 2 ^ (s - 1)).
    assert (S * D = 2 ^ 52) as HSD
      by (subst S D; rewrite <- Z.pow_add_r; [f_equal| |]; lia).
    assert (2 * half = S) as Hhalf.
    { subst S half. replace s with (1 + (s - 1)) at 2 by lia.
      rewrite Z.pow_add_r; lia. }
    assert (0 < S) as HS0 by (subst S; apply Z.pow_pos_nonneg; lia).
    assert (0 < D) as HD0 by (subst D; apply Z.pow_pos_nonneg; lia).
    assert (half <= 2 ^ 48) as Hh48 by (subst half; apply Z.pow_le_mono_r; lia).
    change (2 ^ 48) with 281474976710656 in *.
    change (2 ^ 52) with 4503599627370496 in *.
    pose proof (Z.div_mod P S ltac:(lia)) as Hdm.
    pose proof (Z.mod_pos_bound P S HS0) as Hr.
    set (q := P / S) in *. set (r := P mod S) in *.
    assert (k * D <= q) as Hlo.
    { assert (k * D * S < (q + 1) * S) by nia.
      assert (k * D < q + 1) by (apply Z.mul_lt_mono_pos_r with S; lia). lia. }
    apply div_between; [exact HD0| |].
    + destruct (_ || _); lia.
    + destruct ((half <? r) || (r =? half) && Z.odd q) eqn:Hup.
      * assert (half <= r) as Hge.
        { apply orb_true_iff in Hup as [H1|H1].
          - apply Z.ltb_lt in H1. lia.
          - apply andb_true_iff in H1 as [H1 _]. apply Z.eqb_eq in H1. lia. }
        apply Z.mul_lt_mono_pos_r with S; [lia|]. nia.
      * apply Z.mul_lt_mono_pos_r with S; [lia|]. nia.
Qed.

(** The bound is needed: from about 2^51 examples on, the excess of the
    double over 0.8 carries the rounded product across an integer. *)
Lemma train_size_beyond_bound :
  int_of_float (float_mul float_0_8 (float_of_int (2 ^ 51 + 3)))
  = 4 * (2 ^ 51 + 3) / 5 + 1.
Proof. vm_compute. reflexivity. Qed.

Lemma train_size_of_floor len :
  Z.of_nat len < 2 ^ 50 -> train_size_of len = 4 * Z.of_nat len / 5.
Proof. intros Hlen. unfold train_size_of. apply train_size_exact. lia. Qed.

(** What the constructor of a loader returns, and when. *)
Lemma DataLoader_init_Ok examples size shuffled w loader w' :
  DataLoader_init examples size shuffled w = Ok loader w' ->
  loader = {| dataset := examples; batch_size := size; shuffle := shuffled |} /\
  (shuffled = true -> examples <> []) /\ w' = w.
Proof.
  unfold DataLoader_init, raise.
  destruct shuffled; simpl.
  - destruct (bool_decide (examples = [])) eqn:Hempty; [discriminate|].
    apply bool_decide_eq_false in Hempty.
    intros Hr. apply ret_Ok in Hr as [<- <-]. auto.
  - intros Hr. apply ret_Ok in Hr as [<- <-].
    split; [reflexivity|]. split; [discriminate | reflexivity].
Qed.

Lemma DataLoader_init_total examples size shuffled w :
  (shuffled = true -> examples <> []) ->
  DataLoader_init examples size shuffled w
  = Ok {| dataset := examples; batch_size := size; shuffle := shuffled |} w.
Proof.
  intros Hne. unfold DataLoader_init. destruct shuffled; simpl; [|reflexivity].
  rewrite bool_decide_eq_false_2 by auto. reflexivity.
Qed.

(** The two loaders, once built, hold a prefix and the matching suffix of
    the zipped examples, and the prefix is not empty. *)
Lemma train_test_split_Ok (data : list (list Z)) (labels : list Z)
    w train_data test_data w' :
  train_test_split data labels w = Ok (train_data, test_data) w' ->
  let k := Z.to_nat (train_size_of (length data)) in
  dataset train_data = take k (zip data labels) /\
  dataset test_data = drop k (zip data labels) /\
  take k (zip data labels) <> [] /\ w' = w.
Proof.
  unfold train_test_split, slice_to, slice_from. intros Hrun. cbv zeta.
  apply bind_Ok in Hrun as (tr & w1 & Htr & Hrun).
  apply bind_Ok in Hrun as (te & w2 & Hte & Hrun).
  apply ret_Ok in Hrun as [[= <- <-] <-].
  apply DataLoader_init_Ok in Htr as (-> & Hne & ->).
  apply DataLoader_init_Ok in Hte as (-> & _ & ->).
  cbn [dataset].
  rewrite <- (zip_with_take pair), <- (zip_with_drop pair).
  split; [reflexivity|]. split; [reflexivity|].
  split; [|reflexivity].
  rewrite (zip_with_take pair). exact (Hne eq_refl).
Qed.

Lemma train_test_split_total (data : list (list Z)) (labels : list Z) w :
  take (Z.to_nat (train_size_of (length data))) (zip data labels) <> [] ->
  exists train_data test_data,
    train_test_split data labels w = Ok (train_data, test_data) w.
Proof.
  intros Hne. unfold train_test_split, slice_to, slice_from.
  rewrite (zip_with_take pair) in Hne.
  rewrite (bind_Ok_intro _ _ _ _ _
             (DataLoader_init_total _ 32 true w (fun _ => Hne))).
  rewrite (bind_Ok_intro _ _ _ _ _
             (DataLoader_init_total _ 32 false w ltac:(discriminate))).
  unfold ret. eauto.
Qed.

(** An empty training list makes the shuffling loader's constructor
    raise. *)
Lemma train_test_split_empty (data : list (list Z)) (labels : list Z) w :
  take (Z.to_nat (train_size_of (length data))) (zip data labels) = [] ->
  train_test_split data labels w = Err ValueError.
Proof.
  intros Hempty. unfold train_test_split, slice_to, slice_from.
  apply bind_Err. unfold DataLoader_init.
  rewrite (zip_with_take pair) in Hempty.
  rewrite bool_decide_eq_true_2 by exact Hempty. reflexivity.
Qed.

(** C6. The training set is the first [train_size] generated (sequence,
    label) pairs and the test set the remaining ones: whenever the two
    loaders are built, position [i] of the dataset is position [i] of the
    training set when [i] is below the split point and position
    [i - train_size] of the test set otherwise, and the two sets have
    [dataset_size] elements together. For every dataset of fewer than
    2^50 examples, where the binary64 product is still within half a unit,
    [train_size] is floor(0.8 * dataset_size); the loaders are then built
    for every dataset of two examples or more, while a single example
    leaves the training list empty and the constructor of the shuffling
    loader raises. *)
Theorem C6_split_partitions (vocab_size dataset_size : Z) (w w' : world)
    (data : list (list Z)) (labels : list Z) :
  generate_data vocab_size dataset_size w = Ok (data, labels) w' ->
  let examples := zip data labels in
  let k := Z.to_nat (train_size_of (length data)) in
  Z.of_nat (length examples) = dataset_size /\
  (forall w0 train_data test_data w1,
     train_test_split data labels w0 = Ok (train_data, test_data) w1 ->
     let train := dataset train_data in
     let test := dataset test_data in
     train = take k examples /\ test = drop k examples /\
     train ++ test = examples /\
     (length train + length test = length examples)%nat /\
     (forall i : nat, (i < length train)%nat -> train !! i = examples !! i) /\
     (forall i : nat, (length train <= i)%nat ->
        test !! (i - length train)%nat = examples !! i) /\
     (dataset_size < 2 ^ 50 ->
        length train = Z.to_nat (4 * dataset_size / 5))) /\
  (dataset_size < 2 ^ 50 ->
     train_size_of (length data) = 4 * dataset_size / 5 /\
     (2 <= dataset_size ->
        forall w0, exists train_data test_data,
          train_test_split data labels w0 = Ok (train_data, test_data) w0) /\
     (dataset_size = 1 ->
        forall w0, train_test_split data labels w0 = Err ValueError)).
Proof.
  intros Hrun. cbv zeta.
  apply generate_data_shape in Hrun as (_ & HN1 & Hlen & Hlen' & _).
  set (k := Z.to_nat (train_size_of (length data))).
  assert (length (zip data labels) = Z.to_nat dataset_size) as Hzip
    by (rewrite length_zip_with; lia).
  assert (dataset_size < 2 ^ 50 ->
          train_size_of (length data) = 4 * dataset_size / 5 /\
          k = Z.to_nat (4 * dataset_size / 5) /\
          (k <= length (zip data labels))%nat) as Hfloor.
  { intros HN. subst k. rewrite train_size_of_floor by lia.
    assert (Z.of_nat (length data) = dataset_size) as -> by lia.
    split; [reflexivity|]. split; [reflexivity|]. rewrite Hzip.
    apply Z2Nat.inj_le; [apply Z.div_pos; lia | lia |].
    apply Z.div_le_upper_bound; lia. }
  split; [lia|]. split.
  - intros w0 train_data test_data w1 Hsplit.
    apply train_test_split_Ok in Hsplit as (-> & -> & _ & _). fold k.
    split; [reflexivity|]. split; [reflexivity|].
    split; [apply take_drop|]. split.
    { rewrite length_take, length_drop. lia. }
    split; [|split].
    + intros i Hi. apply lookup_take_lt. rewrite length_take in Hi. lia.
    + intros i Hi. rewrite length_take in Hi |- *.
      destruct (le_lt_dec k (length (zip data labels))) as [Hk|Hk].
      * rewrite lookup_drop. f_equal. lia.
      * rewrite (lookup_ge_None_2 (zip data labels) i) by lia.
        apply lookup_ge_None_2. rewrite length_drop. lia.
    + intros HN. destruct (Hfloor HN) as (_ & Hk & Hle).
      rewrite length_take. lia.
  - intros HN. destruct (Hfloor HN) as (Hsize & Hk & Hle).
    split; [exact Hsize|]. split.
    + intros HN2 w0. apply train_test_split_total. fold k.
      assert (1 <= 4 * dataset_size / 5)
        by (apply Z.div_le_lower_bound; lia).
      intros Hempty. apply (f_equal length) in Hempty.
      rewrite length_take in Hempty. simpl in Hempty. lia.
    + intros -> w0. apply train_test_split_empty. fold k.
      rewrite Hk. reflexivity.
Qed.

Lemma C6_split_partitions_witness :
  exists data labels train_data test_data,
    returns (generate_data 50 7 demo_world) = Some (data, labels) /\
    returns (train_test_split data labels demo_world)
    = Some (train_data, test_data) /\
    dataset train_data = take 5 (zip data labels) /\
    dataset test_data = drop 5 (zip data labels).
Proof.
  destruct (generate_data 50 7 demo_world) as [e|[data labels] w'] eqn:Hrun.
  - vm_compute in Hrun. discriminate Hrun.
  - destruct (C6_split_partitions 50 7 demo_world w' data labels Hrun)
      as (_ & Hparts & Hfloor).
    destruct Hfloor as (Hk & Hbuilt & _); [lia|].
    destruct (Hbuilt ltac:(lia) demo_world) as (train_data & test_data & Hsplit).
    exists data, labels, train_data, test_data.
    split; [reflexivity|]. split; [rewrite Hsplit; reflexivity|].
    destruct (Hparts _ _ _ _ Hsplit) as (Htrain & Htest & _).
    rewrite Hk in Htrain, Htest.
    split; [exact Htrain | exact Htest].
Defined.

(** ** Shapes through the layers *)

Lemma mapM_spec {A B} (R : A -> B -> Prop) (f : A -> M B) (l : list A) :
  Forall (fun x => forall w, exists y w', f x w = Ok y w' /\ R x y) l ->
  forall w, exists r w', mapM f l w = Ok r w' /\ Forall2 R l r.
Proof.
  induction 1 as [|x l Hx _ IH]; simpl; intros w.
  - exists [], w. split; [reflexivity | constructor].
  - destruct (Hx w) as (y & w1 & Hy & HR).
    destruct (IH w1) as (r & w2 & Hr & HRs).
    exists (y :: r), w2. rewrite (bind_Ok_intro _ _ _ _ _ Hy).
    rewrite (bind_Ok_intro _ _ _ _ _ Hr). split; [reflexivity|].
    constructor; assumption.
Qed.

(** Run the next step of a sequence of binds with its specification. *)
Ltac step Hspec y w1 Hpost :=
  let Hrun := fresh "Hrun" in
  match goal with
  | |- exists _ _, (_ ≫= _) ?w = Ok _ _ /\ _ =>
      destruct (Hspec w) as (y & w1 & Hrun & Hpost);
      rewrite (bind_Ok_intro _ _ _ _ _ Hrun); clear Hrun
  end.

Lemma Forall2_Forall_right {A B} (P : B -> Prop) (l : list A) (k : list B) :
  Forall2 (fun _ y => P y) l k -> Forall P k.
Proof. induction 1; constructor; assumption. Qed.

Section LayerShapes.
Context {F : Type} `{Scalar F}.

Lemma shape2_of_Forall2 {A} (c : nat) (l : list A) (m : matrix F) :
  Forall2 (fun _ row => length row = c) l m -> shape2 (length l) c m.
Proof.
  intros Hall. split.
  - symmetry. eapply Forall2_length, Hall.
  - eapply Forall2_Forall_right, Hall.
Qed.

Lemma shape3_lengths ls c (t : tensor3 F) :
  shape3 ls c t -> length t = length ls.
Proof. intros Hs. symmetry. eapply Forall2_length, Hs. Qed.

(** *** Embedding *)

Lemma embedding_row_spec (e : Embedding F) token :
  wf_Embedding e -> 0 <= token < num_embeddings e ->
  forall w, exists row w', embedding_row e token w = Ok row w' /\
    length row = Z.to_nat (embedding_dim e).
Proof.
  intros (Hnum & Hdim & Hlen & Hrows) Htok w. unfold embedding_row.
  assert ((token <? 0) || (num_embeddings e <=? token) = false) as ->.
  { apply orb_false_iff. split; [apply Z.ltb_ge | apply Z.leb_gt]; lia. }
  destruct (lookup_lt_is_Some_2 (emb_weight e) (Z.to_nat token)) as [row Hrow];
    [lia|].
  rewrite Hrow. exists row, w. split; [reflexivity|].
  eapply (proj1 (Forall_lookup _ _)) in Hrows; eauto.
Qed.

Lemma embedding_forward_spec (e : Embedding F) (x : list (list Z)) :
  wf_Embedding e -> valid_tokens (num_embeddings e) x ->
  forall w, exists t w', embedding_forward e x w = Ok t w' /\
    shape3 (map length x) (Z.to_nat (embedding_dim e)) t.
Proof.
  intros Hwf Hx w. unfold embedding_forward.
  destruct (mapM_spec
    (fun xs m => shape2 (length xs) (Z.to_nat (embedding_dim e)) m)
    (mapM (embedding_row e)) x) with (w := w) as (t & w' & Ht & Hshape).
  - eapply Forall_impl; [exact Hx|]. intros xs Hxs w0.
    destruct (mapM_spec
      (fun _ row => length row = Z.to_nat (embedding_dim e))
      (embedding_row e) xs) with (w := w0) as (m & w0' & Hm & Hrows).
    + eapply Forall_impl; [exact Hxs|]. intros tok Htok.
      now apply embedding_row_spec.
    + exists m, w0'. split; [exact Hm|]. now apply shape2_of_Forall2.
  - exists t, w'. split; [exact Ht|]. unfold shape3.
    now apply Forall2_fmap_l.
Qed.

(** *** Dropout *)

Lemma dropout_entry_total p training (x : F) w :
  exists y w', dropout_entry p training x w = Ok y w'.
Proof.
  unfold dropout_entry. destruct training; [|unfold ret; eauto].
  destruct (torch_raw_total w) as (r & w1 & Hr).
  rewrite (bind_Ok_intro _ _ _ _ _ Hr).
  destruct (Qle_bool _ _); unfold ret; eauto.
Qed.

Lemma dropout_row_spec p training (row : vec F) :
  forall w, exists row' w', mapM (dropout_entry p training) row w = Ok row' w' /\
    length row' = length row.
Proof.
  intros w.
  destruct (mapM_spec (fun _ _ => True) (dropout_entry p training) row)
    with (w := w) as (row' & w' & Hrun & Hall).
  - apply Forall_forall. intros x _ w0.
    destruct (dropout_entry_total p training x w0) as (y & w0' & Hy). eauto.
  - exists row', w'. split; [exact Hrun|]. symmetry. eapply Forall2_length, Hall.
Qed.

Lemma dropout2_spec p training r c (m : matrix F) :
  shape2 r c m ->
  forall w, exists m' w', dropout2 p training m w = Ok m' w' /\ shape2 r c m'.
Proof.
  intros [Hlen Hrows] w. unfold dropout2.
  destruct (mapM_spec (fun _ row' => length row' = c)
    (mapM (dropout_entry p training)) m) with (w := w)
    as (m' & w' & Hrun & Hall).
  - eapply Forall_impl; [exact Hrows|]. intros row Hrow w0. simpl in Hrow.
    destruct (dropout_row_spec p training row w0) as (row' & w0' & Hr & Hl).
    exists row', w0'. split; [exact Hr | congruence].
  - exists m', w'. split; [exact Hrun|]. rewrite <- Hlen.
    now apply shape2_of_Forall2.
Qed.

Lemma dropout3_spec p training ls c (t : tensor3 F) :
  shape3 ls c t ->
  forall w, exists t' w', dropout3 p training t w = Ok t' w' /\ shape3 ls c t'.
Proof.
  unfold shape3, dropout3. intros Hs. induction Hs as [|L m ls t Hm _ IH];
    simpl; intros w.
  - exists [], w. split; [reflexivity | constructor].
  - destruct (dropout2_spec p training L c m Hm w) as (m' & w1 & Hm' & Hsm).
    destruct (IH w1) as (t' & w2 & Ht' & Hst).
    rewrite (bind_Ok_intro _ _ _ _ _ Hm'), (bind_Ok_intro _ _ _ _ _ Ht').
    exists (m' :: t'), w2. split; [reflexivity | constructor; assumption].
Qed.

(** *** Pooling, ReLU *)

Lemma mean_dim1_shape d (t : tensor3 F) :
  shape2 (length t) d (mean_dim1 d t).
Proof.
  unfold mean_dim1. split; [apply length_map|].
  apply Forall_map, Forall_forall. intros m _. simpl.
  now rewrite length_map, length_seq.
Qed.

Lemma relu_shape r c (m : matrix F) : shape2 r c m -> shape2 r c (relu m).
Proof.
  intros [Hlen Hrows]. unfold relu. split; [now rewrite length_map|].
  apply Forall_map. eapply Forall_impl; [exact Hrows|].
  intros row Hrow. simpl. now rewrite length_map.
Qed.

(** *** Linear *)

Lemma linear_row_spec (W : matrix F) (b : vec F) fan_in (x : vec F) :
  Z.of_nat (length x) = fan_in ->
  forall w, exists y w', linear_row W b fan_in x w = Ok y w' /\
    length y = Nat.min (length W) (length b).
Proof.
  intros Hx w. unfold linear_row.
  assert ((Z.of_nat (length x) =? fan_in) = true) as -> by (apply Z.eqb_eq, Hx).
  exists (zip_with fadd (map (dot x) W) b), w. split; [reflexivity|].
  now rewrite length_zip_with, length_map.
Qed.

Lemma linear_forward_spec fan_in fan_out (l : Linear F) r (m : matrix F) :
  wf_Linear fan_in fan_out l -> shape2 r (Z.to_nat fan_in) m ->
  forall w, exists y w', linear_forward l m w = Ok y w' /\
    shape2 r (Z.to_nat fan_out) y.
Proof.
  intros (Hin & Hout & Hin0 & Hout0 & [HW _] & Hb) [Hlen Hrows] w.
  unfold linear_forward.
  destruct (mapM_spec (fun _ y => length y = Z.to_nat fan_out)
    (linear_row (lin_weight l) (lin_bias l) (in_features l)) m) with (w := w)
    as (y & w' & Hrun & Hall).
  - eapply Forall_impl; [exact Hrows|]. intros x Hx w0. simpl in Hx.
    destruct (linear_row_spec (lin_weight l) (lin_bias l) (in_features l) x)
      with (w := w0) as (y & w0' & Hy & Hl); [lia|].
    exists y, w0'. split; [exact Hy | lia].
  - exists y, w'. split; [exact Hrun|]. rewrite <- Hlen.
    now apply shape2_of_Forall2.
Qed.

(** *** BaseEmbeddingModel.forward *)

Lemma BaseEmbeddingModel_forward_spec V D (m : BaseEmbeddingModel F)
    (x : list (list Z)) :
  wf_BaseEmbeddingModel V D m -> valid_tokens V x ->
  forall w, exists logits w',
    BaseEmbeddingModel_forward m x w = Ok logits w' /\
    shape2 (length x) (Z.to_nat V) logits.
Proof.
  intros (Hemb & HV & HD & Hl1 & Hl2 & Hfc) Hx w.
  unfold BaseEmbeddingModel_forward. cbv zeta. rewrite <- HV in Hx.
  step (embedding_forward_spec (base_embedding m) x Hemb Hx) e0 w1 He0.
  step (dropout3_spec (base_dropout m) (base_training m) _ _ e0 He0) e1 w2 He1.
  pose proof (mean_dim1_shape (Z.to_nat (embedding_dim (base_embedding m))) e1)
    as Hpool.
  rewrite (shape3_lengths _ _ _ He1), length_map in Hpool. rewrite HD in *.
  step (linear_forward_spec _ _ _ _ _ Hl1 Hpool) h1 w3 Hh1.
  step (dropout2_spec (base_dropout m) (base_training m) _ _ _
          (relu_shape _ _ _ Hh1)) h2 w4 Hh2.
  step (linear_forward_spec _ _ _ _ _ Hl2 Hh2) h3 w5 Hh3.
  step (dropout2_spec (base_dropout m) (base_training m) _ _ _
          (relu_shape _ _ _ Hh3)) h4 w6 Hh4.
  apply (linear_forward_spec _ _ _ _ _ Hfc Hh4).
Qed.

(** *** Row-wise layers lifted to matrices and batches *)

Lemma rows_spec (f : vec F -> M (vec F)) c c' r (m : matrix F) :
  (forall row, length row = c ->
     forall w, exists row' w', f row w = Ok row' w' /\ length row' = c') ->
  shape2 r c m ->
  forall w, exists m' w', mapM f m w = Ok m' w' /\ shape2 r c' m'.
Proof.
  intros Hf [Hlen Hrows] w.
  destruct (mapM_spec (fun _ row' => length row' = c') f m) with (w := w)
    as (m' & w' & Hrun & Hall).
  - eapply Forall_impl; [exact Hrows|]. intros row Hrow. now apply Hf.
  - exists m', w'. split; [exact Hrun|]. rewrite <- Hlen.
    now apply shape2_of_Forall2.
Qed.

Lemma batch_spec (g : matrix F -> M (matrix F)) c c' ls (t : tensor3 F) :
  (forall L m, shape2 L c m ->
     forall w, exists m' w', g m w = Ok m' w' /\ shape2 L c' m') ->
  shape3 ls c t ->
  forall w, exists t' w', mapM g t w = Ok t' w' /\ shape3 ls c' t'.
Proof.
  intros Hg Hs. unfold shape3 in *.
  induction Hs as [|L m ls t Hm _ IH]; simpl; intros w.
  - exists [], w. split; [reflexivity | constructor].
  - destruct (Hg L m Hm w) as (m' & w1 & Hm' & Hsm).
    destruct (IH w1) as (t' & w2 & Ht' & Hst).
    rewrite (bind_Ok_intro _ _ _ _ _ Hm'), (bind_Ok_intro _ _ _ _ _ Ht').
    exists (m' :: t'), w2. split; [reflexivity | constructor; assumption].
Qed.

(** *** LayerNorm *)

Lemma layer_norm_row_spec dim (ln : LayerNorm F) (x : vec F) :
  wf_LayerNorm dim ln -> length x = Z.to_nat dim ->
  forall w, exists y w', layer_norm_row ln x w = Ok y w' /\
    length y = Z.to_nat dim.
Proof.
  intros (Hns & Hdim & Hw & Hb) Hx w. unfold layer_norm_row.
  assert ((Z.of_nat (length x) =? normalized_shape ln) = true) as ->
    by (apply Z.eqb_eq; lia).
  eexists _, w. split; [reflexivity|].
  rewrite !length_zip_with, !length_map. lia.
Qed.

Lemma layer_norm_forward_spec dim (ln : LayerNorm F) ls (t : tensor3 F) :
  wf_LayerNorm dim ln -> shape3 ls (Z.to_nat dim) t ->
  forall w, exists t' w', layer_norm_forward ln t w = Ok t' w' /\
    shape3 ls (Z.to_nat dim) t'.
Proof.
  intros Hln Hs. unfold layer_norm_forward.
  apply (batch_spec _ (Z.to_nat dim)); [|exact Hs].
  intros L m Hm. apply (rows_spec _ (Z.to_nat dim)); [|exact Hm].
  intros row Hrow. now apply layer_norm_row_spec.
Qed.

(** *** Elementwise operations on two tensors of one shape *)

Lemma same_rows_check c (ma mb : matrix F) L :
  shape2 L c ma -> shape2 L c mb ->
  (length ma =? length mb)%nat
  && forallb (fun '(ra, rb) => (length ra =? length rb)%nat) (zip ma mb) = true.
Proof.
  intros [Hla Hra] [Hlb Hrb]. apply andb_true_iff. split.
  - apply Nat.eqb_eq. congruence.
  - apply forallb_forall. intros [ra rb] Hin. apply list_elem_of_In in Hin.
    apply Nat.eqb_eq.
    pose proof (elem_of_zip_l _ _ _ _ Hin) as Ha.
    pose proof (elem_of_zip_r _ _ _ _ Hin) as Hb.
    rewrite Forall_forall in Hra, Hrb.
    rewrite (Hra ra Ha), (Hrb rb Hb). reflexivity.
Qed.

Lemma same_shape_check ls c (a b : tensor3 F) :
  shape3 ls c a -> shape3 ls c b ->
  (length a =? length b)%nat
  && forallb (fun '(ma, mb) =>
       (length ma =? length mb)%nat
       && forallb (fun '(ra, rb) => (length ra =? length rb)%nat) (zip ma mb))
     (zip a b) = true.
Proof.
  intros Ha Hb. apply andb_true_iff. split.
  - apply Nat.eqb_eq.
    rewrite (shape3_lengths _ _ _ Ha), (shape3_lengths _ _ _ Hb). reflexivity.
  - unfold shape3 in *. revert b Hb.
    induction Ha as [|L ma ls a Hma _ IH]; intros b Hb.
    + reflexivity.
    + apply Forall2_cons_inv_l in Hb as (mb & b' & Hmb & Hb' & ->).
      simpl. rewrite (same_rows_check c ma mb L Hma Hmb). simpl.
      now apply IH.
Qed.

Lemma zip_rows_shape (f : F -> F -> F) c (ma mb : matrix F) L :
  shape2 L c ma -> shape2 L c mb ->
  shape2 L c (zip_with (zip_with f) ma mb).
Proof.
  intros [Hla Hra] [Hlb Hrb]. split.
  - rewrite length_zip_with. lia.
  - apply Forall_forall. intros row Hin.
    apply elem_of_zip_with in Hin as (ra & rb & -> & Hina & Hinb).
    rewrite Forall_forall in Hra, Hrb.
    rewrite length_zip_with, (Hra ra Hina), (Hrb rb Hinb). lia.
Qed.

Lemma zip_tensors_shape (f : F -> F -> F) ls c (a b : tensor3 F) :
  shape3 ls c a -> shape3 ls c b ->
  shape3 ls c (zip_with (zip_with (zip_with f)) a b).
Proof.
  unfold shape3. intros Ha. revert b.
  induction Ha as [|L ma ls a Hma _ IH]; intros b Hb.
  - apply Forall2_nil_inv_l in Hb as ->. constructor.
  - apply Forall2_cons_inv_l in Hb as (mb & b' & Hmb & Hb' & ->).
    simpl. constructor; [now apply zip_rows_shape | now apply IH].
Qed.

Lemma add3_spec ls c (a b : tensor3 F) :
  shape3 ls c a -> shape3 ls c b ->
  forall w, exists t w', add3 a b w = Ok t w' /\ shape3 ls c t.
Proof.
  intros Ha Hb w. unfold add3. rewrite (same_shape_check ls c a b Ha Hb).
  eexists _, w. split; [reflexivity|]. now apply zip_tensors_shape.
Qed.

Lemma mul3_spec ls c (a b : tensor3 F) :
  shape3 ls c a -> shape3 ls c b ->
  forall w, exists t w', mul3 a b w = Ok t w' /\ shape3 ls c t.
Proof.
  intros Ha Hb w. unfold mul3. rewrite (same_shape_check ls c a b Ha Hb).
  eexists _, w. split; [reflexivity|]. now apply zip_tensors_shape.
Qed.

(** *** MultiheadAttention *)

Lemma attention_head_spec (a : MultiheadAttention F) training
    (q k v : matrix F) h :
  forall w, exists o w', attention_head a training q k v h w = Ok o w' /\
    shape2 (length q) (Z.to_nat (head_dim a)) o.
Proof.
  intros w. unfold attention_head. cbv zeta.
  set (hd := Z.to_nat (head_dim a)).
  set (scores := map _ (slice_columns (h * hd) hd q)).
  assert (shape2 (length q) (length k) (map softmax scores)) as Hsm.
  { subst scores. unfold slice_columns. split.
    - now rewrite !length_map.
    - rewrite <- list_fmap_compose, <- list_fmap_compose.
      apply Forall_map, Forall_forall.
      intros row _. simpl. unfold softmax. now rewrite !length_map. }
  step (dropout2_spec (attn_dropout a) training _ _ _ Hsm) weights w1 Hw.
  eexists _, w1. split; [reflexivity|]. destruct Hw as [Hlen _]. split.
  - now rewrite length_map.
  - apply Forall_map, Forall_forall. intros wi _. simpl.
    now rewrite length_map, length_seq.
Qed.

Lemma merge_heads_shape L hd (heads : list (matrix F)) :
  Forall (shape2 L hd) heads ->
  shape2 L (length heads * hd) (merge_heads L heads).
Proof.
  unfold merge_heads. induction 1 as [|o heads [Hlen Hrows] _ [IHl IHr]]; simpl.
  - split; [apply length_replicate|].
    apply Forall_forall. intros row Hin.
    apply elem_of_replicate in Hin as [-> _]. reflexivity.
  - split.
    + rewrite length_zip_with. lia.
    + apply Forall_forall. intros row Hin.
      apply elem_of_zip_with in Hin as (ra & rb & -> & Hina & Hinb).
      rewrite Forall_forall in Hrows, IHr.
      rewrite length_app, (Hrows ra Hina), (IHr rb Hinb). reflexivity.
Qed.

(** A projection of the packed input weights maps rows of [E] entries to
    rows; only the success matters for the output shape. *)
Lemma in_projection_spec (W : matrix F) (b : vec F) E r (m : matrix F) :
  0 <= E -> shape2 r (Z.to_nat E) m ->
  forall w, exists y w', mapM (linear_row W b E) m w = Ok y w' /\
    length y = r.
Proof.
  intros HE [Hlen Hrows] w.
  destruct (mapM_spec (fun _ _ => True) (linear_row W b E) m) with (w := w)
    as (y & w' & Hrun & Hall).
  - eapply Forall_impl; [exact Hrows|]. intros x Hx w0. simpl in Hx.
    destruct (linear_row_spec W b E x) with (w := w0) as (y & w0' & Hy & _);
      [lia|]. eauto.
  - exists y, w'. split; [exact Hrun|].
    rewrite <- Hlen. symmetry. eapply Forall2_length, Hall.
Qed.

Lemma attention_one_spec E (a : MultiheadAttention F) training L1 L2
    (query key value : matrix F) :
  wf_MultiheadAttention E a ->
  shape2 L1 (Z.to_nat E) query -> shape2 L2 (Z.to_nat E) key ->
  shape2 L2 (Z.to_nat E) value ->
  forall w, exists o w',
    attention_one a training (query, (key, value)) w = Ok o w' /\
    shape2 L1 (Z.to_nat E) o.
Proof.
  intros (HE & HE0 & Hnh & Hhd & HW & Hb & Hout) Hq Hk Hv w.
  unfold attention_one.
  assert ((length key =? length value)%nat = true) as ->
    by (apply Nat.eqb_eq; destruct Hk, Hv; congruence).
  cbn [negb]. rewrite HE.
  step (in_projection_spec (take (Z.to_nat E) (in_proj_weight a))
          (take (Z.to_nat E) (in_proj_bias a)) E L1 query
          ltac:(lia) Hq) q w1 Hql.
  step (in_projection_spec (take (Z.to_nat E) (drop (Z.to_nat E) (in_proj_weight a)))
          (take (Z.to_nat E) (drop (Z.to_nat E) (in_proj_bias a))) E L2 key
          ltac:(lia) Hk) k w2 Hkl.
  step (in_projection_spec (drop (2 * Z.to_nat E) (in_proj_weight a))
          (drop (2 * Z.to_nat E) (in_proj_bias a)) E L2 value
          ltac:(lia) Hv) v w3 Hvl.
  destruct (mapM_spec
    (fun _ o => shape2 L1 (Z.to_nat (head_dim a)) o)
    (attention_head a training q k v) (seq 0 (Z.to_nat (num_heads a))))
    with (w := w3) as (heads & w4 & Hheads & Hall).
  { apply Forall_forall. intros h _ w0.
    destruct (attention_head_spec a training q k v h w0) as (o & w0' & Ho & Hs).
    exists o, w0'. split; [exact Ho | now rewrite Hql in Hs]. }
  rewrite (bind_Ok_intro _ _ _ _ _ Hheads).
  pose proof (Forall2_length _ _ _ Hall) as Hnheads.
  rewrite length_seq in Hnheads.
  apply Forall2_Forall_right in Hall.
  pose proof (merge_heads_shape _ _ _ Hall) as Hmerged.
  assert (length heads * Z.to_nat (head_dim a) = Z.to_nat E)%nat as Hwidth.
  { rewrite <- Hnheads, <- Hhd. rewrite Z2Nat.inj_mul; nia. }
  rewrite Hwidth in Hmerged. destruct Hq as [Hql' _]. rewrite Hql'.
  apply (linear_forward_spec E E _ _ _ Hout Hmerged).
Qed.

Lemma shape3_zip3 lq lk c (q k v : tensor3 F) :
  length lq = length lk ->
  shape3 lq c q -> shape3 lk c k -> shape3 lk c v ->
  Forall2 (fun L qkv => exists L2,
      shape2 L c qkv.1 /\ shape2 L2 c qkv.2.1 /\ shape2 L2 c qkv.2.2)
    lq (zip q (zip k v)).
Proof.
  unfold shape3. intros Hlen Hq. revert lk k v Hlen.
  induction Hq as [|L mq lq q Hmq _ IH]; intros lk k v Hlen Hk Hv.
  - constructor.
  - destruct lk as [|L2 lk]; [discriminate|].
    apply Forall2_cons_inv_l in Hk as (mk & k' & Hmk & Hk' & ->).
    apply Forall2_cons_inv_l in Hv as (mv & v' & Hmv & Hv' & ->).
    simpl. constructor; [exists L2; auto|].
    apply (IH lk); auto.
Qed.

Lemma attention_forward_spec E (a : MultiheadAttention F) training lq lk
    (query key value : tensor3 F) :
  wf_MultiheadAttention E a -> length lq = length lk ->
  shape3 lq (Z.to_nat E) query -> shape3 lk (Z.to_nat E) key ->
  shape3 lk (Z.to_nat E) value ->
  forall w, exists o w',
    attention_forward a training query key value w = Ok o w' /\
    shape3 lq (Z.to_nat E) o.
Proof.
  intros Ha Hlen Hq Hk Hv w. unfold attention_forward.
  assert ((length query =? length key)%nat && (length key =? length value)%nat
          = true) as ->.
  { apply andb_true_iff. split; apply Nat.eqb_eq;
      rewrite ?(shape3_lengths _ _ _ Hq), ?(shape3_lengths _ _ _ Hk),
              ?(shape3_lengths _ _ _ Hv); congruence. }
  pose proof (shape3_zip3 lq lk _ query key value Hlen Hq Hk Hv) as Hzip.
  clear Hq Hk Hv Hlen. revert w. unfold shape3.
  induction Hzip as [|L [mq [mk mv]] lq qkvs (L2 & Hmq & Hmk & Hmv) _ IH];
    simpl; intros w.
  - exists [], w. split; [reflexivity | constructor].
  - simpl in Hmq, Hmk, Hmv.
    destruct (attention_one_spec E a training L L2 mq mk mv Ha Hmq Hmk Hmv w)
      as (o & w1 & Ho & Hso).
    destruct (IH w1) as (os & w2 & Hos & Hsos).
    rewrite (bind_Ok_intro _ _ _ _ _ Ho), (bind_Ok_intro _ _ _ _ _ Hos).
    exists (o :: os), w2. split; [reflexivity | constructor; assumption].
Qed.

(** *** CrossAttentionModel.forward *)

Lemma CrossAttentionModel_forward_spec V D (m : CrossAttentionModel F)
    (x : list (list Z)) :
  wf_CrossAttentionModel V D m -> valid_tokens V x ->
  forall w, exists logits w',
    CrossAttentionModel_forward m x w = Ok logits w' /\
    shape2 (length x) (Z.to_nat V) logits.
Proof.
  intros (Hemb & HV & HD & Hattn & _ & Hl1 & Hl2 & Hfc & Hln) Hx w.
  unfold CrossAttentionModel_forward. cbv zeta. rewrite <- HV in Hx.
  step (embedding_forward_spec (cross_embedding m) x Hemb Hx) e0 w1 He0.
  step (dropout3_spec (cross_dropout m) (cross_training m) _ _ e0 He0)
       e1 w2 He1.
  rewrite HD in *.
  step (attention_forward_spec D (cross_attention m) (cross_training m)
          _ _ e1 e1 e1 Hattn eq_refl He1 He1 He1) att w3 Hatt.
  step (add3_spec _ _ _ _ Hatt He1) res w4 Hres.
  step (layer_norm_forward_spec D _ _ _ Hln Hres) nrm w5 Hnrm.
  pose proof (mean_dim1_shape (Z.to_nat D) nrm) as Hpool.
  rewrite (shape3_lengths _ _ _ Hnrm), length_map in Hpool.
  step (linear_forward_spec _ _ _ _ _ Hl1 Hpool) h1 w6 Hh1.
  step (dropout2_spec (cross_dropout m) (cross_training m) _ _ _
          (relu_shape _ _ _ Hh1)) h2 w7 Hh2.
  step (linear_forward_spec _ _ _ _ _ Hl2 Hh2) h3 w8 Hh3.
  step (dropout2_spec (cross_dropout m) (cross_training m) _ _ _
          (relu_shape _ _ _ Hh3)) h4 w9 Hh4.
  apply (linear_forward_spec _ _ _ _ _ Hfc Hh4).
Qed.

(** *** The similarity computations *)

Lemma cosine_row_spec d (a b : vec F) :
  length a = d -> length b = d ->
  forall w, exists s w', cosine_row a b w = Ok s w'.
Proof.
  intros Ha Hb w. unfold cosine_row.
  assert ((length a =? length b)%nat = true) as ->
    by (apply Nat.eqb_eq; congruence).
  unfold ret. eauto.
Qed.

Lemma cosine_rows_spec {A} (f : A -> M F) (l : list A) :
  Forall (fun x => forall w, exists s w', f x w = Ok s w') l ->
  forall w, exists r w', mapM f l w = Ok r w' /\ length r = length l.
Proof.
  intros Hall w.
  destruct (mapM_spec (fun _ _ => True) f l) with (w := w)
    as (r & w' & Hrun & HR).
  - eapply Forall_impl; [exact Hall|]. intros x Hx w0.
    destruct (Hx w0) as (s & w0' & Hs). eauto.
  - exists r, w'. split; [exact Hrun|]. symmetry. eapply Forall2_length, HR.
Qed.

Lemma cosine_similarity_spec B d (a b : matrix F) :
  shape2 B d a -> shape2 B d b ->
  forall w, exists r w', cosine_similarity a b w = Ok r w' /\ length r = B.
Proof.
  intros [Hla Hra] [Hlb Hrb] w. unfold cosine_similarity.
  destruct a as [|ra [|ra' a']].
  - destruct b as [|rb b]; [|simpl in *; congruence].
    simpl. exists [], w. split; [reflexivity | exact Hla].
  - apply Forall_cons in Hra as [Hra _].
    destruct (cosine_rows_spec (cosine_row ra) b) with (w := w)
      as (r & w' & Hrun & Hlen).
    + eapply Forall_impl; [exact Hrb|]. intros rb Hb.
      now apply (cosine_row_spec d).
    + exists r, w'. split; [exact Hrun | congruence].
  - destruct b as [|rb [|rb' b']]; simpl in Hla, Hlb; try congruence.
    assert ((length (ra :: ra' :: a') =? length (rb :: rb' :: b'))%nat = true)
      as -> by (apply Nat.eqb_eq; simpl; congruence).
    destruct (cosine_rows_spec (fun '(x, y) => cosine_row x y)
      (zip (ra :: ra' :: a') (rb :: rb' :: b'))) with (w := w)
      as (r & w' & Hrun & Hlen).
    + apply Forall_forall. intros [x y] Hin.
      pose proof (elem_of_zip_l _ _ _ _ Hin) as Hx.
      pose proof (elem_of_zip_r _ _ _ _ Hin) as Hy.
      rewrite Forall_forall in Hra, Hrb.
      apply (cosine_row_spec d); auto.
    + exists r, w'. split; [exact Hrun|].
      rewrite Hlen, length_zip_with. simpl. lia.
Qed.

Lemma BaseEmbeddingModel_get_similarity_spec V D (m : BaseEmbeddingModel F)
    (x1 x2 : list (list Z)) :
  wf_BaseEmbeddingModel V D m -> valid_tokens V x1 -> valid_tokens V x2 ->
  length x1 = length x2 ->
  forall w, exists scores w',
    BaseEmbeddingModel_get_similarity m x1 x2 w = Ok scores w' /\
    length scores = length x1.
Proof.
  intros (Hemb & HV & HD & _) Hx1 Hx2 Hlen w.
  unfold BaseEmbeddingModel_get_similarity. cbv zeta.
  rewrite <- HV in Hx1, Hx2.
  step (embedding_forward_spec (base_embedding m) x1 Hemb Hx1) e1 w1 He1.
  step (embedding_forward_spec (base_embedding m) x2 Hemb Hx2) e2 w2 He2.
  pose proof (mean_dim1_shape (Z.to_nat (embedding_dim (base_embedding m))) e1)
    as Hp1.
  pose proof (mean_dim1_shape (Z.to_nat (embedding_dim (base_embedding m))) e2)
    as Hp2.
  rewrite (shape3_lengths _ _ _ He1), length_map in Hp1.
  rewrite (shape3_lengths _ _ _ He2), length_map, <- Hlen in Hp2.
  apply (cosine_similarity_spec _ _ _ _ Hp1 Hp2).
Qed.

(** The cross-attention similarity has one score per position of each
    sequence of [x1]. *)
Lemma CrossAttentionModel_get_similarity_spec V D
    (m : CrossAttentionModel F) (x1 x2 : list (list Z)) :
  wf_CrossAttentionModel V D m -> valid_tokens V x1 -> valid_tokens V x2 ->
  length x1 = length x2 ->
  forall w, exists scores w',
    CrossAttentionModel_get_similarity m x1 x2 w = Ok scores w' /\
    map length scores = map length x1.
Proof.
  intros (Hemb & HV & HD & Hattn & _) Hx1 Hx2 Hlen w.
  unfold CrossAttentionModel_get_similarity. cbv zeta.
  rewrite <- HV in Hx1, Hx2.
  step (embedding_forward_spec (cross_embedding m) x1 Hemb Hx1) e1 w1 He1.
  step (embedding_forward_spec (cross_embedding m) x2 Hemb Hx2) e2 w2 He2.
  rewrite HD in *.
  assert (length (map length x1) = length (map length x2)) as Hlen'
    by (rewrite !length_map; exact Hlen).
  step (attention_forward_spec D (cross_attention m) (cross_training m)
          _ _ e1 e2 e2 Hattn Hlen' He1 He2 He2) att w3 Hatt.
  step (mul3_spec _ _ _ _ Hatt He1) pr w4 Hprod.
  eexists _, w4. split; [reflexivity|].
  unfold sum_last. rewrite <- !list_fmap_compose.
  unfold shape3 in Hprod. clear -Hprod.
  induction Hprod as [|L p ls pr [Hp _] _ IH]; simpl in *.
  - reflexivity.
  - rewrite !length_map. f_equal; [exact Hp | exact IH].
Qed.

(** *** The constructors establish the invariants *)

Lemma sample_total (f : N -> F) w :
  exists x w', (torch_raw ≫= λ r, ret (f r)) w = Ok x w'.
Proof.
  destruct (torch_raw_total w) as (r & w1 & Hr).
  rewrite (bind_Ok_intro _ _ _ _ _ Hr). unfold ret. eauto.
Qed.

Lemma init_vec_Ok n (f : N -> F) w v w' :
  init_vec n f w = Ok v w' -> 0 <= n /\ length v = Z.to_nat n.
Proof.
  unfold init_vec, raise. destruct (n <? 0) eqn:Hn; [discriminate|].
  apply Z.ltb_ge in Hn. intros Hrun.
  apply (repeatM_Ok (fun _ => True)) in Hrun as [Hlen _]; auto.
Qed.

Lemma init_vec_total n (f : N -> F) w :
  0 <= n -> exists v w', init_vec n f w = Ok v w'.
Proof.
  intros Hn. unfold init_vec.
  assert ((n <? 0) = false) as -> by (apply Z.ltb_ge; lia).
  apply repeatM_total. apply sample_total.
Qed.

Lemma init_matrix_Ok rows cols (f : N -> F) w m w' :
  init_matrix rows cols f w = Ok m w' ->
  0 <= rows /\ 0 <= cols /\ shape2 (Z.to_nat rows) (Z.to_nat cols) m.
Proof.
  unfold init_matrix, raise.
  destruct ((rows <? 0) || (cols <? 0)) eqn:Hneg; [discriminate|].
  apply orb_false_iff in Hneg as [Hr Hc].
  apply Z.ltb_ge in Hr, Hc. intros Hrun.
  apply (repeatM_Ok (fun row => length row = Z.to_nat cols)) in Hrun
    as [Hlen Hrows].
  - repeat split; assumption.
  - intros w0 row w0' Hrow.
    apply (repeatM_Ok (fun _ => True)) in Hrow as [Hl _]; auto.
Qed.

Lemma init_matrix_total rows cols (f : N -> F) w :
  0 <= rows -> 0 <= cols -> exists m w', init_matrix rows cols f w = Ok m w'.
Proof.
  intros Hr Hc. unfold init_matrix.
  assert ((rows <? 0) || (cols <? 0) = false) as ->
    by (apply orb_false_iff; split; apply Z.ltb_ge; lia).
  apply repeatM_total. intros w0. apply repeatM_total. apply sample_total.
Qed.

Lemma Embedding_init_Ok num dim w (e : Embedding F) w' :
  Embedding_init num dim w = Ok e w' ->
  wf_Embedding e /\ num_embeddings e = num /\ embedding_dim e = dim.
Proof.
  unfold Embedding_init. intros Hrun.
  apply bind_Ok in Hrun as (W & w1 & HW & Hrun).
  apply ret_Ok in Hrun as [<- _].
  apply init_matrix_Ok in HW as (Hn & Hd & Hs).
  unfold wf_Embedding. simpl. auto.
Qed.

Lemma Embedding_init_total num dim w :
  0 <= num -> 0 <= dim ->
  exists (e : Embedding F) w', Embedding_init num dim w = Ok e w'.
Proof.
  intros Hn Hd. unfold Embedding_init.
  destruct (init_matrix_total num dim normal_of_raw w Hn Hd) as (W & w1 & HW).
  rewrite (bind_Ok_intro _ _ _ _ _ HW). unfold ret. eauto.
Qed.

Lemma Linear_init_Ok fan_in fan_out w (l : Linear F) w' :
  Linear_init fan_in fan_out w = Ok l w' -> wf_Linear fan_in fan_out l.
Proof.
  unfold Linear_init. cbv zeta. intros Hrun.
  apply bind_Ok in Hrun as (W & w1 & HW & Hrun).
  apply bind_Ok in Hrun as (b & w2 & Hb & Hrun).
  apply ret_Ok in Hrun as [<- _].
  apply init_matrix_Ok in HW as (Ho & Hi & Hs).
  apply init_vec_Ok in Hb as [_ Hb].
  unfold wf_Linear. simpl. auto 10.
Qed.

Lemma Linear_init_total fan_in fan_out w :
  0 <= fan_in -> 0 <= fan_out ->
  exists (l : Linear F) w', Linear_init fan_in fan_out w = Ok l w'.
Proof.
  intros Hi Ho. unfold Linear_init. cbv zeta.
  destruct (init_matrix_total fan_out fan_in
    (uniform_sym (if fan_in =? 0 then fzero
                  else fdiv (of_int 1) (fsqrt (of_int fan_in)))) w Ho Hi)
    as (W & w1 & HW).
  rewrite (bind_Ok_intro _ _ _ _ _ HW).
  destruct (init_vec_total fan_out
    (uniform_sym (if fan_in =? 0 then fzero
                  else fdiv (of_int 1) (fsqrt (of_int fan_in)))) w1 Ho)
    as (b & w2 & Hb).
  rewrite (bind_Ok_intro _ _ _ _ _ Hb). unfold ret. eauto.
Qed.

Lemma LayerNorm_init_Ok dim w (ln : LayerNorm F) w' :
  LayerNorm_init dim w = Ok ln w' -> wf_LayerNorm dim ln.
Proof.
  unfold LayerNorm_init, raise. destruct (dim <? 0) eqn:Hd; [discriminate|].
  apply Z.ltb_ge in Hd. intros Hrun. apply ret_Ok in Hrun as [<- _].
  unfold wf_LayerNorm. simpl. rewrite !length_replicate. auto.
Qed.

Lemma LayerNorm_init_total dim w :
  0 <= dim -> exists (ln : LayerNorm F) w', LayerNorm_init dim w = Ok ln w'.
Proof.
  intros Hd. unfold LayerNorm_init.
  assert ((dim <? 0) = false) as -> by (apply Z.ltb_ge; lia).
  unfold ret. eauto.
Qed.

Lemma MultiheadAttention_init_Ok E heads p w (a : MultiheadAttention F) w' :
  MultiheadAttention_init E heads p w = Ok a w' ->
  wf_MultiheadAttention E a /\ num_heads a = heads /\ E mod heads = 0.
Proof.
  unfold MultiheadAttention_init, raise.
  destruct ((E <=? 0) || (heads <=? 0)) eqn:Hpos; [discriminate|].
  apply orb_false_iff in Hpos as [HE Hh]. apply Z.leb_gt in HE, Hh.
  destruct (E / heads * heads =? E) eqn:Hdiv; [|discriminate].
  apply Z.eqb_eq in Hdiv. cbn [negb]. cbv zeta. intros Hrun.
  apply bind_Ok in Hrun as (out & w1 & Hout & Hrun).
  apply bind_Ok in Hrun as (W & w2 & HW & Hrun).
  apply ret_Ok in Hrun as [<- _].
  apply Linear_init_Ok in Hout as (Hi & Ho & Hi0 & Ho0 & Hs & _).
  apply init_matrix_Ok in HW as (_ & _ & HWs).
  split; [|split; [reflexivity|]].
  - unfold wf_MultiheadAttention, wf_Linear. simpl.
    rewrite !length_replicate. auto 15.
  - rewrite Z.mod_eq by lia. lia.
Qed.

Lemma MultiheadAttention_init_total E heads p w :
  0 < E -> 0 < heads -> E mod heads = 0 ->
  exists (a : MultiheadAttention F) w',
    MultiheadAttention_init E heads p w = Ok a w'.
Proof.
  intros HE Hh Hmod. unfold MultiheadAttention_init.
  assert ((E <=? 0) || (heads <=? 0) = false) as ->
    by (apply orb_false_iff; split; apply Z.leb_gt; lia).
  assert ((E / heads * heads =? E) = true) as ->.
  { apply Z.eqb_eq. rewrite Z.mod_eq in Hmod by lia. lia. }
  cbn [negb]. cbv zeta.
  destruct (Linear_init_total E E w) as (out & w1 & Hout); try lia.
  rewrite (bind_Ok_intro _ _ _ _ _ Hout).
  destruct (init_matrix_total (3 * E) E
    (uniform_sym (fsqrt (fdiv (of_int 6) (of_int (E + 3 * E))))) w1)
    as (W & w2 & HW); try lia.
  rewrite (bind_Ok_intro _ _ _ _ _ HW). unfold ret. eauto.
Qed.

Lemma BaseEmbeddingModel_init_Ok V D w (m : BaseEmbeddingModel F) w' :
  BaseEmbeddingModel_init V D w = Ok m w' -> wf_BaseEmbeddingModel V D m.
Proof.
  unfold BaseEmbeddingModel_init. intros Hrun.
  apply bind_Ok in Hrun as (emb & w1 & Hemb & Hrun).
  apply bind_Ok in Hrun as (l1 & w2 & Hl1 & Hrun).
  apply bind_Ok in Hrun as (l2 & w3 & Hl2 & Hrun).
  apply bind_Ok in Hrun as (fc & w4 & Hfc & Hrun).
  apply ret_Ok in Hrun as [<- _].
  apply Embedding_init_Ok in Hemb as (He & Hn & Hd).
  apply Linear_init_Ok in Hl1, Hl2, Hfc.
  unfold wf_BaseEmbeddingModel. simpl. auto 10.
Qed.

Lemma BaseEmbeddingModel_init_total V D w :
  0 <= V -> 0 <= D ->
  exists (m : BaseEmbeddingModel F) w', BaseEmbeddingModel_init V D w = Ok m w'.
Proof.
  intros HV HD. unfold BaseEmbeddingModel_init.
  destruct (Embedding_init_total V D w HV HD) as (emb & w1 & Hemb).
  rewrite (bind_Ok_intro _ _ _ _ _ Hemb).
  destruct (Linear_init_total D (D * 2) w1) as (l1 & w2 & Hl1); try lia.
  rewrite (bind_Ok_intro _ _ _ _ _ Hl1).
  destruct (Linear_init_total (D * 2) D w2) as (l2 & w3 & Hl2); try lia.
  rewrite (bind_Ok_intro _ _ _ _ _ Hl2).
  destruct (Linear_init_total D V w3) as (fc & w4 & Hfc); try lia.
  rewrite (bind_Ok_intro _ _ _ _ _ Hfc). unfold ret. eauto.
Qed.

Lemma CrossAttentionModel_init_Ok V D w (m : CrossAttentionModel F) w' :
  CrossAttentionModel_init V D w = Ok m w' ->
  wf_CrossAttentionModel V D m /\ 0 < D /\ D mod 4 = 0.
Proof.
  unfold CrossAttentionModel_init. intros Hrun.
  apply bind_Ok in Hrun as (emb & w1 & Hemb & Hrun).
  apply bind_Ok in Hrun as (attn & w2 & Hattn & Hrun).
  apply bind_Ok in Hrun as (l1 & w3 & Hl1 & Hrun).
  apply bind_Ok in Hrun as (l2 & w4 & Hl2 & Hrun).
  apply bind_Ok in Hrun as (fc & w5 & Hfc & Hrun).
  apply bind_Ok in Hrun as (ln & w6 & Hln & Hrun).
  apply ret_Ok in Hrun as [<- _].
  apply Embedding_init_Ok in Hemb as (He & Hn & Hd).
  apply MultiheadAttention_init_Ok in Hattn as (Ha & Hh & Hmod).
  apply Linear_init_Ok in Hl1, Hl2, Hfc.
  apply LayerNorm_init_Ok in Hln.
  split; [|split; [destruct Ha as (_ & HE & _); exact HE | exact Hmod]].
  unfold wf_CrossAttentionModel. simpl. auto 15.
Qed.

Lemma CrossAttentionModel_init_total V D w :
  0 <= V -> 0 < D -> D mod 4 = 0 ->
  exists (m : CrossAttentionModel F) w',
    CrossAttentionModel_init V D w = Ok m w'.
Proof.
  intros HV HD Hmod. unfold CrossAttentionModel_init.
  destruct (Embedding_init_total V D w) as (emb & w1 & Hemb); try lia.
  rewrite (bind_Ok_intro _ _ _ _ _ Hemb).
  destruct (MultiheadAttention_init_total D 4 (1 # 10) w1)
    as (attn & w2 & Hattn); try lia.
  rewrite (bind_Ok_intro _ _ _ _ _ Hattn).
  destruct (Linear_init_total D (D * 2) w2) as (l1 & w3 & Hl1); try lia.
  rewrite (bind_Ok_intro _ _ _ _ _ Hl1).
  destruct (Linear_init_total (D * 2) D w3) as (l2 & w4 & Hl2); try lia.
  rewrite (bind_Ok_intro _ _ _ _ _ Hl2).
  destruct (Linear_init_total D V w4) as (fc & w5 & Hfc); try lia.
  rewrite (bind_Ok_intro _ _ _ _ _ Hfc).
  destruct (LayerNorm_init_total D w5) as (ln & w6 & Hln); try lia.
  rewrite (bind_Ok_intro _ _ _ _ _ Hln). unfold ret. eauto.
Qed.

(** Whatever the dimensions, a dimension that four does not divide is
    refused by the attention layer. *)
Lemma CrossAttentionModel_init_indivisible V D w :
  D mod 4 <> 0 ->
  returns (CrossAttentionModel_init (F := F) V D w) = None.
Proof.
  intros Hmod.
  destruct (CrossAttentionModel_init V D w) as [e|m w'] eqn:Hrun;
    [reflexivity|].
  apply CrossAttentionModel_init_Ok in Hrun as (_ & _ & Hdiv). contradiction.
Qed.

End LayerShapes.

(** ** The harness *)

Section HarnessProperties.
Context {F : Type} `{Scalar F}.

Lemma print_spec line np tr ck out :
  print line (World np tr ck out) = Ok tt (World np tr ck (out ++ [line])).
Proof. reflexivity. Qed.

Lemma training_time_spec (results : @value F) model t w :
  has_training_time results model t ->
  training_time results model w = Ok (format_fixed 2 t) w.
Proof.
  intros (d & r & -> & Hr & Ht). unfold training_time, getitem.
  rewrite Hr. unfold mbind, M_bind, bind, ret. rewrite Ht. reflexivity.
Qed.

Lemma final_metric_spec (results : @value F) model metric x w :
  has_final_metric results model metric x ->
  final_metric results model metric w = Ok (format_fixed 4 x) w.
Proof.
  intros (d & r & ms & l & -> & Hr & Hms & Hl & Hlast).
  unfold final_metric, getitem, getlast.
  rewrite Hr. unfold mbind, M_bind, bind, ret.
  rewrite Hms, Hl, Hlast. reflexivity.
Qed.

(** Run the next [print], or the next lookup with its hypothesis. *)
Ltac print_step :=
  match goal with
  | |- (print ?l ≫= ?k) (World ?np ?tr ?ck ?out) = _ =>
      rewrite (bind_Ok_intro (print l) k _ tt _ (print_spec l np tr ck out))
  end.

Ltac lookup_step Hyp :=
  match goal with
  | |- (training_time ?r ?m ≫= ?k) ?w = _ =>
      rewrite (bind_Ok_intro _ k w _ _ (training_time_spec r m _ w Hyp))
  | |- (final_metric ?r ?m ?metric ≫= ?k) ?w = _ =>
      rewrite (bind_Ok_intro _ k w _ _ (final_metric_spec r m metric _ w Hyp))
  end.

(** A successful [run_comparison], step by step. *)
Lemma run_comparison_Ok
    (train_and_measure : @model F -> DataLoader -> DataLoader -> Z -> M (@value F))
    V D N w res w' :
  run_comparison train_and_measure V D N w = Ok res w' ->
  exists data labels train_data test_data bm cm w1 w2 w3 w4
         base_results cross_results,
    generate_data V N w = Ok (data, labels) w1 /\
    train_test_split data labels w1 = Ok (train_data, test_data) w1 /\
    BaseEmbeddingModel_init V D w1 = Ok bm w2 /\
    CrossAttentionModel_init V D w2 = Ok cm w3 /\
    train_and_measure (BaseModel bm) train_data test_data 20 w3
      = Ok base_results w4 /\
    train_and_measure (CrossModel cm) train_data test_data 20 w4
      = Ok cross_results w' /\
    res = VDict {[ "base_model" := base_results;
                   "cross_attention" := cross_results ]}.
Proof.
  unfold run_comparison. intros Hrun.
  apply bind_Ok in Hrun as ([data labels] & w1 & Hgen & Hrun).
  apply bind_Ok in Hrun as ([train test] & w1' & Hsplit & Hrun).
  pose proof (train_test_split_Ok _ _ _ _ _ _ Hsplit) as (_ & _ & _ & ->).
  apply bind_Ok in Hrun as (bm & w2 & Hbm & Hrun).
  apply bind_Ok in Hrun as (cm & w3 & Hcm & Hrun).
  apply bind_Ok in Hrun as (br & w4 & Hbr & Hrun).
  apply bind_Ok in Hrun as (cr & w5 & Hcr & Hrun).
  apply ret_Ok in Hrun as [<- <-].
  exists data, labels, train, test, bm, cm, w1, w2, w3, w4, br, cr.
  auto 10.
Qed.

(** C4. For a batch of token-ID sequences within the vocabulary, the
    forward computation of each model returns one logit vector per input
    sequence, and every logit vector has [vocab_size] entries: for every
    base model with the weight shapes of its constructor, whatever its
    embedding dimension, and for every cross-attention model with the
    weight shapes of its own. *)
Theorem C4_forward_logits (vocab_size dim : Z)
    (base : BaseEmbeddingModel F) (cross : CrossAttentionModel F)
    (x : list (list Z)) (w : world) :
  valid_tokens vocab_size x ->
  (wf_BaseEmbeddingModel vocab_size dim base ->
   exists logits w',
     BaseEmbeddingModel_forward base x w = Ok logits w' /\
     length logits = length x /\
     Forall (fun row => length row = Z.to_nat vocab_size) logits) /\
  (wf_CrossAttentionModel vocab_size dim cross ->
   exists logits w',
     CrossAttentionModel_forward cross x w = Ok logits w' /\
     length logits = length x /\
     Forall (fun row => length row = Z.to_nat vocab_size) logits).
Proof.
  intros Hx. split.
  - intros Hbase.
    destruct (BaseEmbeddingModel_forward_spec _ _ _ _ Hbase Hx w)
      as (logits & w' & Hrun & Hlen & Hrows). eauto.
  - intros Hcross.
    destruct (CrossAttentionModel_forward_spec _ _ _ _ Hcross Hx w)
      as (logits & w' & Hrun & Hlen & Hrows). eauto.
Qed.

(** C1. For two batches of as many sequences within the vocabulary,
    [BaseEmbeddingModel.get_similarity] returns one score per pair of
    sequences, and [CrossAttentionModel.get_similarity] returns for each
    pair one score per position of the sequence of [x1]: a vector, not a
    single number, for every sequence that does not have exactly one
    token. *)
Theorem C1_similarity_shapes (vocab_size dim : Z)
    (base : BaseEmbeddingModel F) (cross : CrossAttentionModel F)
    (x1 x2 : list (list Z)) (w : world) :
  wf_BaseEmbeddingModel vocab_size dim base ->
  wf_CrossAttentionModel vocab_size dim cross ->
  valid_tokens vocab_size x1 -> valid_tokens vocab_size x2 ->
  length x1 = length x2 ->
  (exists scores w',
     BaseEmbeddingModel_get_similarity base x1 x2 w = Ok scores w' /\
     length scores = length x1) /\
  (exists scores w',
     CrossAttentionModel_get_similarity cross x1 x2 w = Ok scores w' /\
     map length scores = map length x1).
Proof.
  intros Hbase Hcross Hx1 Hx2 Hlen. split.
  - apply (BaseEmbeddingModel_get_similarity_spec _ _ _ _ _
             Hbase Hx1 Hx2 Hlen w).
  - apply (CrossAttentionModel_get_similarity_spec _ _ _ _ _
             Hcross Hx1 Hx2 Hlen w).
Qed.

Variable train_and_measure :
  @model F -> DataLoader -> DataLoader -> Z -> M (@value F).

(** C5. A successful [run_comparison] has called [train_and_measure] on
    the base model with 20 epochs, then, in the world that call left, on
    the cross-attention model with 20 epochs, both on the two loaders that
    the split built, and returns a dictionary whose keys are exactly
    'base_model' and 'cross_attention', holding the two results in that
    order. *)
Theorem C5_trains_both_models (vocab_size dim dataset_size : Z)
    (w w' : world) (res : value) :
  run_comparison train_and_measure vocab_size dim dataset_size w = Ok res w' ->
  exists data labels train_data test_data bm cm w1 w2 w3 w4
         base_results cross_results d,
    generate_data vocab_size dataset_size w = Ok (data, labels) w1 /\
    train_test_split data labels w1 = Ok (train_data, test_data) w1 /\
    BaseEmbeddingModel_init vocab_size dim w1 = Ok bm w2 /\
    CrossAttentionModel_init vocab_size dim w2 = Ok cm w3 /\
    train_and_measure (BaseModel bm) train_data test_data 20 w3
      = Ok base_results w4 /\
    train_and_measure (CrossModel cm) train_data test_data 20 w4
      = Ok cross_results w' /\
    res = VDict d /\
    dom d = ({[ "base_model"; "cross_attention" ]} : gset string) /\
    d !! "base_model" = Some base_results /\
    d !! "cross_attention" = Some cross_results.
Proof.
  intros Hrun.
  apply run_comparison_Ok in Hrun
    as (data & labels & train & test & bm & cm & w1 & w2 & w3 & w4 & br & cr &
        Hgen & Hsplit & Hbm & Hcm & Hbr & Hcr & ->).
  exists data, labels, train, test, bm, cm, w1, w2, w3, w4, br, cr.
  eexists. repeat (split; [eassumption|]).
  split; [reflexivity|]. split; [|split].
  - rewrite dom_insert_L, dom_singleton_L. reflexivity.
  - apply lookup_insert_eq.
  - rewrite lookup_insert_ne by discriminate. apply lookup_singleton_eq.
Qed.

(** C9. [run_comparison] needs a vocabulary of at least four tokens and an
    embedding dimension that four divides: below four tokens
    [vocab_size // 4] is not positive (zero for a vocabulary size that is
    not negative), the token sampling of either pattern raises on the
    empty range and the generator returns nothing; with a dimension that
    four does not divide the attention layer refuses to be constructed. *)
Theorem C9_preconditions (vocab_size dim dataset_size : Z) (w : world) :
  (forall res w',
     run_comparison train_and_measure vocab_size dim dataset_size w
     = Ok res w' -> 4 <= vocab_size /\ dim mod 4 = 0) /\
  (- 2 ^ 63 <= vocab_size < 4 ->
     vocab_size / 4 <= 0 /\
     (0 <= vocab_size -> vocab_size / 4 = 0) /\
     generate_example vocab_size w
     = Err (RandintEmptyRange 0 (vocab_size / 4))) /\
  (vocab_size < 4 ->
     returns (generate_data vocab_size dataset_size w) = None) /\
  (dim mod 4 <> 0 ->
     returns (CrossAttentionModel_init (F := F) vocab_size dim w) = None) /\
  (0 <= vocab_size -> 0 < dim -> dim mod 4 <> 0 ->
     CrossAttentionModel_init (F := F) vocab_size dim w
     = Err (EmbedDimNotDivisible dim 4)).
Proof.
  split; [|split; [|split; [|split]]].
  - intros res w' Hrun.
    apply run_comparison_Ok in Hrun
      as (data & labels & train & test & bm & cm & w1 & w2 & w3 & w4 &
          br & cr & Hgen & _ & _ & Hcm & _).
    apply generate_data_shape in Hgen as (HV & _).
    apply CrossAttentionModel_init_Ok in Hcm as (_ & _ & Hmod). auto.
  - intros HV. pose proof (quarter_nonpos vocab_size ltac:(lia)) as Hq.
    split; [exact Hq|]. split; [intros; apply Z.div_small; lia|].
    unfold generate_example.
    destruct (np_random_total w) as (u & w0 & Hu).
    rewrite (bind_Ok_intro _ _ _ _ _ Hu).
    assert (- 2 ^ 63 <= vocab_size / 4).
    { apply Z.div_le_lower_bound; lia. }
    destruct (u <? 2 ^ 52)%N; apply bind_Err; apply randint_empty; lia.
  - intros HV.
    destruct (generate_data vocab_size dataset_size w) as [e|[data labels] w']
      eqn:Hgen; [reflexivity|].
    apply generate_data_shape in Hgen as (HV' & _). lia.
  - apply CrossAttentionModel_init_indivisible.
  - intros HV HD Hmod. unfold CrossAttentionModel_init.
    destruct (Embedding_init_total (F := F) vocab_size dim w) as (e & w1 & He);
      try lia.
    rewrite (bind_Ok_intro _ _ _ _ _ He). apply bind_Err.
    unfold MultiheadAttention_init.
    assert ((dim <=? 0) || (4 <=? 0) = false) as ->
      by (apply orb_false_iff; split; apply Z.leb_gt; lia).
    assert ((dim / 4 * 4 =? dim) = false) as ->; [|reflexivity].
    apply Z.eqb_neq. rewrite Z.mod_eq in Hmod by lia. lia.
Qed.

(** C7. When the results structure carries a training time and
    non-empty metric lists for both models, [print_results] succeeds and
    prints the header and, for each of the two models, its training time
    to two decimals and the last element of each of its three metric lists
    to four decimals. *)
Theorem C7_print_results (results : @value F) (configuration : string)
    (w : world) (tb b1 b2 b3 tc c1 c2 c3 : F) :
  has_training_time results "base_model" tb ->
  has_final_metric results "base_model" "train_loss" b1 ->
  has_final_metric results "base_model" "test_loss" b2 ->
  has_final_metric results "base_model" "accuracy" b3 ->
  has_training_time results "cross_attention" tc ->
  has_final_metric results "cross_attention" "train_loss" c1 ->
  has_final_metric results "cross_attention" "test_loss" c2 ->
  has_final_metric results "cross_attention" "accuracy" c3 ->
  exists w',
    print_results results configuration w = Ok tt w' /\
    stdout w' =
      stdout w
      ++ [nl +:+ "=== Results for " +:+ configuration +:+ " ==="]
      ++ model_lines "Base Model:" tb b1 b2 b3
      ++ model_lines "Cross-Attention Model:" tc c1 c2 c3.
Proof.
  intros Htb Hb1 Hb2 Hb3 Htc Hc1 Hc2 Hc3. unfold print_results.
  destruct w as [np tr ck out]. eexists. split.
  - print_step. print_step.
    lookup_step Htb. print_step. lookup_step Hb1. print_step.
    lookup_step Hb2. print_step. lookup_step Hb3. print_step.
    print_step.
    lookup_step Htc. print_step. lookup_step Hc1. print_step.
    lookup_step Hc2. print_step. lookup_step Hc3.
    apply print_spec.
  - unfold model_lines. cbn [stdout]. rewrite <- !app_assoc. reflexivity.
Qed.

End HarnessProperties.

(** ** The claims on concrete inputs *)

Lemma C4_forward_logits_witness :
  exists (base : BaseEmbeddingModel float) (cross : CrossAttentionModel float),
    returns (BaseEmbeddingModel_init 8 6 demo_world) = Some base /\
    returns (CrossAttentionModel_init 8 4 demo_world) = Some cross /\
    (exists logits w',
       BaseEmbeddingModel_forward base [[0; 1; 2]; [7; 7; 3]] demo_world
       = Ok logits w' /\
       length logits = 2%nat /\ Forall (fun row => length row = 8%nat) logits) /\
    (exists logits w',
       CrossAttentionModel_forward cross [[0; 1; 2]; [7; 7; 3]] demo_world
       = Ok logits w' /\
       length logits = 2%nat /\ Forall (fun row => length row = 8%nat) logits).
Proof.
  destruct (BaseEmbeddingModel_init (F := float) 8 6 demo_world)
    as [e|base w1] eqn:Hbase; [vm_compute in Hbase; discriminate Hbase|].
  destruct (CrossAttentionModel_init (F := float) 8 4 demo_world)
    as [e|cross w2] eqn:Hcross; [vm_compute in Hcross; discriminate Hcross|].
  exists base, cross.
  split; [reflexivity|]. split; [reflexivity|]. split.
  - apply (C4_forward_logits 8 6 base cross [[0; 1; 2]; [7; 7; 3]] demo_world).
    + repeat constructor; lia.
    + exact (BaseEmbeddingModel_init_Ok _ _ _ _ _ Hbase).
  - apply (C4_forward_logits 8 4 base cross [[0; 1; 2]; [7; 7; 3]] demo_world).
    + repeat constructor; lia.
    + exact (proj1 (CrossAttentionModel_init_Ok _ _ _ _ _ Hcross)).
Defined.

Lemma C1_similarity_shapes_witness :
  exists (base : BaseEmbeddingModel float) (cross : CrossAttentionModel float),
    (exists s w',
       BaseEmbeddingModel_get_similarity base [[0; 1; 2]] [[1; 0]] demo_world
       = Ok [s] w') /\
    (exists s0 s1 s2 w',
       CrossAttentionModel_get_similarity cross [[0; 1; 2]] [[1; 0]] demo_world
       = Ok [[s0; s1; s2]] w').
Proof.
  destruct (BaseEmbeddingModel_init (F := float) 8 4 demo_world)
    as [e|base w1] eqn:Hbase; [vm_compute in Hbase; discriminate Hbase|].
  destruct (CrossAttentionModel_init (F := float) 8 4 demo_world)
    as [e|cross w2] eqn:Hcross; [vm_compute in Hcross; discriminate Hcross|].
  exists base, cross.
  destruct (C1_similarity_shapes 8 4 base cross [[0; 1; 2]] [[1; 0]] demo_world)
    as [(sb & wb & Hb & Hlb) (sc & wc & Hc & Hlc)].
  - exact (BaseEmbeddingModel_init_Ok _ _ _ _ _ Hbase).
  - exact (proj1 (CrossAttentionModel_init_Ok _ _ _ _ _ Hcross)).
  - repeat constructor; lia.
  - repeat constructor; lia.
  - reflexivity.
  - split.
    + destruct sb as [|s [|? ?]]; try discriminate Hlb. eauto.
    + destruct sc as [|[|s0 [|s1 [|s2 [|? ?]]]] [|? ?]]; try discriminate Hlc.
      eauto 10.
Defined.

Lemma C5_trains_both_models_witness :
  exists res d,
    returns (run_comparison (F := float) train_and_measure_standin 8 4 5
               demo_world) = Some res /\
    res = VDict d /\
    dom d = ({[ "base_model"; "cross_attention" ]} : gset string).
Proof.
  destruct (run_comparison (F := float) train_and_measure_standin 8 4 5
              demo_world) as [e|res w'] eqn:Hrun;
    [vm_compute in Hrun; discriminate Hrun|].
  destruct (C5_trains_both_models train_and_measure_standin 8 4 5
              demo_world w' res Hrun)
    as (_ & _ & _ & _ & _ & _ & _ & _ & _ & _ & _ & _ & d &
        _ & _ & _ & _ & _ & _ & Hres & Hdom & _).
  exists res, d. split; [reflexivity|]. split; [exact Hres | exact Hdom].
Defined.

Lemma C9_preconditions_witness :
  (3 / 4 = 0 /\
   generate_example 3 demo_world = Err (RandintEmptyRange 0 (3 / 4))) /\
  returns (generate_data 3 5 demo_world) = None /\
  CrossAttentionModel_init (F := float) 8 6 demo_world
  = Err (EmbedDimNotDivisible 6 4) /\
  (exists res,
     returns (run_comparison (F := float) train_and_measure_standin 8 4 5
                demo_world) = Some res /\ 4 <= 8 /\ 4 mod 4 = 0).
Proof.
  destruct (C9_preconditions (F := float) train_and_measure_standin 3 6 5
              demo_world) as (_ & Hsmall & Hgen & _ & _).
  destruct (C9_preconditions (F := float) train_and_measure_standin 8 6 5
              demo_world) as (_ & _ & _ & _ & Hdim).
  destruct (C9_preconditions (F := float) train_and_measure_standin 8 4 5
              demo_world) as (Hrun & _).
  split; [|split; [|split]].
  - destruct Hsmall as (_ & Hzero & Herr); [lia|].
    split; [apply Hzero; lia | exact Herr].
  - apply Hgen. lia.
  - apply Hdim; [lia | lia | discriminate].
  - destruct (run_comparison (F := float) train_and_measure_standin 8 4 5
                demo_world) as [e|res w'] eqn:Hok;
      [vm_compute in Hok; discriminate Hok|].
    exists res. split; [reflexivity|]. exact (Hrun res w' eq_refl).
Defined.

(** Look a key up in a dictionary literal. *)
Ltac lookup_literal :=
  repeat first
    [ apply lookup_insert_eq
    | apply lookup_singleton_eq
    | rewrite lookup_insert_ne by discriminate ].

Lemma C7_print_results_witness :
  exists w',
    print_results demo_results "Improved Configuration" demo_world = Ok tt w' /\
    stdout w' =
      [nl +:+ "=== Results for Improved Configuration ===";
       nl +:+ "Base Model:";
       "Training Time: 0.51 seconds";
       "Final Training Loss: 1.7881";
       "Final Test Loss: 1.7766";
       "Final Accuracy: 0.4575";
       nl +:+ "Cross-Attention Model:";
       "Training Time: 2.33 seconds";
       "Final Training Loss: 1.5852";
       "Final Test Loss: 1.6395";
       "Final Accuracy: 0.4775"].
Proof.
  destruct (C7_print_results demo_results "Improved Configuration" demo_world
              (Binary64.of_Q (51 # 100)) (Binary64.of_Q (17881 # 10000))
              (Binary64.of_Q (17766 # 10000)) (Binary64.of_Q (4575 # 10000))
              (Binary64.of_Q (233 # 100)) (Binary64.of_Q (15852 # 10000))
              (Binary64.of_Q (16395 # 10000)) (Binary64.of_Q (4775 # 10000)))
    as (w' & Hrun & Hout);
    try (unfold has_training_time, has_final_metric, demo_results, run_results;
         eexists _, _; first [ eexists _, _ | idtac ];
         repeat (split; [first [reflexivity | solve [lookup_literal]]|]);
         first [reflexivity | solve [lookup_literal]]).
  exists w'. split; [exact Hrun|]. rewrite Hout. vm_compute. reflexivity.
Defined.

(** * Further properties of the notebook's code *)

(** ** The generator and the split at the edges *)

Lemma generate_data_empty V N w :
  N <= 0 -> generate_data V N w = Err StackEmptyList.
Proof.
  intros HN. unfold generate_data.
  replace (Z.to_nat N) with O by lia. reflexivity.
Qed.

(** X1. With [dataset_size <= 0] the loop body never runs, so nothing is
    sampled whatever the vocabulary, and [torch.stack] raises on the empty
    list of sequences: [run_comparison] fails before any model is built. *)
Theorem X1_empty_dataset_raises {F : Type} `{Scalar F}
    (train_and_measure : @model F -> DataLoader -> DataLoader -> Z -> M (@value F))
    (vocab_size dim dataset_size : Z) (w : world) :
  dataset_size <= 0 ->
  generate_data vocab_size dataset_size w = Err StackEmptyList /\
  run_comparison train_and_measure vocab_size dim dataset_size w
  = Err StackEmptyList.
Proof.
  intros HN. split; [now apply generate_data_empty|].
  unfold run_comparison. apply bind_Err. now apply generate_data_empty.
Qed.

Lemma X1_empty_dataset_raises_witness :
  generate_data 50 0 demo_world = Err StackEmptyList /\
  run_comparison (F := float) train_and_measure_standin 50 32 0 demo_world
  = Err StackEmptyList.
Proof.
  apply (X1_empty_dataset_raises train_and_measure_standin 50 32 0 demo_world).
  lia.
Defined.

(** X2. For a dataset of n < 2^50 examples: with two examples or more both
    loaders are built, the training loader holds floor(4n/5) examples and
    the test loader the other n - floor(4n/5), and neither is empty; with a
    single example the training list is empty, the constructor of the
    shuffling loader raises [ValueError], and so does [run_comparison]. *)
Theorem X2_split_sizes {F : Type} `{Scalar F}
    (train_and_measure : @model F -> DataLoader -> DataLoader -> Z -> M (@value F))
    (vocab_size dim dataset_size : Z) (w w' w0 : world)
    (data : list (list Z)) (labels : list Z) :
  generate_data vocab_size dataset_size w = Ok (data, labels) w' ->
  dataset_size < 2 ^ 50 ->
  (2 <= dataset_size ->
   exists train_data test_data,
     train_test_split data labels w0 = Ok (train_data, test_data) w0 /\
     Z.of_nat (length (dataset train_data)) = 4 * dataset_size / 5 /\
     Z.of_nat (length (dataset test_data))
     = dataset_size - 4 * dataset_size / 5 /\
     (1 <= length (dataset train_data))%nat /\
     (1 <= length (dataset test_data))%nat) /\
  (dataset_size = 1 ->
   train_test_split data labels w0 = Err ValueError /\
   run_comparison train_and_measure vocab_size dim dataset_size w
   = Err ValueError).
Proof.
  intros Hrun HN.
  pose proof (generate_data_shape _ _ _ _ _ _ Hrun) as (_ & HN1 & Hlen & Hlen' & _).
  assert (length (zip data labels) = Z.to_nat dataset_size) as Hzip
    by (rewrite length_zip_with; lia).
  assert (Z.to_nat (train_size_of (length data))
          = Z.to_nat (4 * dataset_size / 5)) as Hsize.
  { rewrite train_size_of_floor by lia.
    assert (Z.of_nat (length data) = dataset_size) as -> by lia. reflexivity. }
  set (k := 4 * dataset_size / 5) in *.
  assert (0 <= k /\ 5 * k <= 4 * dataset_size < 5 * k + 5) as Hk.
  { subst k. pose proof (Z.mod_pos_bound (4 * dataset_size) 5 ltac:(lia)).
    pose proof (Z.div_mod (4 * dataset_size) 5 ltac:(lia)). lia. }
  split.
  - intros HN2.
    destruct (train_test_split_total data labels w0)
      as (train_data & test_data & Hsplit).
    { rewrite Hsize. intros Hempty. apply (f_equal length) in Hempty.
      rewrite length_take, Hzip in Hempty. simpl in Hempty. lia. }
    exists train_data, test_data. split; [exact Hsplit|].
    apply train_test_split_Ok in Hsplit as (-> & -> & _ & _).
    rewrite Hsize, length_take, length_drop, Hzip. lia.
  - intros ->.
    assert (forall w1, train_test_split data labels w1 = Err ValueError)
      as Hraise.
    { intros w1. apply train_test_split_empty. rewrite Hsize. reflexivity. }
    split; [apply Hraise|].
    unfold run_comparison. rewrite (bind_Ok_intro _ _ _ _ _ Hrun).
    apply bind_Err. apply Hraise.
Qed.

Lemma X2_split_sizes_witness :
  (exists data labels train_data test_data,
     returns (generate_data 50 7 demo_world) = Some (data, labels) /\
     returns (train_test_split data labels demo_world)
     = Some (train_data, test_data) /\
     length (dataset train_data) = 5%nat /\
     length (dataset test_data) = 2%nat) /\
  run_comparison (F := float) train_and_measure_standin 50 32 1 demo_world
  = Err ValueError.
Proof.
  split.
  - destruct (generate_data 50 7 demo_world) as [e|[data labels] w'] eqn:Hrun.
    + vm_compute in Hrun. discriminate Hrun.
    + destruct (X2_split_sizes (F := float) train_and_measure_standin
                  50 32 7 demo_world w' demo_world data labels Hrun)
        as [Hbuilt _]; [lia|].
      destruct (Hbuilt ltac:(lia))
        as (train_data & test_data & Hsplit & Htrain & Htest & _).
      exists data, labels, train_data, test_data.
      split; [reflexivity|]. split; [rewrite Hsplit; reflexivity|].
      change (4 * 7 / 5) with 5 in *. lia.
  - destruct (generate_data 50 1 demo_world) as [e|[data labels] w'] eqn:Hrun.
    + vm_compute in Hrun. discriminate Hrun.
    + destruct (X2_split_sizes (F := float) train_and_measure_standin
                  50 32 1 demo_world w' demo_world data labels Hrun)
        as [_ Hone]; [lia|].
      exact (proj2 (Hone eq_refl)).
Defined.

(** ** What the two patterns produce *)

Lemma pattern2_unwrapped V base n :
  4 <= V -> 0 <= base < V / 4 -> -2 <= n <= 2 ->
  (base + n) mod V = wrap_token V base n.
Proof.
  intros HV Hbase Hn. unfold wrap_token.
  assert (4 * (V / 4) <= V) by (apply Z.mul_div_le; lia).
  destruct (base + n <? 0) eqn:Hneg.
  - apply Z.ltb_lt in Hneg.
    rewrite <- (Z.mod_add _ 1) by lia. rewrite Z.mod_small; lia.
  - apply Z.ltb_ge in Hneg. apply Z.mod_small. lia.
Qed.

(** X3. On a pattern-2 iteration with a vocabulary size that fits int64
    the label is [base_token + 3] itself (the modulo never wraps it), while
    the modulo on the sequence does act: a token is [base_token + n] for a
    noise n in [-2, 2], lifted by [vocab_size] exactly when that sum is
    negative. *)
Theorem X3_pattern2_label_and_wrap (vocab_size : Z) (w w' : world)
    (seq : list Z) (lab : label_tensor) :
  vocab_size <= 2 ^ 63 - 1 ->
  generate_example vocab_size w = Ok (seq, lab) w' ->
  ~ takes_pattern1 w ->
  exists base,
    0 <= base < vocab_size / 4 /\
    base + 3 < vocab_size /\
    lab = Rank1 [base + 3] /\
    Forall (fun t => exists n, -2 <= n <= 2 /\
                       t = wrap_token vocab_size base n) seq.
Proof.
  intros Hfit Hrun Hp2.
  apply (generate_example_Ok _ _ _ _ _ Hfit) in Hrun
    as ([HV HV'] & _ & [[Hp1 _]|(_ & l & -> & base & Hbase & Hall & ->)]);
    [contradiction|].
  destruct (quarter_bounds vocab_size HV HV') as [_ Hq].
  exists base. split; [exact Hbase|]. split; [lia|]. split.
  - rewrite Z.mod_small by lia. reflexivity.
  - eapply Forall_impl; [exact Hall|]. intros t (n & Hn & ->).
    exists n. split; [exact Hn|]. now apply pattern2_unwrapped.
Qed.

Lemma X3_pattern2_label_and_wrap_witness :
  exists seq lab base,
    returns (generate_example 100 world_base6) = Some (seq, lab) /\
    lab = Rank1 [base + 3] /\
    Forall (fun t => exists n, -2 <= n <= 2 /\ t = wrap_token 100 base n) seq.
Proof.
  destruct (generate_example 100 world_base6) as [e|[seq lab] w'] eqn:Hrun.
  - vm_compute in Hrun. discriminate Hrun.
  - destruct (X3_pattern2_label_and_wrap 100 world_base6 w' seq lab
                ltac:(lia) Hrun)
      as (base & _ & _ & Hlab & Hseq).
    + unfold takes_pattern1. vm_compute. discriminate.
    + exists seq, lab, base. split; [reflexivity|]. split; assumption.
Defined.

(** X4. In every dataset generated with a vocabulary size that fits int64
    a token is below [vocab_size // 4 + 2] or among the two highest IDs (the
    wrapped pattern-2 tokens), and, for a vocabulary of at least eight
    tokens, no label exceeds half the vocabulary size: the upper classes
    never occur as labels. *)
Theorem X4_token_and_label_bounds (vocab_size dataset_size : Z) (w w' : world)
    (data : list (list Z)) (labels : list Z) :
  vocab_size <= 2 ^ 63 - 1 ->
  generate_data vocab_size dataset_size w = Ok (data, labels) w' ->
  Forall (Forall (fun t =>
    0 <= t < vocab_size / 4 + 2 \/ vocab_size - 2 <= t < vocab_size)) data /\
  (8 <= vocab_size -> Forall (fun label => 2 * label <= vocab_size) labels).
Proof.
  intros Hfit Hrun.
  apply (generate_data_Ok _ _ _ _ _ _ Hfit) in Hrun
    as ([HV HV'] & _ & _ & _ & Hall).
  destruct (quarter_bounds vocab_size HV HV') as [Hq0 Hq].
  split.
  - induction Hall as [|seq label data labels [_ Hp] _ IH];
      constructor; [|exact IH].
    destruct Hp as [(Htok & _)|(base & Hbase & Htok & _)].
    + eapply Forall_impl; [exact Htok|]. intros t Ht. simpl in Ht. lia.
    + eapply Forall_impl; [exact Htok|]. intros t (n & Hn & ->).
      rewrite pattern2_unwrapped by lia. unfold wrap_token.
      destruct (base + n <? 0) eqn:Hneg;
        [apply Z.ltb_lt in Hneg | apply Z.ltb_ge in Hneg]; lia.
  - intros HV8.
    assert (2 <= vocab_size / 4) as Hq2 by (apply Z.div_le_lower_bound; lia).
    induction Hall as [|seq label data labels [_ Hp] _ IH];
      constructor; [|exact IH].
    destruct Hp as [(Htok & a & b & Ha & Hb & ->)|(base & Hbase & _ & ->)].
    + assert (0 <= a < vocab_size / 4) as Hxa
        by (eapply (proj1 (Forall_lookup _ _)) in Htok; eauto).
      assert (0 <= b < vocab_size / 4) as Hxb.
      { rewrite last_lookup in Hb.
        eapply (proj1 (Forall_lookup _ _)) in Htok; eauto. }
      rewrite Z.mod_small by lia. lia.
    + rewrite Z.mod_small by lia. lia.
Qed.

Lemma X4_token_and_label_bounds_witness :
  exists data labels,
    returns (generate_data 50 7 demo_world) = Some (data, labels) /\
    Forall (Forall (fun t => 0 <= t < 50 / 4 + 2 \/ 50 - 2 <= t < 50)) data /\
    Forall (fun label => 2 * label <= 50) labels.
Proof.
  destruct (generate_data 50 7 demo_world) as [e|[data labels] w'] eqn:Hrun.
  - vm_compute in Hrun. discriminate Hrun.
  - exists data, labels. split; [reflexivity|].
    destruct (X4_token_and_label_bounds 50 7 demo_world w' data labels
                ltac:(lia) Hrun)
      as [Htok Hlab].
    split; [exact Htok | apply Hlab; lia].
Defined.

(** ** A vocabulary size beyond int64 *)

Lemma rem_returns m :
  - 2 ^ 63 <= m < 2 ^ 64 -> wrap64 m <> 0 ->
  (forall x w, scalar_rem x m w = Ok (x mod wrap64 m) w) /\
  (forall t w, tensor_rem t m w = Ok (map (fun x => x mod wrap64 m) t) w).
Proof.
  intros Hm Hne.
  assert (forall w, int64_of_scalar m w = Ok (wrap64 m) w) as Hconv.
  { intros w. unfold int64_of_scalar, int64_min.
    assert ((- 2 ^ 63 <=? m) && (m <? 2 ^ 64) = true) as ->; [|reflexivity].
    apply andb_true_iff. split; [apply Z.leb_le | apply Z.ltb_lt]; lia. }
  unfold scalar_rem, tensor_rem.
  split; intros ? w; rewrite (bind_Ok_intro _ _ _ _ _ (Hconv w));
    (assert ((wrap64 m =? 0) = false) as -> by (apply Z.eqb_neq; exact Hne));
    reflexivity.
Qed.

(** The loop body returns for every vocabulary size from four up to
    2^64 - 1. *)
Lemma generate_example_returns V w :
  4 <= V -> V < 2 ^ 64 ->
  exists seq lab w', generate_example V w = Ok (seq, lab) w'.
Proof.
  intros HV HV'.
  assert (0 < V / 4) as Hq by (apply Z.div_str_pos; lia).
  assert (V / 4 < 2 ^ 62) as Hq' by (apply Z.div_lt_upper_bound; lia).
  assert (wrap64 V <> 0) as Hne.
  { destruct (Z_le_gt_dec V (2 ^ 63 - 1)).
    - rewrite wrap64_id; lia.
    - rewrite wrap64_unsigned; lia. }
  destruct (rem_returns V ltac:(lia) Hne) as [Hsrem Htrem].
  unfold generate_example.
  destruct (np_random_total w) as (u & w0 & Hu).
  rewrite (bind_Ok_intro _ _ _ _ _ Hu).
  destruct (u <? 2 ^ 52)%N.
  - destruct (randint_total 0 (V / 4) 10 w0) as (s & w1 & Hs); try lia.
    rewrite (bind_Ok_intro _ _ _ _ _ Hs).
    apply randint_Ok in Hs as (_ & _ & _ & Hlen & _).
    destruct (tensor_get_total s 0 ltac:(lia) w1) as [a Ha].
    destruct (tensor_get_total s (-1) ltac:(lia) w1) as [b Hb].
    rewrite (bind_Ok_intro _ _ _ _ _ Ha), (bind_Ok_intro _ _ _ _ _ Hb).
    rewrite (bind_Ok_intro _ _ _ _ _ (Hsrem _ _)). unfold ret. eauto.
  - destruct (randint_total 0 (V / 4) 1 w0) as (bt & w1 & Hbt); try lia.
    rewrite (bind_Ok_intro _ _ _ _ _ Hbt).
    apply randint_Ok in Hbt as (_ & _ & _ & Hlen & _).
    destruct bt as [|base [|? ?]]; simpl in Hlen; try discriminate.
    destruct (randint_total (-2) 3 10 w1) as (noise & w2 & Hn); try lia.
    rewrite (bind_Ok_intro _ _ _ _ _ Hn).
    unfold tensor_add.
    unfold mbind at 1, M_bind, bind, ret at 1.
    rewrite (bind_Ok_intro _ _ _ _ _ (Htrem _ _)).
    rewrite (bind_Ok_intro _ _ _ _ _
               (tensor_add_scalar_fits _ 3 _ ltac:(lia))).
    rewrite (bind_Ok_intro _ _ _ _ _ (Htrem _ _)). unfold ret. eauto.
Qed.

(** X17. A vocabulary size in [2^63, 2^64) does not stop the loop body:
    the modulus of both remainders wraps to the negative int64
    [vocab_size - 2^64], so the iteration returns, but its label is zero or
    negative, above [vocab_size - 2^64], and so is every token of a
    pattern-2 sequence; no such label is a class index other than 0. *)
Theorem X17_vocab_size_beyond_int64 (vocab_size : Z) (w : world) :
  2 ^ 63 <= vocab_size < 2 ^ 64 ->
  (exists seq lab w', generate_example vocab_size w = Ok (seq, lab) w') /\
  (forall seq lab w',
     generate_example vocab_size w = Ok (seq, lab) w' ->
     (exists label,
        label_item lab = Some label /\ vocab_size - 2 ^ 64 < label <= 0) /\
     (takes_pattern1 w -> Forall (fun t => 0 <= t < vocab_size / 4) seq) /\
     (~ takes_pattern1 w ->
      Forall (fun t => vocab_size - 2 ^ 64 < t <= 0) seq)).
Proof.
  intros HV. split; [apply generate_example_returns; lia|].
  intros seq lab w' Hrun.
  assert (forall x, vocab_size - 2 ^ 64 < x mod (vocab_size - 2 ^ 64) <= 0)
    as Hmod by (intros x; apply Z.mod_neg_bound; lia).
  apply generate_example_inv in Hrun
    as (_ & _ &
        [(Hp & Hall & a & b & _ & _ & ->)|(Hp & base & _ & Hall & ->)]);
    rewrite wrap64_unsigned in * by lia.
  - split; [eexists; split; [reflexivity | apply Hmod]|].
    split; [intros _; exact Hall | intros Hn; contradiction].
  - split; [eexists; split; [reflexivity | apply Hmod]|].
    split; [intros Hp1; contradiction|]. intros _.
    eapply Forall_impl; [exact Hall|]. intros t (n & _ & ->). apply Hmod.
Qed.

Lemma X17_vocab_size_beyond_int64_witness :
  (exists seq lab w', generate_example (2 ^ 63) demo_world = Ok (seq, lab) w') /\
  (forall seq lab w',
     generate_example (2 ^ 63) demo_world = Ok (seq, lab) w' ->
     exists label, label_item lab = Some label /\ - 2 ^ 63 < label <= 0).
Proof.
  destruct (X17_vocab_size_beyond_int64 (2 ^ 63) demo_world ltac:(lia))
    as [Hreturns Hlabel].
  split; [exact Hreturns|].
  intros seq lab w' Hrun. destruct (Hlabel seq lab w' Hrun) as [Hl _].
  exact Hl.
Defined.

(** ** Token IDs outside the vocabulary *)

Lemma mapM_Err {A B} (P : error -> Prop) (f : A -> M B) :
  (forall x w e, f x w = Err e -> P e) ->
  forall l w e, mapM f l w = Err e -> P e.
Proof.
  intros Hf. induction l as [|x l IH]; simpl; intros w e Hrun.
  - discriminate Hrun.
  - unfold mbind, M_bind, bind in Hrun.
    destruct (f x w) as [e1|y w1] eqn:Hx.
    + injection Hrun as <-. eauto.
    + destruct (mapM f l w1) as [e2|ys w2] eqn:Hl.
      * injection Hrun as <-. eauto.
      * discriminate Hrun.
Qed.

Lemma Forall2_Forall_left {A B} (P : A -> Prop) (l : list A) (k : list B) :
  Forall2 (fun x _ => P x) l k -> Forall P l.
Proof. induction 1; constructor; assumption. Qed.

Section TokenErrors.
Context {F : Type} `{Scalar F}.

Lemma embedding_row_Ok (e : Embedding F) token w row w' :
  embedding_row e token w = Ok row w' -> 0 <= token < num_embeddings e.
Proof.
  unfold embedding_row, raise.
  destruct ((token <? 0) || (num_embeddings e <=? token)) eqn:Hout;
    [discriminate|].
  apply orb_false_iff in Hout as [H1 H2].
  apply Z.ltb_ge in H1. apply Z.leb_gt in H2. lia.
Qed.

Lemma embedding_row_Err (e : Embedding F) token w err :
  embedding_row e token w = Err err -> err = IndexError.
Proof.
  unfold embedding_row, raise, ret.
  destruct ((token <? 0) || (num_embeddings e <=? token)).
  - now intros [= <-].
  - destruct (emb_weight e !! Z.to_nat token); [discriminate | now intros [= <-]].
Qed.

Lemma embedding_forward_Err (e : Embedding F) x w err :
  embedding_forward e x w = Err err -> err = IndexError.
Proof.
  unfold embedding_forward.
  apply (mapM_Err (fun e0 => e0 = IndexError)). intros xs w0 e0.
  apply (mapM_Err (fun e1 => e1 = IndexError)). intros tok w1 e1.
  apply embedding_row_Err.
Qed.

Lemma embedding_forward_Ok (e : Embedding F) x w t w' :
  embedding_forward e x w = Ok t w' -> valid_tokens (num_embeddings e) x.
Proof.
  unfold embedding_forward. intros Hrun.
  apply (mapM_Ok (fun xs _ =>
           Forall (fun tok => 0 <= tok < num_embeddings e) xs)) in Hrun.
  - now apply Forall2_Forall_left in Hrun.
  - intros xs w0 m w0' Hxs.
    apply (mapM_Ok (fun tok _ => 0 <= tok < num_embeddings e)) in Hxs.
    + now apply Forall2_Forall_left in Hxs.
    + intros tok w1 row w1'. apply embedding_row_Ok.
Qed.

Lemma embedding_forward_invalid (e : Embedding F) x w :
  ~ valid_tokens (num_embeddings e) x ->
  embedding_forward e x w = Err IndexError.
Proof.
  intros Hbad. destruct (embedding_forward e x w) as [err|t w'] eqn:Hrun.
  - now rewrite (embedding_forward_Err _ _ _ _ Hrun).
  - apply embedding_forward_Ok in Hrun. contradiction.
Qed.

(** Two lookups in a row raise [IndexError] as soon as one batch holds a
    token outside the table. *)
Lemma embedding_pair_invalid {B} (e : Embedding F) x1 x2 w
    (k : tensor3 F -> tensor3 F -> M B) :
  ~ valid_tokens (num_embeddings e) x1 \/ ~ valid_tokens (num_embeddings e) x2 ->
  (embedding_forward e x1 ≫= λ e1, embedding_forward e x2 ≫= λ e2, k e1 e2) w
  = Err IndexError.
Proof.
  intros Hbad. destruct (embedding_forward e x1 w) as [err|t1 w1] eqn:H1.
  - rewrite (embedding_forward_Err _ _ _ _ H1) in H1. now apply bind_Err.
  - rewrite (bind_Ok_intro _ _ _ _ _ H1). apply bind_Err.
    destruct Hbad as [Hbad|Hbad].
    + apply embedding_forward_Ok in H1. contradiction.
    + now apply embedding_forward_invalid.
Qed.

(** X5. A token ID outside [0, vocab_size) makes the forward computation of
    either model raise [IndexError], and so does either similarity
    computation when the offending token is in [x1] or in [x2]. *)
Theorem X5_invalid_token_raises (vocab_size : Z)
    (base : BaseEmbeddingModel F) (cross : CrossAttentionModel F)
    (x1 x2 : list (list Z)) (w : world) :
  num_embeddings (base_embedding base) = vocab_size ->
  num_embeddings (cross_embedding cross) = vocab_size ->
  (~ valid_tokens vocab_size x1 ->
     BaseEmbeddingModel_forward base x1 w = Err IndexError /\
     CrossAttentionModel_forward cross x1 w = Err IndexError) /\
  (~ valid_tokens vocab_size x1 \/ ~ valid_tokens vocab_size x2 ->
     BaseEmbeddingModel_get_similarity base x1 x2 w = Err IndexError /\
     CrossAttentionModel_get_similarity cross x1 x2 w = Err IndexError).
Proof.
  intros Hb Hc. split.
  - intros Hbad. split.
    + unfold BaseEmbeddingModel_forward. cbv zeta. apply bind_Err.
      apply embedding_forward_invalid. now rewrite Hb.
    + unfold CrossAttentionModel_forward. cbv zeta. apply bind_Err.
      apply embedding_forward_invalid. now rewrite Hc.
  - intros Hbad. split.
    + unfold BaseEmbeddingModel_get_similarity. cbv zeta.
      apply embedding_pair_invalid. now rewrite Hb.
    + unfold CrossAttentionModel_get_similarity.
      apply embedding_pair_invalid. now rewrite Hc.
Qed.

End TokenErrors.

Lemma X5_invalid_token_raises_witness :
  exists (base : BaseEmbeddingModel float) (cross : CrossAttentionModel float),
    BaseEmbeddingModel_forward base [[0; 8; 2]] demo_world = Err IndexError /\
    CrossAttentionModel_forward cross [[0; 8; 2]] demo_world = Err IndexError /\
    BaseEmbeddingModel_get_similarity base [[0; 1]] [[-1]] demo_world
    = Err IndexError /\
    CrossAttentionModel_get_similarity cross [[0; 1]] [[-1]] demo_world
    = Err IndexError.
Proof.
  destruct (BaseEmbeddingModel_init (F := float) 8 4 demo_world)
    as [e|base w1] eqn:Hbase; [vm_compute in Hbase; discriminate Hbase|].
  destruct (CrossAttentionModel_init (F := float) 8 4 demo_world)
    as [e|cross w2] eqn:Hcross; [vm_compute in Hcross; discriminate Hcross|].
  exists base, cross.
  pose proof (BaseEmbeddingModel_init_Ok _ _ _ _ _ Hbase) as (_ & Hb & _).
  pose proof (CrossAttentionModel_init_Ok _ _ _ _ _ Hcross)
    as ((_ & Hc & _) & _).
  destruct (X5_invalid_token_raises 8 base cross [[0; 8; 2]] [] demo_world Hb Hc)
    as [Hfwd _].
  destruct (X5_invalid_token_raises 8 base cross [[0; 1]] [[-1]] demo_world Hb Hc)
    as [_ Hsim].
  destruct Hfwd as [H1 H2].
  { intros Hv. apply Forall_cons in Hv as [Hv _].
    apply Forall_cons in Hv as [_ Hv]. apply Forall_cons in Hv as [Hv _]. lia. }
  destruct Hsim as [H3 H4].
  { right. intros Hv. apply Forall_cons in Hv as [Hv _].
    apply Forall_cons in Hv as [Hv _]. lia. }
  auto.
Defined.

(** ** Evaluation mode and the random generators *)

Lemma oblivious_ret {A} (a : A) : oblivious (ret a).
Proof. left. exists a. reflexivity. Qed.

Lemma oblivious_raise {A} (e : error) : oblivious (raise (A := A) e).
Proof. right. exists e. reflexivity. Qed.

Lemma oblivious_bind {A B} (c : M A) (k : A -> M B) :
  oblivious c -> (forall a, oblivious (k a)) -> oblivious (c ≫= k).
Proof.
  intros [[a Ha]|[e He]] Hk.
  - destruct (Hk a) as [[b Hb]|[e He]].
    + left. exists b. intros w. rewrite (bind_Ok_intro _ _ _ _ _ (Ha w)). apply Hb.
    + right. exists e. intros w. rewrite (bind_Ok_intro _ _ _ _ _ (Ha w)). apply He.
  - right. exists e. intros w. apply bind_Err, He.
Qed.

Lemma oblivious_mapM {A B} (f : A -> M B) (l : list A) :
  (forall x, oblivious (f x)) -> oblivious (mapM f l).
Proof.
  intros Hf. induction l as [|x l IH]; simpl.
  - apply oblivious_ret.
  - apply oblivious_bind; [apply Hf|]. intros y.
    apply oblivious_bind; [exact IH|]. intros ys. apply oblivious_ret.
Qed.

(** Decompose a computation built from [ret], [raise], binds, [mapM] and
    case distinctions on data. *)
Ltac oblivious_step :=
  first
    [ apply oblivious_ret
    | apply oblivious_raise
    | apply oblivious_bind; [|intros ?]
    | apply oblivious_mapM; intros ?
    | match goal with
      | |- oblivious (if ?b then _ else _) => destruct b
      | |- oblivious (match ?x with _ => _ end) => destruct x
      end ].

Section EvalMode.
Context {F : Type} `{Scalar F}.

Lemma embedding_forward_oblivious (e : Embedding F) x :
  oblivious (embedding_forward e x).
Proof.
  unfold embedding_forward. do 2 oblivious_step.
  unfold embedding_row. repeat oblivious_step.
Qed.

Lemma dropout2_eval_oblivious p (m : matrix F) : oblivious (dropout2 p false m).
Proof. unfold dropout2, dropout_entry. repeat oblivious_step. Qed.

Lemma dropout3_eval_oblivious p (t : tensor3 F) : oblivious (dropout3 p false t).
Proof.
  unfold dropout3. oblivious_step. apply dropout2_eval_oblivious.
Qed.

Lemma linear_row_oblivious (W : matrix F) b fan_in x :
  oblivious (linear_row W b fan_in x).
Proof. unfold linear_row. repeat oblivious_step. Qed.

Lemma linear_forward_oblivious (l : Linear F) m :
  oblivious (linear_forward l m).
Proof. unfold linear_forward. oblivious_step. apply linear_row_oblivious. Qed.

Lemma layer_norm_forward_oblivious (ln : LayerNorm F) t :
  oblivious (layer_norm_forward ln t).
Proof.
  unfold layer_norm_forward, layer_norm_row. repeat oblivious_step.
Qed.

Lemma add3_oblivious (a b : tensor3 F) : oblivious (add3 a b).
Proof. unfold add3. repeat oblivious_step. Qed.



Lemma attention_forward_eval_oblivious (a : MultiheadAttention F)
    (q k v : tensor3 F) :
  oblivious (attention_forward a false q k v).
Proof.
  unfold attention_forward. oblivious_step; [|apply oblivious_raise].
  oblivious_step. unfold attention_one.
  match goal with |- oblivious (let '(_, _) := ?p in _) =>
    destruct p as [mq [mk mv]] end.
  oblivious_step; [apply oblivious_raise|].
  oblivious_step; [oblivious_step; apply linear_row_oblivious|].
  oblivious_step; [oblivious_step; apply linear_row_oblivious|].
  oblivious_step; [oblivious_step; apply linear_row_oblivious|].
  oblivious_step.
  - oblivious_step. unfold attention_head. cbv zeta.
    oblivious_step; [apply dropout2_eval_oblivious | apply oblivious_ret].
  - apply linear_forward_oblivious.
Qed.

Lemma BaseEmbeddingModel_forward_eval (m : BaseEmbeddingModel F) x :
  base_training m = false -> oblivious (BaseEmbeddingModel_forward m x).
Proof.
  intros Hmode. unfold BaseEmbeddingModel_forward. cbv zeta. rewrite Hmode.
  oblivious_step; [apply embedding_forward_oblivious|].
  oblivious_step; [apply dropout3_eval_oblivious|].
  oblivious_step; [apply linear_forward_oblivious|].
  oblivious_step; [apply dropout2_eval_oblivious|].
  oblivious_step; [apply linear_forward_oblivious|].
  oblivious_step; [apply dropout2_eval_oblivious|].
  apply linear_forward_oblivious.
Qed.

Lemma CrossAttentionModel_forward_eval (m : CrossAttentionModel F) x :
  cross_training m = false -> oblivious (CrossAttentionModel_forward m x).
Proof.
  intros Hmode. unfold CrossAttentionModel_forward. cbv zeta. rewrite Hmode.
  oblivious_step; [apply embedding_forward_oblivious|].
  oblivious_step; [apply dropout3_eval_oblivious|].
  oblivious_step; [apply attention_forward_eval_oblivious|].
  oblivious_step; [apply add3_oblivious|].
  oblivious_step; [apply layer_norm_forward_oblivious|].
  oblivious_step; [apply linear_forward_oblivious|].
  oblivious_step; [apply dropout2_eval_oblivious|].
  oblivious_step; [apply linear_forward_oblivious|].
  oblivious_step; [apply dropout2_eval_oblivious|].
  apply linear_forward_oblivious.
Qed.

(** X6. After [model.eval()] the forward computation of either model
    neither reads nor advances a random generator: on a given batch it
    returns the same logits, or raises the same error, in every world, and
    leaves the world as it was. *)
Theorem X6_eval_forward_deterministic
    (base : BaseEmbeddingModel F) (cross : CrossAttentionModel F)
    (x : list (list Z)) :
  oblivious (BaseEmbeddingModel_forward (BaseEmbeddingModel_eval base) x) /\
  oblivious (CrossAttentionModel_forward (CrossAttentionModel_eval cross) x).
Proof.
  split.
  - now apply BaseEmbeddingModel_forward_eval.
  - now apply CrossAttentionModel_forward_eval.
Qed.



End EvalMode.


(** ** Batch sizes in the similarity computations *)

Section SimilarityBatches.
Context {F : Type} `{Scalar F}.

Lemma cosine_similarity_broadcast B1 B2 d (a b : matrix F) :
  shape2 B1 d a -> shape2 B2 d b ->
  (B1 = 1%nat ->
     forall w, exists r w', cosine_similarity a b w = Ok r w' /\ length r = B2) /\
  (B2 = 1%nat ->
     forall w, exists r w', cosine_similarity a b w = Ok r w' /\ length r = B1) /\
  (B1 <> 1%nat -> B2 <> 1%nat -> B1 <> B2 ->
     forall w, cosine_similarity a b w = Err BroadcastMismatch).
Proof.
  intros [Hla Hra] [Hlb Hrb]. split; [|split].
  - intros -> w. destruct a as [|ra [|? ?]]; try discriminate.
    apply Forall_cons in Hra as [Hra _]. simpl.
    destruct (cosine_rows_spec (cosine_row ra) b) with (w := w)
      as (r & w' & Hrun & Hlen).
    + eapply Forall_impl; [exact Hrb|]. intros rb Hb.
      now apply (cosine_row_spec d).
    + exists r, w'. split; [exact Hrun | congruence].
  - intros -> w. destruct b as [|rb [|? ?]]; try discriminate.
    apply Forall_cons in Hrb as [Hrb _].
    assert (forall w0, exists r w', mapM (fun ra => cosine_row ra rb) a w0 = Ok r w'
              /\ length r = B1) as Hrows.
    { intros w0.
      destruct (cosine_rows_spec (fun ra => cosine_row ra rb) a) with (w := w0)
        as (r & w' & Hrun & Hlen).
      - eapply Forall_impl; [exact Hra|]. intros ra Ha.
        now apply (cosine_row_spec d).
      - exists r, w'. split; [exact Hrun | congruence]. }
    destruct a as [|ra [|ra' a']]; simpl; apply Hrows.
  - intros H1 H2 Hne w. unfold cosine_similarity.
    assert ((length a =? length b)%nat = false) as Hlen
      by (apply Nat.eqb_neq; congruence).
    destruct a as [|ra [|ra' a']]; destruct b as [|rb [|rb' b']];
      simpl in *; try congruence; try reflexivity;
      try (rewrite Hlen; reflexivity).
Qed.

(** X8. [BaseEmbeddingModel.get_similarity] broadcasts a batch of one
    sequence against a batch of any size, giving one score per sequence of
    the larger batch; two batches of different sizes, neither of size one,
    raise. *)
Theorem X8_base_similarity_broadcast (vocab_size dim : Z)
    (base : BaseEmbeddingModel F) (x1 x2 : list (list Z)) (w : world) :
  wf_BaseEmbeddingModel vocab_size dim base ->
  valid_tokens vocab_size x1 -> valid_tokens vocab_size x2 ->
  (length x1 = 1%nat ->
     exists scores w',
       BaseEmbeddingModel_get_similarity base x1 x2 w = Ok scores w' /\
       length scores = length x2) /\
  (length x2 = 1%nat ->
     exists scores w',
       BaseEmbeddingModel_get_similarity base x1 x2 w = Ok scores w' /\
       length scores = length x1) /\
  (length x1 <> 1%nat -> length x2 <> 1%nat -> length x1 <> length x2 ->
     BaseEmbeddingModel_get_similarity base x1 x2 w = Err BroadcastMismatch).
Proof.
  intros (Hemb & HV & HD & _) Hx1 Hx2.
  rewrite <- HV in Hx1, Hx2.
  destruct (embedding_forward_spec (base_embedding base) x1 Hemb Hx1 w)
    as (e1 & w1 & He1 & Hs1).
  destruct (embedding_forward_spec (base_embedding base) x2 Hemb Hx2 w1)
    as (e2 & w2 & He2 & Hs2).
  pose proof (mean_dim1_shape (Z.to_nat (embedding_dim (base_embedding base))) e1)
    as Hp1.
  pose proof (mean_dim1_shape (Z.to_nat (embedding_dim (base_embedding base))) e2)
    as Hp2.
  rewrite (shape3_lengths _ _ _ Hs1), length_map in Hp1.
  rewrite (shape3_lengths _ _ _ Hs2), length_map in Hp2.
  destruct (cosine_similarity_broadcast _ _ _ _ _ Hp1 Hp2) as (Hl & Hr & Hbad).
  unfold BaseEmbeddingModel_get_similarity. cbv zeta.
  rewrite (bind_Ok_intro _ _ _ _ _ He1), (bind_Ok_intro _ _ _ _ _ He2).
  split; [|split].
  - intros Hone. apply (Hl Hone).
  - intros Hone. apply (Hr Hone).
  - intros H1 H2 Hne. apply (Hbad H1 H2 Hne).
Qed.

(** X9. [CrossAttentionModel.get_similarity] does not broadcast: its
    attention layer takes queries and keys of one batch size, so two batches
    of different sizes raise (the keys being non-empty sequences), also when
    one of them holds a single sequence. *)
Theorem X9_cross_similarity_batch_mismatch (vocab_size dim : Z)
    (cross : CrossAttentionModel F) (x1 x2 : list (list Z)) (w : world) :
  wf_CrossAttentionModel vocab_size dim cross ->
  valid_tokens vocab_size x1 -> valid_tokens vocab_size x2 ->
  x2 <> [] -> Forall (fun s => s <> []) x2 ->
  length x1 <> length x2 ->
  CrossAttentionModel_get_similarity cross x1 x2 w = Err ShapeMismatch.
Proof.
  intros (Hemb & HV & HD & _) Hx1 Hx2 _ _ Hne.
  rewrite <- HV in Hx1, Hx2.
  destruct (embedding_forward_spec (cross_embedding cross) x1 Hemb Hx1 w)
    as (e1 & w1 & He1 & Hs1).
  destruct (embedding_forward_spec (cross_embedding cross) x2 Hemb Hx2 w1)
    as (e2 & w2 & He2 & Hs2).
  unfold CrossAttentionModel_get_similarity.
  rewrite (bind_Ok_intro _ _ _ _ _ He1), (bind_Ok_intro _ _ _ _ _ He2).
  apply bind_Err. unfold attention_forward.
  assert ((length e1 =? length e2)%nat = false) as ->; [|reflexivity].
  apply Nat.eqb_neq.
  rewrite (shape3_lengths _ _ _ Hs1), (shape3_lengths _ _ _ Hs2), !length_map.
  exact Hne.
Qed.

End SimilarityBatches.

Lemma X8_base_similarity_broadcast_witness :
  exists (base : BaseEmbeddingModel float),
    (exists scores w',
       BaseEmbeddingModel_get_similarity base [[0; 1; 2]] [[1; 0]; [3; 3]; [4; 4]]
         demo_world = Ok scores w' /\ length scores = 3%nat) /\
    BaseEmbeddingModel_get_similarity base [[0; 1]; [2; 3]] [[1]; [3]; [4]]
      demo_world = Err BroadcastMismatch.
Proof.
  destruct (BaseEmbeddingModel_init (F := float) 8 4 demo_world)
    as [e|base w1] eqn:Hbase; [vm_compute in Hbase; discriminate Hbase|].
  exists base.
  pose proof (BaseEmbeddingModel_init_Ok _ _ _ _ _ Hbase) as Hwf.
  split.
  - destruct (X8_base_similarity_broadcast 8 4 base [[0; 1; 2]]
                [[1; 0]; [3; 3]; [4; 4]] demo_world Hwf) as (Hone & _).
    + repeat constructor; lia.
    + repeat constructor; lia.
    + apply Hone. reflexivity.
  - destruct (X8_base_similarity_broadcast 8 4 base [[0; 1]; [2; 3]]
                [[1]; [3]; [4]] demo_world Hwf) as (_ & _ & Hbad).
    + repeat constructor; lia.
    + repeat constructor; lia.
    + apply Hbad; simpl; lia.
Defined.

Lemma X9_cross_similarity_batch_mismatch_witness :
  exists (cross : CrossAttentionModel float),
    CrossAttentionModel_get_similarity cross [[0; 1; 2]] [[1; 0]; [3; 3]]
      demo_world = Err ShapeMismatch.
Proof.
  destruct (CrossAttentionModel_init (F := float) 8 4 demo_world)
    as [e|cross w2] eqn:Hcross; [vm_compute in Hcross; discriminate Hcross|].
  exists cross.
  apply (X9_cross_similarity_batch_mismatch 8 4 cross [[0; 1; 2]]
           [[1; 0]; [3; 3]] demo_world).
  - exact (proj1 (CrossAttentionModel_init_Ok _ _ _ _ _ Hcross)).
  - repeat constructor; lia.
  - repeat constructor; lia.
  - discriminate.
  - repeat constructor; discriminate.
  - simpl. lia.
Defined.

(** ** Constructors, loaders and models together *)


Section Pipeline.
Context {F : Type} `{Scalar F}.

(** X10. [BaseEmbeddingModel(vocab_size, embedding_dim)] is constructed
    for every pair of sizes that are not negative, whatever the dimension;
    [CrossAttentionModel] exactly when, moreover, the dimension is positive
    and a multiple of the four attention heads. *)
Theorem X10_constructor_domains (vocab_size dim : Z) (w : world) :
  ((exists (m : BaseEmbeddingModel F) w',
      BaseEmbeddingModel_init vocab_size dim w = Ok m w') <->
   0 <= vocab_size /\ 0 <= dim) /\
  ((exists (m : CrossAttentionModel F) w',
      CrossAttentionModel_init vocab_size dim w = Ok m w') <->
   0 <= vocab_size /\ 0 < dim /\ dim mod 4 = 0).
Proof.
  split; split.
  - intros (m & w' & Hrun).
    apply BaseEmbeddingModel_init_Ok in Hrun
      as ((Hn & Hd & _) & HV & HD & _). lia.
  - intros [HV HD]. now apply BaseEmbeddingModel_init_total.
  - intros (m & w' & Hrun).
    apply CrossAttentionModel_init_Ok in Hrun
      as (((Hn & _) & HV & _) & HD & Hmod). lia.
  - intros (HV & HD & Hmod). now apply CrossAttentionModel_init_total.
Qed.

(** Below 2^50 examples the generated dataset has a non-empty training
    list exactly when it has two examples or more. *)
Lemma training_list_nonempty V N w data labels w' :
  generate_data V N w = Ok (data, labels) w' -> N < 2 ^ 50 ->
  take (Z.to_nat (train_size_of (length data))) (zip data labels) <> []
  <-> 2 <= N.
Proof.
  intros Hgen HN.
  apply generate_data_shape in Hgen as (_ & HN1 & Hlen & Hlen' & _).
  assert (length (zip data labels) = Z.to_nat N) as Hzip
    by (rewrite length_zip_with; lia).
  rewrite train_size_of_floor by lia.
  assert (Z.of_nat (length data) = N) as -> by lia.
  split.
  - intros Hne. destruct (Z.eq_dec N 1) as [->|]; [|lia].
    now contradiction Hne.
  - intros HN2 Hempty.
    assert (1 <= 4 * N / 5) by (apply Z.div_le_lower_bound; lia).
    assert (4 * N / 5 <= N) by (apply Z.div_le_upper_bound; lia).
    apply (f_equal length) in Hempty.
    rewrite length_take, Hzip in Hempty. simpl in Hempty. lia.
Qed.


Variable train_and_measure :
  @model F -> DataLoader -> DataLoader -> Z -> M (@value F).

(** With parameters in its domain [run_comparison] returns whenever
    [train_and_measure] does. *)
Lemma run_comparison_total (vocab_size dim dataset_size : Z) (w : world) :
  (forall m train test w0,
     exists r w0', train_and_measure m train test 20 w0 = Ok r w0') ->
  4 <= vocab_size -> vocab_size <= 2 ^ 63 - 1 ->
  0 < dim -> dim mod 4 = 0 -> 2 <= dataset_size -> dataset_size < 2 ^ 50 ->
  exists bm cm train_data test_data w3 w4 br cr w',
    train_and_measure (BaseModel bm) train_data test_data 20 w3 = Ok br w4 /\
    train_and_measure (CrossModel cm) train_data test_data 20 w4 = Ok cr w' /\
    run_comparison train_and_measure vocab_size dim dataset_size w
    = Ok (VDict {[ "base_model" := br; "cross_attention" := cr ]}) w'.
Proof.
  intros Htam HV HV' HD Hmod HN HN'. unfold run_comparison.
  destruct (generate_data_total vocab_size dataset_size w HV HV' ltac:(lia))
    as (data & labels & w1 & Hgen).
  rewrite (bind_Ok_intro _ _ _ _ _ Hgen).
  destruct (train_test_split_total data labels w1) as (train & test & Hsplit).
  { apply (training_list_nonempty _ _ _ _ _ _ Hgen HN'). exact HN. }
  rewrite (bind_Ok_intro _ _ _ _ _ Hsplit).
  destruct (BaseEmbeddingModel_init_total (F := F) vocab_size dim w1)
    as (bm & w2 & Hbm); try lia.
  rewrite (bind_Ok_intro _ _ _ _ _ Hbm).
  destruct (CrossAttentionModel_init_total (F := F) vocab_size dim w2)
    as (cm & w3 & Hcm); try lia.
  rewrite (bind_Ok_intro _ _ _ _ _ Hcm).
  destruct (Htam (BaseModel bm) train test w3) as (br & w4 & Hbr).
  destruct (Htam (CrossModel cm) train test w4) as (cr & w5 & Hcr).
  exists bm, cm, train, test, w3, w4, br, cr, w5.
  rewrite (bind_Ok_intro _ _ _ _ _ Hbr), (bind_Ok_intro _ _ _ _ _ Hcr).
  auto.
Qed.

(** X12. Provided [train_and_measure] itself returns, and for sizes that
    torch can hold at all (a vocabulary size that fits int64, fewer than
    2^50 examples; memory is not modelled), [run_comparison] returns
    exactly for a vocabulary of at least four tokens, a positive embedding
    dimension that four divides, and at least two examples. *)
Theorem X12_run_comparison_domain (vocab_size dim dataset_size : Z) (w : world) :
  (forall m train test w0,
     exists r w0', train_and_measure m train test 20 w0 = Ok r w0') ->
  vocab_size <= 2 ^ 63 - 1 -> dataset_size < 2 ^ 50 ->
  (exists res w',
     run_comparison train_and_measure vocab_size dim dataset_size w = Ok res w')
  <->
  4 <= vocab_size /\ (0 < dim /\ dim mod 4 = 0) /\ 2 <= dataset_size.
Proof.
  intros Htam HV' HN'. split.
  - intros (res & w' & Hrun).
    apply run_comparison_Ok in Hrun
      as (data & labels & train & test & bm & cm & w1 & w2 & w3 & w4 &
          br & cr & Hgen & Hsplit & _ & Hcm & _).
    apply train_test_split_Ok in Hsplit as (_ & _ & Hne & _).
    apply (training_list_nonempty _ _ _ _ _ _ Hgen HN') in Hne.
    apply generate_data_shape in Hgen as (HV & _).
    apply CrossAttentionModel_init_Ok in Hcm as (_ & HD & Hmod). auto.
  - intros (HV & [HD Hmod] & HN).
    destruct (run_comparison_total vocab_size dim dataset_size w
                Htam HV HV' HD Hmod HN HN')
      as (bm & cm & train & test & w3 & w4 & br & cr & w' & _ & _ & Hrun).
    eauto.
Qed.

End Pipeline.

Lemma train_and_measure_standin_total (m : @model float) train test epochs w :
  exists r w', train_and_measure_standin m train test epochs w = Ok r w'.
Proof. unfold train_and_measure_standin. eexists _, _. reflexivity. Qed.


Lemma X12_run_comparison_domain_witness :
  exists res w',
    run_comparison (F := float) train_and_measure_standin 50 32 2000 demo_world
    = Ok res w'.
Proof.
  apply (X12_run_comparison_domain train_and_measure_standin 50 32 2000
           demo_world).
  - intros m train test w0. apply train_and_measure_standin_total.
  - lia.
  - lia.
  - repeat split; lia.
Defined.

(** ** [print_results] and the cells *)

(** Run the next [print] of a sequence of binds. *)
Ltac run_print :=
  match goal with
  | |- (print ?l ≫= ?k) (World ?np ?tr ?ck ?out) = _ =>
      rewrite (bind_Ok_intro (print l) k _ tt _ (print_spec l np tr ck out))
  end.

(** Run the next lookup of [print_results], given what it finds. *)
Ltac run_lookup Hyp :=
  match goal with
  | |- (training_time ?r ?m ≫= ?k) ?w = _ =>
      rewrite (bind_Ok_intro _ k w _ _ (training_time_spec r m _ w Hyp))
  | |- (final_metric ?r ?m ?metric ≫= ?k) ?w = _ =>
      rewrite (bind_Ok_intro _ k w _ _ (final_metric_spec r m metric _ w Hyp))
  end.

Section PrintResults.
Context {F : Type} `{Scalar F}.

(** [print_results] on a complete results structure. *)
Lemma print_results_complete (results : @value F) (configuration : string)
    (w : world) (tb b1 b2 b3 tc c1 c2 c3 : F) :
  has_training_time results "base_model" tb ->
  has_final_metric results "base_model" "train_loss" b1 ->
  has_final_metric results "base_model" "test_loss" b2 ->
  has_final_metric results "base_model" "accuracy" b3 ->
  has_training_time results "cross_attention" tc ->
  has_final_metric results "cross_attention" "train_loss" c1 ->
  has_final_metric results "cross_attention" "test_loss" c2 ->
  has_final_metric results "cross_attention" "accuracy" c3 ->
  print_results results configuration w
  = Ok tt (World (np_rng w) (torch_rng w) (clock w)
             (stdout w
              ++ [nl +:+ "=== Results for " +:+ configuration +:+ " ==="]
              ++ model_lines "Base Model:" tb b1 b2 b3
              ++ model_lines "Cross-Attention Model:" tc c1 c2 c3)).
Proof.
  intros Htb Hb1 Hb2 Hb3 Htc Hc1 Hc2 Hc3. unfold print_results.
  destruct w as [np tr ck out].
  run_print. run_print.
  run_lookup Htb. run_print. run_lookup Hb1. run_print.
  run_lookup Hb2. run_print. run_lookup Hb3. run_print.
  run_print.
  run_lookup Htc. run_print. run_lookup Hc1. run_print.
  run_lookup Hc2. run_print. run_lookup Hc3.
  rewrite print_spec. unfold model_lines. cbn [np_rng torch_rng clock stdout].
  rewrite <- !app_assoc. reflexivity.
Qed.

(** X13. A results structure without the entry of a model makes
    [print_results] raise [KeyError] with that model's key: at once for
    'base_model', and after the base model's lines for 'cross_attention'. *)
Theorem X13_print_results_missing_model (d : gmap string (@value F))
    (configuration : string) (w : world) (tb b1 b2 b3 : F) :
  (d !! "base_model" = None ->
     print_results (VDict d) configuration w = Err (KeyError "base_model")) /\
  (has_training_time (VDict d) "base_model" tb ->
   has_final_metric (VDict d) "base_model" "train_loss" b1 ->
   has_final_metric (VDict d) "base_model" "test_loss" b2 ->
   has_final_metric (VDict d) "base_model" "accuracy" b3 ->
   d !! "cross_attention" = None ->
     print_results (VDict d) configuration w
     = Err (KeyError "cross_attention")).
Proof.
  split.
  - intros Hnone. unfold print_results. destruct w as [np tr ck out].
    run_print. run_print. apply bind_Err.
    unfold training_time. apply bind_Err. unfold getitem. now rewrite Hnone.
  - intros Htb Hb1 Hb2 Hb3 Hnone. unfold print_results.
    destruct w as [np tr ck out].
    run_print. run_print.
    run_lookup Htb. run_print. run_lookup Hb1. run_print.
    run_lookup Hb2. run_print. run_lookup Hb3. run_print.
    run_print. apply bind_Err.
    unfold training_time. apply bind_Err. unfold getitem. now rewrite Hnone.
Qed.

(** X14. A metric list that is empty, as after training for no epoch,
    makes [print_results] raise [IndexError] at its [[-1]]. *)
Theorem X14_print_results_empty_metrics (results : @value F)
    (d r ms : gmap string (@value F)) (configuration : string) (w : world)
    (tb : F) :
  results = VDict d -> d !! "base_model" = Some (VDict r) ->
  r !! "training_time" = Some (VFloat tb) ->
  r !! "metrics" = Some (VDict ms) ->
  ms !! "train_loss" = Some (VList []) ->
  print_results results configuration w = Err IndexError.
Proof.
  intros -> Hd Ht Hms Hl. unfold print_results. destruct w as [np tr ck out].
  assert (has_training_time (VDict d) "base_model" tb) as Htb
    by (exists d, r; auto).
  run_print. run_print. run_lookup Htb. run_print. apply bind_Err.
  unfold final_metric, getitem. rewrite Hd.
  unfold mbind, M_bind, bind, ret. rewrite Hms, Hl. reflexivity.
Qed.

End PrintResults.

Lemma X13_print_results_missing_model_witness :
  print_results (F := float) (VDict ∅) "Demo" demo_world
  = Err (KeyError "base_model") /\
  print_results
    (VDict {[ "base_model" :=
                run_results (51 # 100) [17881 # 10000] [17766 # 10000]
                  [4575 # 10000] ]})
    "Demo" demo_world
  = Err (KeyError "cross_attention").
Proof.
  split.
  - apply (X13_print_results_missing_model (F := float) ∅ "Demo" demo_world
             PrimFloat.zero PrimFloat.zero PrimFloat.zero PrimFloat.zero).
    reflexivity.
  - apply (X13_print_results_missing_model _ "Demo" demo_world
             (Binary64.of_Q (51 # 100)) (Binary64.of_Q (17881 # 10000))
             (Binary64.of_Q (17766 # 10000)) (Binary64.of_Q (4575 # 10000)));
      try (unfold has_training_time, has_final_metric, run_results;
           eexists _, _; first [ eexists _, _ | idtac ];
           repeat (split; [first [reflexivity | solve [lookup_literal]]|]);
           first [reflexivity | solve [lookup_literal]]).
    apply lookup_singleton_ne. discriminate.
Defined.

Lemma X14_print_results_empty_metrics_witness :
  print_results
    (VDict {[ "base_model" := run_results (51 # 100) [] [] [];
              "cross_attention" := run_results (233 # 100) [] [] [] ]})
    "Demo" demo_world
  = Err IndexError.
Proof.
  eapply (X14_print_results_empty_metrics (F := float) _ _ _ _ "Demo"
            demo_world); [reflexivity | | | |]; unfold run_results;
    lookup_literal.
Defined.

Section CellsRun.
Context {F : Type} `{Scalar F}.
Variable train_and_measure :
  @model F -> DataLoader -> DataLoader -> Z -> M (@value F).

(** The dictionary [run_comparison] builds from two complete results is
    one [print_results] prints in full. *)
Lemma comparison_results_values (br cr : @value F) (configuration : string)
    (w : world) (tb b1 b2 b3 tc c1 c2 c3 : F) :
  (exists d ms l1 l2 l3,
     br = VDict d /\ d !! "training_time" = Some (VFloat tb) /\
     d !! "metrics" = Some (VDict ms) /\
     ms !! "train_loss" = Some (VList l1) /\ last l1 = Some (VFloat b1) /\
     ms !! "test_loss" = Some (VList l2) /\ last l2 = Some (VFloat b2) /\
     ms !! "accuracy" = Some (VList l3) /\ last l3 = Some (VFloat b3)) ->
  (exists d ms l1 l2 l3,
     cr = VDict d /\ d !! "training_time" = Some (VFloat tc) /\
     d !! "metrics" = Some (VDict ms) /\
     ms !! "train_loss" = Some (VList l1) /\ last l1 = Some (VFloat c1) /\
     ms !! "test_loss" = Some (VList l2) /\ last l2 = Some (VFloat c2) /\
     ms !! "accuracy" = Some (VList l3) /\ last l3 = Some (VFloat c3)) ->
  print_results (VDict {[ "base_model" := br; "cross_attention" := cr ]})
    configuration w
  = Ok tt (World (np_rng w) (torch_rng w) (clock w)
             (stdout w
              ++ [nl +:+ "=== Results for " +:+ configuration +:+ " ==="]
              ++ model_lines "Base Model:" tb b1 b2 b3
              ++ model_lines "Cross-Attention Model:" tc c1 c2 c3)).
Proof.
  intros (db & msb & l1 & l2 & l3 & -> & Htb & Hmsb &
          Hl1 & Hb1 & Hl2 & Hb2 & Hl3 & Hb3)
         (dc & msc & k1 & k2 & k3 & -> & Htc & Hmsc &
          Hk1 & Hc1 & Hk2 & Hc2 & Hk3 & Hc3).
  assert (({[ "base_model" := VDict db; "cross_attention" := VDict dc ]}
             : gmap string (@value F)) !! "base_model" = Some (VDict db))
    as Hbase by apply lookup_insert_eq.
  assert (({[ "base_model" := VDict db; "cross_attention" := VDict dc ]}
             : gmap string (@value F)) !! "cross_attention" = Some (VDict dc))
    as Hcross
    by (rewrite lookup_insert_ne by discriminate; apply lookup_singleton_eq).
  apply print_results_complete.
  - eexists _, db. auto.
  - eexists _, db, msb, l1. auto 10.
  - eexists _, db, msb, l2. auto 10.
  - eexists _, db, msb, l3. auto 10.
  - eexists _, dc. auto.
  - eexists _, dc, msc, k1. auto 10.
  - eexists _, dc, msc, k2. auto 10.
  - eexists _, dc, msc, k3. auto 10.
Qed.

(** X16. Provided every call of [train_and_measure] with 20 epochs returns
    a results structure with a training time and non-empty metric lists,
    each of the notebook's three cells runs to its end in every world (the
    kernel holding [run_comparison] and [print_results], as when the cells
    were run): the
    four configurations they pass to [run_comparison] are within its domain,
    and what it returns is what [print_results] needs. The cells with one
    configuration end their output with the header and the two blocks of
    that configuration. *)
Theorem X16_cells_run (w : world) :
  (forall m train test w0,
     exists r w0',
       train_and_measure m train test 20 w0 = Ok r w0' /\ run_results_ok r) ->
  (exists res w1 w' tb b1 b2 b3 tc c1 c2 c3,
     run_comparison train_and_measure 50 32 2000 w = Ok res w1 /\
     cell_improved_configuration train_and_measure w = Ok tt w' /\
     stdout w' =
       stdout w1
       ++ [nl +:+ "=== Results for Improved Configuration ==="]
       ++ model_lines "Base Model:" tb b1 b2 b3
       ++ model_lines "Cross-Attention Model:" tc c1 c2 c3) /\
  (exists res w1 w' tb b1 b2 b3 tc c1 c2 c3,
     run_comparison train_and_measure 100 32 5000 w = Ok res w1 /\
     cell_default_configuration train_and_measure w = Ok tt w' /\
     stdout w' =
       stdout w1
       ++ [nl +:+ "=== Results for Default Configuration ==="]
       ++ model_lines "Base Model:" tb b1 b2 b3
       ++ model_lines "Cross-Attention Model:" tc c1 c2 c3) /\
  (exists w', cell_two_configurations train_and_measure w = Ok tt w').
Proof.
  intros Htam.
  assert (forall m train test w0,
            exists r w0', train_and_measure m train test 20 w0 = Ok r w0')
    as Htotal.
  { intros m train test w0. destruct (Htam m train test w0) as (r & w0' & Hr & _).
    eauto. }
  assert (forall V D N cfg w0,
            4 <= V -> V <= 2 ^ 63 - 1 -> 0 < D -> D mod 4 = 0 ->
            2 <= N -> N < 2 ^ 50 ->
            exists res w1 tb b1 b2 b3 tc c1 c2 c3,
              run_comparison train_and_measure V D N w0 = Ok res w1 /\
              forall w2,
                print_results res cfg w2
                = Ok tt (World (np_rng w2) (torch_rng w2) (clock w2)
                           (stdout w2
                            ++ [nl +:+ "=== Results for " +:+ cfg +:+ " ==="]
                            ++ model_lines "Base Model:" tb b1 b2 b3
                            ++ model_lines "Cross-Attention Model:"
                                 tc c1 c2 c3))) as Hrun.
  { intros V D N cfg w0 HV HV' HD Hmod HN HN'.
    destruct (run_comparison_total train_and_measure V D N w0
                Htotal HV HV' HD Hmod HN HN')
      as (bm & cm & train & test & w3 & w4 & br & cr & w1 & Hbr & Hcr & Hrun).
    destruct (Htam (BaseModel bm) train test w3) as (br' & w4' & Hbr' & Hokb).
    rewrite Hbr in Hbr'. injection Hbr' as <- <-.
    destruct (Htam (CrossModel cm) train test w4) as (cr' & w5' & Hcr' & Hokc).
    rewrite Hcr in Hcr'. injection Hcr' as <- <-.
    destruct Hokb as (db & msb & tb & l1 & b1 & l2 & b2 & l3 & b3 & Hokb).
    destruct Hokc as (dc & msc & tc & k1 & c1 & k2 & c2 & k3 & c3 & Hokc).
    exists (VDict {[ "base_model" := br; "cross_attention" := cr ]}), w1,
      tb, b1, b2, b3, tc, c1, c2, c3.
    split; [exact Hrun|]. intros w2.
    apply comparison_results_values.
    - exists db, msb, l1, l2, l3. exact Hokb.
    - exists dc, msc, k1, k2, k3. exact Hokc. }
  split; [|split].
  - destruct (Hrun 50 32 2000 "Improved Configuration" w)
      as (res & w1 & tb & b1 & b2 & b3 & tc & c1 & c2 & c3 & Hres & Hprint);
      try lia; [reflexivity|].
    exists res, w1. eexists. exists tb, b1, b2, b3, tc, c1, c2, c3.
    split; [exact Hres|]. unfold cell_improved_configuration.
    rewrite (bind_Ok_intro _ _ _ _ _ Hres), Hprint. split; reflexivity.
  - destruct (Hrun 100 32 5000 "Default Configuration" w)
      as (res & w1 & tb & b1 & b2 & b3 & tc & c1 & c2 & c3 & Hres & Hprint);
      try lia; [reflexivity|].
    exists res, w1. eexists. exists tb, b1, b2, b3, tc, c1, c2, c3.
    split; [exact Hres|]. unfold cell_default_configuration.
    rewrite (bind_Ok_intro _ _ _ _ _ Hres), Hprint. split; reflexivity.
  - unfold cell_two_configurations. destruct w as [np tr ck out].
    rewrite (bind_Ok_intro _ _ _ _ _ (print_spec _ _ _ _ _)).
    destruct (Hrun 1000 64 10000 "Default Configuration (64d)"
                (World np tr ck
                   (out ++ ["Running comparison with default settings..."])))
      as (r1 & w1 & tb & b1 & b2 & b3 & tc & c1 & c2 & c3 & Hr1 & Hp1);
      try lia; [reflexivity|].
    rewrite (bind_Ok_intro _ _ _ _ _ Hr1).
    destruct w1 as [np1 tr1 ck1 out1].
    rewrite (bind_Ok_intro _ _ _ _ _ (print_spec _ _ _ _ _)).
    destruct (Hrun 1000 32 10000 "Small Embedding Configuration (32d)"
                (World np1 tr1 ck1
                   (out1 ++ [nl +:+ "Running comparison with smaller embedding dimension..."])))
      as (r2 & w2 & tb' & b1' & b2' & b3' & tc' & c1' & c2' & c3' & Hr2 & Hp2);
      try lia; [reflexivity|].
    rewrite (bind_Ok_intro _ _ _ _ _ Hr2).
    rewrite (bind_Ok_intro _ _ _ _ _ (Hp1 _)).
    rewrite Hp2. eauto.
Qed.

End CellsRun.

Lemma last_replicate_S {A} (k : nat) (x : A) :
  last (replicate (S k) x) = Some x.
Proof. induction k as [|k IH]; [reflexivity | exact IH]. Qed.

(** With at least one epoch the stand-in returns a complete result. *)
Lemma train_and_measure_standin_complete (m : @model float)
    (train test : DataLoader) (epochs : Z) (w : world) :
  0 < epochs ->
  exists r w',
    train_and_measure_standin m train test epochs w = Ok r w' /\
    run_results_ok r.
Proof.
  intros Hepochs. unfold train_and_measure_standin. eexists _, _.
  split; [reflexivity|]. unfold run_results_ok.
  destruct (Z.to_nat epochs) as [|k] eqn:Hk; [lia|].
  eexists _, _, _, _, fzero, _, fzero, _, fzero.
  split; [reflexivity|].
  repeat (split; [first [solve [lookup_literal]
                        | apply last_replicate_S]|]).
  apply last_replicate_S.
Qed.

Lemma X16_cells_run_witness :
  (exists res w1 w' tb b1 b2 b3 tc c1 c2 c3,
     run_comparison (F := float) train_and_measure_standin 50 32 2000
       demo_world = Ok res w1 /\
     cell_improved_configuration train_and_measure_standin demo_world
     = Ok tt w' /\
     stdout w' =
       stdout w1
       ++ [nl +:+ "=== Results for Improved Configuration ==="]
       ++ model_lines "Base Model:" tb b1 b2 b3
       ++ model_lines "Cross-Attention Model:" tc c1 c2 c3) /\
  (exists w',
     cell_two_configurations (F := float) train_and_measure_standin demo_world
     = Ok tt w').
Proof.
  destruct (X16_cells_run (F := float) train_and_measure_standin demo_world)
    as (Himproved & _ & Htwo).
  - intros m train test w0. apply train_and_measure_standin_complete. lia.
  - split; [exact Himproved | exact Htwo].
Defined.
